(** * DD1750 core: a shallow embedding of [dd1750_core.py]

    The development follows the Python module top to bottom: text
    primitives, field extractors, the column mapper, the format detector,
    the two per-format item extractors, the extraction orchestrator and the
    layout and pagination engine; the metadata extractor, the conversion
    entry point and, from the web application [app.py], the file check and
    the item conversions of its routes follow.

    Modelling conventions.
    - A Python [str] is a [list ascii]; literals are written [py "..."].
      The character classes used by [str.strip], [str.split], [str.upper]
      and by the regular expressions ([\d], [\s], [\b]) are the ones Python
      gives to code points below 128, and the model is the code on text of
      such code points ([ascii_text]). From 128 on Python has more: the
      no-break space and the next-line control are white space, accented
      letters are word characters, [str.upper] maps them to capitals and
      the sharp s to two letters. The model leaves these characters alone,
      so a statement that depends on a class is made for ASCII text.
    - [int] of a run of more than 4300 digits raises [ValueError]
      ([MAX_STR_DIGITS]); the model gives the conversion its value, and a
      statement about what the code returns is made for runs within the
      limit ([plain_cell] for the cells of a table).
    - An optional table cell ([None] or a string) is an [option str].
    - A Python [int] is a [Z]; a list length or index is a [nat].
    - The PDF reading and writing libraries are outside the module: a
      document is the value their calls return, or the message of the
      exception they raise. *)

From Stdlib Require Import ZArith Lia Ascii String DecimalString.
From stdpp Require Import base option list.

Local Open Scope bool_scope.

(** ** Python strings *)

Module PyStr.

(** A Python string: a list of characters. *)
Abbreviation str := (list ascii).

Definition py (s : string) : str := list_ascii_of_string s.

Definition code (c : ascii) : N := N_of_ascii c.

Definition in_range (lo hi : N) (c : ascii) : bool :=
  (lo <=? code c)%N && (code c <=? hi)%N.

(** [\d] *)
Definition is_digit (c : ascii) : bool := in_range 48 57 c.

(** [\w] on ASCII text: letters, digits and the underscore. *)
Definition is_word (c : ascii) : bool :=
  is_digit c || in_range 65 90 c || in_range 97 122 c || (code c =? 95)%N.

(** [str.isspace] and [\s] on ASCII text: TAB, LF, VT, FF, CR, FS, GS, RS,
    US, SPACE. *)
Definition is_space (c : ascii) : bool :=
  in_range 9 13 c || in_range 28 32 c.

(** [c.upper()] for an ASCII character. *)
Definition upper_char (c : ascii) : ascii :=
  if in_range 97 122 c then ascii_of_N (code c - 32) else c.

(** [s.upper()] *)
Definition upper (s : str) : str := map upper_char s.

Fixpoint drop_while (p : ascii -> bool) (s : str) : str :=
  match s with
  | [] => []
  | c :: t => if p c then drop_while p t else s
  end.

Fixpoint take_while (p : ascii -> bool) (s : str) : str :=
  match s with
  | [] => []
  | c :: t => if p c then c :: take_while p t else []
  end.

Definition lstrip (s : str) : str := drop_while is_space s.
Definition rstrip (s : str) : str := rev (drop_while is_space (rev s)).

(** [s.strip()] *)
Definition strip (s : str) : str := rstrip (lstrip s).

Definition nl : ascii := "010"%char.

(** [s.split(d)] for a one-character separator: never the empty list. *)
Fixpoint split_on (d : ascii) (s : str) : list str :=
  match s with
  | [] => [[]]
  | c :: t =>
      if Ascii.eqb c d then [] :: split_on d t
      else match split_on d t with
           | [] => [[c]]
           | l :: ls => (c :: l) :: ls
           end
  end.

(** The token in progress at the head of [s], and the tokens after it. *)
Fixpoint tokens (s : str) : str * list str :=
  match s with
  | [] => ([], [])
  | c :: t =>
      let '(w, ws) := tokens t in
      if is_space c then ([], match w with [] => ws | _ => w :: ws end)
      else (c :: w, ws)
  end.

(** [s.split()]: the maximal runs of characters that are not white space. *)
Definition split_ws (s : str) : list str :=
  let '(w, ws) := tokens s in
  match w with [] => ws | _ => w :: ws end.

Fixpoint str_eqb (a b : str) : bool :=
  match a, b with
  | [], [] => true
  | x :: a', y :: b' => Ascii.eqb x y && str_eqb a' b'
  | _, _ => false
  end.

(** [s.startswith(p)] *)
Fixpoint starts_with (p s : str) : bool :=
  match p, s with
  | [], _ => true
  | x :: p', y :: s' => Ascii.eqb x y && starts_with p' s'
  | _ :: _, [] => false
  end.

(** [p in s] *)
Fixpoint str_in (p s : str) : bool :=
  starts_with p s ||
  match s with
  | [] => false
  | _ :: t => str_in p t
  end.

(** [sep.join(parts)] *)
Fixpoint join (sep : str) (parts : list str) : str :=
  match parts with
  | [] => []
  | [p] => p
  | p :: ps => p ++ sep ++ join sep ps
  end.

(** [s.replace(a, b)] for single characters. *)
Definition replace_char (a b : ascii) (s : str) : str :=
  map (fun c => if Ascii.eqb c a then b else c) s.

(** [re.sub(r'\s+', ' ', s)]: every maximal run of white space becomes one
    space. *)
Fixpoint collapse_from (in_run : bool) (s : str) : str :=
  match s with
  | [] => []
  | c :: t =>
      if is_space c then
        if in_run then collapse_from true t
        else " "%char :: collapse_from true t
      else c :: collapse_from false t
  end.

Definition collapse_ws (s : str) : str := collapse_from false s.

(** [re.sub(pat + '$', '', s)] for a pattern [pat] that cannot match the
    empty string, [at_end] deciding whether a whole suffix matches [pat]:
    the leftmost position whose suffix matches is where the text is cut. *)
Fixpoint cut_suffix (at_end : str -> bool) (s : str) : str :=
  if at_end s then []
  else match s with
       | [] => []
       | c :: t => c :: cut_suffix at_end t
       end.

(** [int(s)] for a run of decimal digits [s], of a length the interpreter
    accepts: on a run of more than 4300 digits, its default limit, [int]
    raises [ValueError]. *)
Definition digit_val (c : ascii) : Z := Z.of_N (code c) - 48.

Definition int_of_digits (s : str) : Z :=
  fold_left (fun acc c => 10 * acc + digit_val c)%Z s 0%Z.

(** [str(n)] for an integer [n]. *)
Definition str_of_Z (n : Z) : str :=
  py (DecimalString.NilZero.string_of_int (Z.to_int n)).

End PyStr.

Import PyStr.

(** ** Data model *)

Inductive BomFormat := GCSS_ARMY_STANDARD | EPP_FORMAT | UNKNOWN.

Record BomItem := {
  line_no : Z;
  description : str;
  nsn : str;
  qty : Z;
  unit_of_issue : str;
  material_number : str;
  is_editable : bool;
  original_description : str
}.

(** The call [BomItem(line_no=.., description=.., nsn=.., qty=..,
    unit_of_issue=..)]: the other fields take their defaults and
    [__post_init__] snapshots the description. *)
Definition new_item (n : Z) (d s : str) (q : Z) (u : str) : BomItem :=
  {| line_no := n; description := d; nsn := s; qty := q;
     unit_of_issue := u; material_number := []; is_editable := true;
     original_description := d |}.

Definition set_line_no (n : Z) (it : BomItem) : BomItem :=
  {| line_no := n; description := description it; nsn := nsn it;
     qty := qty it; unit_of_issue := unit_of_issue it;
     material_number := material_number it; is_editable := is_editable it;
     original_description := original_description it |}.

Record HeaderInfo := {
  packed_by : str;
  num_boxes : str;
  requisition_no : str;
  order_no : str;
  end_item : str;
  date : str
}.

(** A table cell is [None] or a string; a row is a list of cells and a
    table a list of rows. *)
Abbreviation cell := (option str).
Abbreviation row := (list (option str)).
Abbreviation table := (list (list (option str))).

(** Python truth value of an optional cell: [None] and [''] are false. *)
Definition truthy (c : cell) : bool :=
  match c with
  | Some (_ :: _) => true
  | _ => false
  end.

(** The values [extract_quantity] is written for: [None], a string or an
    integer. *)
Inductive PyValue :=
| PyNone
| PyStr (s : str)
| PyInt (n : Z).

Definition of_cell (c : cell) : PyValue :=
  match c with
  | None => PyNone
  | Some s => PyStr s
  end.

(** [bool(v)] *)
Definition py_truth (v : PyValue) : bool :=
  match v with
  | PyNone => false
  | PyStr s => truthy (Some s)
  | PyInt n => negb (n =? 0)%Z
  end.

(** [str(v)] *)
Definition py_str (v : PyValue) : str :=
  match v with
  | PyNone => py "None"
  | PyStr s => s
  | PyInt n => str_of_Z n
  end.

(** ** Field extractors *)

(** [n] digits at the head of [s]: the digits and what follows them. *)
Fixpoint take_digits (n : nat) (s : str) : option (str * str) :=
  match n with
  | O => Some ([], s)
  | S n' =>
      match s with
      | c :: t =>
          if is_digit c then
            '(d, r) ← take_digits n' t; Some (c :: d, r)
          else None
      | [] => None
      end
  end.

(** [\b] after a word character: the text ends or goes on with a character
    that is not a word character. *)
Definition word_end (rest : str) : bool :=
  match rest with
  | [] => true
  | c :: _ => negb (is_word c)
  end.

Definition expect (ch : ascii) (s : str) : option str :=
  match s with
  | c :: t => if Ascii.eqb c ch then Some t else None
  | [] => None
  end.

(** [re.match(r'^(\d{9})\b', line)], giving group 1. *)
Definition match_niin (line : str) : option str :=
  '(d, r) ← take_digits 9 line;
  if word_end r then Some d else None.

(** [\d{4}-\d{2}-\d{3}-\d{4}\b] at the head of [s], giving groups 2, 3 and 4
    concatenated. *)
Definition match_nsn (s : str) : option str :=
  '(_, r) ← take_digits 4 s;
  r ← expect "-" r;
  '(g2, r) ← take_digits 2 r;
  r ← expect "-" r;
  '(g3, r) ← take_digits 3 r;
  r ← expect "-" r;
  '(g4, r) ← take_digits 4 r;
  if word_end r then Some (g2 ++ g3 ++ g4) else None.

(** [re.search(r'\b' + pat, text)] for a pattern that starts with a digit:
    the leftmost position that is not preceded by a word character and where
    [m] matches. [prev_word] tells whether the character before [s] is a
    word character. *)
Fixpoint search_bounded (m : str -> option str) (prev_word : bool) (s : str)
  : option str :=
  match s with
  | [] => None
  | c :: t =>
      match (if prev_word then None else m s) with
      | Some r => Some r
      | None => search_bounded m (is_word c) t
      end
  end.

(** The first line, stripped, that [match_niin] accepts. *)
Fixpoint first_line_niin (lines : list str) : option str :=
  match lines with
  | [] => None
  | l :: ls =>
      match match_niin (strip l) with
      | Some r => Some r
      | None => first_line_niin ls
      end
  end.

Definition extract_nsn_from_material (material_text : cell) : str :=
  if negb (truthy material_text) then []
  else
    let text := strip (default [] material_text) in
    match first_line_niin (split_on nl text) with
    | Some r => r
    | None =>
        match search_bounded match_niin false text with
        | Some r => r
        | None =>
            match search_bounded match_nsn false text with
            | Some r => r
            | None => []
            end
        end
    end.

(** [re.search(r'(\d+)', s)], giving group 1. *)
Definition first_digit_run (s : str) : option str :=
  match take_while is_digit (drop_while (fun c => negb (is_digit c)) s) with
  | [] => None
  | r => Some r
  end.

(** The value [extract_quantity] returns. When the first run of digits has
    more than 4300 digits the conversion raises [ValueError] and nothing
    is returned; the value given here is then the one the run denotes. *)
Definition extract_quantity (qty_cell : PyValue) : Z :=
  if negb (py_truth qty_cell) then 1%Z
  else
    let qty_str := strip (py_str qty_cell) in
    match first_digit_run qty_str with
    | Some r => int_of_digits r
    | None => 1%Z
    end.

(** The trailing codes of
    [r'\s+(WTY|ARC|CIIC|UI|SCMC|EA|AY|9K|9G|9B|9T|2B|2E|2W|2T|85|7K|7B)$']. *)
Definition trailing_codes : list str :=
  map py ["WTY"; "ARC"; "CIIC"; "UI"; "SCMC"; "EA"; "AY"; "9K"; "9G"; "9B";
          "9T"; "2B"; "2E"; "2W"; "2T"; "85"; "7K"; "7B"]%string.

(** A whole suffix is white space followed by one of the codes, in any
    case. The text it is applied to holds no line feed, so that [$] is the
    end of the text. *)
Definition code_suffix (s : str) : bool :=
  match s with
  | c :: t =>
      is_space c &&
      existsb (str_eqb (upper (drop_while is_space t))) trailing_codes
  | [] => false
  end.

Definition clean_description (desc_text : cell) : str :=
  if negb (truthy desc_text) then []
  else
    let lines := split_on nl (strip (default [] desc_text)) in
    let description :=
      match lines with
      | _ :: l1 :: _ => strip l1
      | l0 :: _ => strip l0
      | [] => []
      end in
    let description :=
      if str_in (py "(") description
      then strip (hd [] (split_on "("%char description))
      else description in
    let description := cut_suffix code_suffix description in
    strip (collapse_ws description).

(** ** Column mapper *)

Record Indices := {
  ix_lv : option nat;
  ix_description : option nat;
  ix_material : option nat;
  ix_auth_qty : option nat;
  ix_oh_qty : option nat;
  ix_ui : option nat;
  ix_image : option nat
}.

Definition no_indices : Indices :=
  {| ix_lv := None; ix_description := None; ix_material := None;
     ix_auth_qty := None; ix_oh_qty := None; ix_ui := None;
     ix_image := None |}.

Inductive Role :=
  RLv | RDescription | RMaterial | RAuthQty | ROhQty | RUi | RImage.

(** [indices[role] = i] *)
Definition set_index (r : Role) (i : nat) (ix : Indices) : Indices :=
  match r with
  | RLv =>
      {| ix_lv := Some i; ix_description := ix_description ix;
         ix_material := ix_material ix; ix_auth_qty := ix_auth_qty ix;
         ix_oh_qty := ix_oh_qty ix; ix_ui := ix_ui ix;
         ix_image := ix_image ix |}
  | RDescription =>
      {| ix_lv := ix_lv ix; ix_description := Some i;
         ix_material := ix_material ix; ix_auth_qty := ix_auth_qty ix;
         ix_oh_qty := ix_oh_qty ix; ix_ui := ix_ui ix;
         ix_image := ix_image ix |}
  | RMaterial =>
      {| ix_lv := ix_lv ix; ix_description := ix_description ix;
         ix_material := Some i; ix_auth_qty := ix_auth_qty ix;
         ix_oh_qty := ix_oh_qty ix; ix_ui := ix_ui ix;
         ix_image := ix_image ix |}
  | RAuthQty =>
      {| ix_lv := ix_lv ix; ix_description := ix_description ix;
         ix_material := ix_material ix; ix_auth_qty := Some i;
         ix_oh_qty := ix_oh_qty ix; ix_ui := ix_ui ix;
         ix_image := ix_image ix |}
  | ROhQty =>
      {| ix_lv := ix_lv ix; ix_description := ix_description ix;
         ix_material := ix_material ix; ix_auth_qty := ix_auth_qty ix;
         ix_oh_qty := Some i; ix_ui := ix_ui ix;
         ix_image := ix_image ix |}
  | RUi =>
      {| ix_lv := ix_lv ix; ix_description := ix_description ix;
         ix_material := ix_material ix; ix_auth_qty := ix_auth_qty ix;
         ix_oh_qty := ix_oh_qty ix; ix_ui := Some i;
         ix_image := ix_image ix |}
  | RImage =>
      {| ix_lv := ix_lv ix; ix_description := ix_description ix;
         ix_material := ix_material ix; ix_auth_qty := ix_auth_qty ix;
         ix_oh_qty := ix_oh_qty ix; ix_ui := ix_ui ix;
         ix_image := Some i |}
  end.

(** The [if ... elif ...] chain of [find_column_indices] on one header cell
    that is not empty: the first rule that applies names the role. *)
Definition role_of (c : str) : option Role :=
  let text := strip (upper c) in
  let text_joined := replace_char nl " "%char text in
  if str_eqb text (py "LV") || str_eqb text (py "LEVEL")
     || existsb (str_eqb (py "LV")) (split_ws text) then Some RLv
  else if str_in (py "DESC") text then Some RDescription
  else if str_in (py "MATERIAL") text || str_eqb text (py "MAT")
  then Some RMaterial
  else if (str_in (py "AUTH") text_joined && str_in (py "QTY") text_joined)
          || str_eqb text_joined (py "AUTH QTY") then Some RAuthQty
  else if (str_in (py "OH") text_joined && str_in (py "QTY") text_joined)
          || str_eqb text_joined (py "OH QTY") then Some ROhQty
  else if str_eqb text (py "UI") || str_eqb text (py "UNIT") then Some RUi
  else if str_in (py "IMAGE") text || str_eqb text (py "IMG")
  then Some RImage
  else None.

(** One turn of [for i, cell in enumerate(header)]. *)
Definition column_step (ix : Indices) (ic : nat * cell) : Indices :=
  let '(i, c) := ic in
  if negb (truthy c) then ix
  else match role_of (default [] c) with
       | Some r => set_index r i ix
       | None => ix
       end.

(** [enumerate(l)] *)
Definition enumerate {A} (l : list A) : list (nat * A) :=
  zip (seq 0 (length l)) l.

Definition find_column_indices (header : row) : Indices :=
  fold_left column_step (enumerate header) no_indices.

(** ** Format detector *)

(** [' '.join(str(cell or '') for cell in header).upper()] *)
Definition header_text (header : row) : str :=
  upper (join (py " ") (map (default []) header)).

(** [table and len(table) > 0], then a test on the text of [table[0]]. *)
Definition header_has (p : str -> bool) (t : table) : bool :=
  match t with
  | header :: _ => p (header_text header)
  | [] => false
  end.

Definition lv_header (ht : str) : bool :=
  str_in (py "LV") ht || str_in (py "LEVEL") ht.

Definition material_description_header (ht : str) : bool :=
  str_in (py "MATERIAL") ht && str_in (py "DESCRIPTION") ht.

Definition listing_marker (page_text : str) : bool :=
  str_in (py "COMPONENT LISTING") (upper page_text)
  || str_in (py "HAND RECEIPT") (upper page_text).

Definition auth_qty_marker (page_text : str) : bool :=
  str_in (py "AUTH") (upper page_text) && str_in (py "QTY") (upper page_text).

Definition epp_marker (page_text : str) : bool :=
  str_in (py "PWR PLANT") (upper page_text)
  || str_in (py "OPERATIONAL SUPPORT") (upper page_text).

(** The first block of [detect_bom_format]: what it returns, if it does. *)
Definition detect_listing (tables : list table) (page_text : str)
  : option BomFormat :=
  if listing_marker page_text then
    if existsb (header_has lv_header) tables then Some GCSS_ARMY_STANDARD
    else if auth_qty_marker page_text then Some GCSS_ARMY_STANDARD
    else None
  else None.

Definition detect_bom_format (tables : list table) (page_text : str)
  : BomFormat :=
  match detect_listing tables page_text with
  | Some f => f
  | None =>
      if epp_marker page_text then EPP_FORMAT
      else if existsb (header_has material_description_header) tables
      then GCSS_ARMY_STANDARD
      else UNKNOWN
  end.

(** ** Per-format item extractors *)

(** [row[i] if i < len(row) else None] *)
Definition cell_at (r : row) (i : nat) : cell := default None (r !! i).

(** [not any(cell for cell in row if cell)] *)
Definition empty_row (r : row) : bool := negb (existsb truthy r).

(** [cell_at] under the guard [idx is not None and idx < len(row)]. *)
Definition column_cell (r : row) (idx : option nat) : option cell :=
  match idx with
  | Some i => if decide (i < length r) then Some (cell_at r i) else None
  | None => None
  end.

(** The first stripped line of at least three characters, or [''] when
    there is none. *)
Fixpoint first_long_line (lines : list str) : str :=
  match lines with
  | [] => []
  | l :: ls =>
      let line := strip l in
      if decide (3 <= length line) then line else first_long_line ls
  end.

Definition is_slash (c : ascii) : bool :=
  Ascii.eqb c "/"%char || Ascii.eqb c "\"%char.

(** A whole suffix matches [[/\\]+\s*]. *)
Definition slash_suffix (s : str) : bool :=
  match s with
  | c :: t => is_slash c && forallb is_space (drop_while is_slash t)
  | [] => false
  end.

(** The description of a row of the standard listing. *)
Definition gcss_description (desc_cell : cell) : str :=
  if truthy desc_cell then
    let lines := split_on nl (strip (default [] desc_cell)) in
    let description := first_long_line lines in
    let description := strip (collapse_ws description) in
    cut_suffix slash_suffix description
  else [].

Definition skip_patterns : list str :=
  map py ["COMPONENT OF END ITEM"; "BASIC ISSUE ITEMS"; "COEI-"; "BII-";
          "OPERATIONAL SUPPORT"]%string.

(** The level test of the standard path: [true] when the row is skipped. *)
Definition gcss_level_skip (ix : Indices) (r : row) : bool :=
  match ix_lv ix with
  | Some l =>
      let lv_cell := cell_at r l in
      if negb (truthy lv_cell) then true
      else negb (str_eqb (upper (strip (default [] lv_cell))) (py "B"))
  | None => false
  end.

(** The fields read off a row: description, stock number, quantity. *)
Definition Fields : Type := str * str * Z.

Definition row_nsn (ix : Indices) (r : row) : str :=
  match column_cell r (ix_material ix) with
  | Some mat_cell => extract_nsn_from_material mat_cell
  | None => []
  end.

Definition gcss_qty (ix : Indices) (r : row) : Z :=
  match column_cell r (ix_auth_qty ix) with
  | Some qty_cell =>
      if truthy qty_cell then extract_quantity (of_cell qty_cell) else 1%Z
  | None => 1%Z
  end.

(** The body of [for row_num, row in enumerate(table[1:])] in
    [extract_items_gcss_standard]: [None] stands for [continue]. *)
Definition gcss_row (ix : Indices) (r : row) : option Fields :=
  match ix_description ix with
  | None => None
  | Some d =>
      if empty_row r then None
      else if gcss_level_skip ix r then None
      else
        let description := gcss_description (cell_at r d) in
        if decide (length description < 3) then None
        else if existsb (fun pat => str_in pat (upper description))
                  skip_patterns then None
        else Some (description, row_nsn ix r, gcss_qty ix r)
  end.

(** [items.append(BomItem(line_no=len(items) + 1, description=d[:100],
    nsn=.., qty=.., unit_of_issue="EA"))] *)
Definition append_item (items : list BomItem) (f : Fields) : list BomItem :=
  let '(d, s, q) := f in
  items ++ [new_item (Z.of_nat (length items) + 1) (take 100 d) s q (py "EA")].

Definition row_step (on_row : row -> option Fields)
    (items : list BomItem) (r : row) : list BomItem :=
  match on_row r with
  | Some f => append_item items f
  | None => items
  end.

(** The second look for a description column in the standard path: the
    first header cell whose upper-cased text holds [DESC]. *)
Fixpoint gcss_find_desc (cells : list (nat * cell)) : option nat :=
  match cells with
  | [] => None
  | (i, c) :: rest =>
      if truthy c && str_in (py "DESC") (upper (default [] c)) then Some i
      else gcss_find_desc rest
  end.

Definition gcss_indices (header : row) : Indices :=
  let ix := find_column_indices header in
  match ix_description ix with
  | Some _ => ix
  | None =>
      match gcss_find_desc (enumerate header) with
      | Some i => set_index RDescription i ix
      | None => ix
      end
  end.

(** One turn of [for table in tables], [items] being the list built so
    far. *)
Definition gcss_table (items : list BomItem) (t : table) : list BomItem :=
  match t with
  | header :: ((_ :: _) as rows) =>
      let ix := gcss_indices header in
      match ix_description ix with
      | None => items
      | Some _ => fold_left (row_step (gcss_row ix)) rows items
      end
  | _ => items
  end.

Definition extract_items_gcss_standard (tables : list table) : list BomItem :=
  fold_left gcss_table tables [].

(** The second look for a description column in the other path: every
    matching header cell is assigned, so the last one stays. *)
Definition epp_desc_step (ix : Indices) (ic : nat * cell) : Indices :=
  let '(i, c) := ic in
  if negb (truthy c) then ix
  else
    let text := upper (default [] c) in
    if str_in (py "DESCR") text || str_eqb text (py "DESC")
    then set_index RDescription i ix
    else ix.

Definition epp_indices (header : row) : Indices :=
  let ix := find_column_indices header in
  match ix_description ix with
  | Some _ => ix
  | None => fold_left epp_desc_step (enumerate header) ix
  end.

(** The level test of the other path: only a row marked [A] is skipped. *)
Definition epp_level_skip (ix : Indices) (r : row) : bool :=
  match ix_lv ix with
  | Some l =>
      let lv_cell := cell_at r l in
      truthy lv_cell && str_eqb (upper (strip (default [] lv_cell))) (py "A")
  | None => false
  end.

Definition epp_categories : list str :=
  map py ["COMPONENT OF END ITEM"; "BASIC ISSUE ITEMS";
          "OPERATIONAL SUPPORT"; "COEI"; "BII"]%string.

Definition epp_qty (ix : Indices) (r : row) : Z :=
  match column_cell r (ix_auth_qty ix) with
  | Some qty_cell => extract_quantity (of_cell qty_cell)
  | None => 1%Z
  end.

(** The body of [for row in table[1:]] in [extract_items_epp_format]. *)
Definition epp_row (ix : Indices) (r : row) : option Fields :=
  match ix_description ix with
  | None => None
  | Some d =>
      if empty_row r then None
      else if epp_level_skip ix r then None
      else
        let description := clean_description (cell_at r d) in
        match description with
        | [] => None
        | _ :: _ =>
            if existsb (str_eqb (upper description)) epp_categories then None
            else Some (description, row_nsn ix r, epp_qty ix r)
        end
  end.

Definition epp_table (items : list BomItem) (t : table) : list BomItem :=
  match t with
  | header :: ((_ :: _) as rows) =>
      let ix := epp_indices header in
      match ix_description ix with
      | None => items
      | Some _ => fold_left (row_step (epp_row ix)) rows items
      end
  | _ => items
  end.

(** [page_text] is accepted and not used. *)
Definition extract_items_epp_format (tables : list table) (page_text : str)
  : list BomItem :=
  fold_left epp_table tables [].

(** ** Extraction orchestrator *)

(** What a call into the PDF reader does: it returns a value or raises an
    exception [e], kept as the text [str(e)]. *)
Inductive outcome (A : Type) : Type :=
| Returns (a : A)
| Raises (msg : str).
Arguments Returns {A} a.
Arguments Raises {A} msg.

(** One page of the opened document: what [page.extract_text()] and
    [page.extract_tables()] do. *)
Record Page := {
  extract_text : outcome (option str);
  extract_tables : outcome (list table)
}.

(** What [pdfplumber.open(pdf_path)] does: it gives the pages or raises. *)
Definition Document : Type := outcome (list Page).

Record BomMetadata := {
  end_item_niin : str;
  end_item_description : str;
  lin : str;
  pub_num : str;
  pub_date : str;
  serial_equip_no : str;
  uic : str;
  fe : str;
  bom_format : BomFormat
}.

Definition default_metadata : BomMetadata :=
  {| end_item_niin := []; end_item_description := []; lin := [];
     pub_num := []; pub_date := []; serial_equip_no := []; uic := [];
     fe := []; bom_format := UNKNOWN |}.

Definition set_bom_format (f : BomFormat) (m : BomMetadata) : BomMetadata :=
  {| end_item_niin := end_item_niin m;
     end_item_description := end_item_description m; lin := lin m;
     pub_num := pub_num m; pub_date := pub_date m;
     serial_equip_no := serial_equip_no m; uic := uic m; fe := fe m;
     bom_format := f |}.

Record ExtractionResult := {
  items : list BomItem;
  metadata : BomMetadata;
  warnings : list str;
  errors : list str;
  pages_processed : nat;
  format_detected : BomFormat
}.

(** [ExtractionResult()] *)
Definition new_result : ExtractionResult :=
  {| items := []; metadata := default_metadata; warnings := [];
     errors := []; pages_processed := 0; format_detected := UNKNOWN |}.

(** Python indexing [l[i]]: a negative index counts from the end, and an
    index outside the list raises [IndexError]. *)
Definition py_index {A} (l : list A) (i : Z) : outcome A :=
  let j := if (i <? 0)%Z then (Z.of_nat (length l) + i)%Z else i in
  if (j <? 0)%Z then Raises (py "list index out of range")
  else match l !! Z.to_nat j with
       | Some x => Returns x
       | None => Raises (py "list index out of range")
       end.

(** Python slicing [l[i:]]. *)
Definition py_slice_from {A} (l : list A) (i : Z) : list A :=
  let j := if (i <? 0)%Z then Z.max 0 (Z.of_nat (length l) + i) else i in
  drop (Z.to_nat j) l.

(** The body of the [try] block runs over the result object it mutates and
    may stop on an exception; the mutations made so far stay. *)
Module Try.

Definition M (A : Type) : Type :=
  ExtractionResult -> outcome A * ExtractionResult.

Definition ret {A} (a : A) : M A := fun r => (Returns a, r).

Definition bind {A B} (m : M A) (k : A -> M B) : M B :=
  fun r =>
    match m r with
    | (Returns a, r') => k a r'
    | (Raises e, r') => (Raises e, r')
    end.

(** A call into the PDF reader. *)
Definition call {A} (o : outcome A) : M A := fun r => (o, r).

(** An assignment to the result object. *)
Definition update (f : ExtractionResult -> ExtractionResult) : M unit :=
  fun r => (Returns tt, f r).

Definition get : M ExtractionResult := fun r => (Returns r, r).

End Try.

Notation "x <- m ;; k" := (Try.bind m (fun x => k))
  (at level 100, m at next level, right associativity).
Notation "m ;;; k" := (Try.bind m (fun _ => k))
  (at level 100, right associativity).

Definition add_error (e : str) (r : ExtractionResult) : ExtractionResult :=
  {| items := items r; metadata := metadata r; warnings := warnings r;
     errors := errors r ++ [e]; pages_processed := pages_processed r;
     format_detected := format_detected r |}.

Definition add_warning (w : str) (r : ExtractionResult) : ExtractionResult :=
  {| items := items r; metadata := metadata r;
     warnings := warnings r ++ [w]; errors := errors r;
     pages_processed := pages_processed r;
     format_detected := format_detected r |}.

Definition set_items (l : list BomItem) (r : ExtractionResult)
  : ExtractionResult :=
  {| items := l; metadata := metadata r; warnings := warnings r;
     errors := errors r; pages_processed := pages_processed r;
     format_detected := format_detected r |}.

Definition set_metadata (m : BomMetadata) (r : ExtractionResult)
  : ExtractionResult :=
  {| items := items r; metadata := m; warnings := warnings r;
     errors := errors r; pages_processed := pages_processed r;
     format_detected := format_detected r |}.

Definition set_format (f : BomFormat) (r : ExtractionResult)
  : ExtractionResult :=
  {| items := items r; metadata := metadata r; warnings := warnings r;
     errors := errors r; pages_processed := pages_processed r;
     format_detected := f |}.

Definition count_page (r : ExtractionResult) : ExtractionResult :=
  {| items := items r; metadata := metadata r; warnings := warnings r;
     errors := errors r; pages_processed := S (pages_processed r);
     format_detected := format_detected r |}.

(** The dispatch on the detected format, for the tables and text of one
    page. *)
Definition page_items (f : BomFormat) (tables : list table) (page_text : str)
  : list BomItem :=
  match f with
  | GCSS_ARMY_STANDARD => extract_items_gcss_standard tables
  | EPP_FORMAT => extract_items_epp_format tables page_text
  | UNKNOWN =>
      match extract_items_gcss_standard tables with
      | [] => extract_items_epp_format tables page_text
      | found => found
      end
  end.

(** [for page_num, page in enumerate(pdf.pages[start_page:], ...)], with
    [all_items] the list built so far. The exceptions are those of the two
    calls into the reader; the extractors raise on no page whose cells are
    within the conversion limit. *)
Fixpoint extract_pages (pages : list Page) (all_items : list BomItem)
  : Try.M (list BomItem) :=
  match pages with
  | [] => Try.ret all_items
  | page :: rest =>
      Try.update count_page ;;;
      tables <- Try.call (extract_tables page) ;;
      text <- Try.call (extract_text page) ;;
      r <- Try.get ;;
      extract_pages rest
        (all_items ++ page_items (format_detected r) tables (default [] text))
  end.

(** [for i, item in enumerate(all_items): item.line_no = i + 1] *)
Definition renumber (all_items : list BomItem) : list BomItem :=
  map (fun '(i, item) => set_line_no (Z.of_nat i + 1) item)
      (enumerate all_items).

Definition start_page_error (start_page : Z) (n : nat) : str :=
  py "Start page " ++ str_of_Z start_page
  ++ py " exceeds document length (" ++ str_of_Z (Z.of_nat n)
  ++ py " pages)".

Definition no_items_warning : str :=
  py "No items extracted. Ensure the PDF is a GCSS-Army BOM format.".

Section Orchestrator.

(** [extract_metadata] only fills the metadata block from the text of the
    first page; it is kept abstract. *)
Variable extract_metadata : str -> BomMetadata.

(** The body of the [with] statement. *)
Definition extract_body (pages : list Page) (start_page : Z) : Try.M unit :=
  if (Z.of_nat (length pages) <=? start_page)%Z then
    Try.update (add_error (start_page_error start_page (length pages)))
  else
    first_page <- Try.call (py_index pages start_page) ;;
    text <- Try.call (extract_text first_page) ;;
    let first_page_text := default [] text in
    first_page_tables <- Try.call (extract_tables first_page) ;;
    let f := detect_bom_format first_page_tables first_page_text in
    Try.update (set_format f) ;;;
    Try.update (set_metadata (extract_metadata first_page_text)) ;;;
    Try.update (fun r => set_metadata (set_bom_format f (metadata r)) r) ;;;
    all_items <- extract_pages (py_slice_from pages start_page) [] ;;
    Try.update (set_items (renumber all_items)) ;;;
    r <- Try.get ;;
    match items r with
    | [] => Try.update (add_warning no_items_warning)
    | _ :: _ => Try.ret tt
    end.

(** [try: with pdfplumber.open(pdf_path) as pdf: ... except Exception as e:
    result.errors.append(...)], then [return result]. *)
Definition extract_items_from_pdf (pdf : Document) (start_page : Z)
  : ExtractionResult :=
  let body := pages <- Try.call pdf ;; extract_body pages start_page in
  match body new_result with
  | (Returns _, r) => r
  | (Raises e, r) => add_error (py "Failed to process PDF: " ++ e) r
  end.

End Orchestrator.

(** ** Layout and pagination engine *)

Definition ROWS_PER_PAGE : nat := 18.

(** What [generate_dd1750_overlay] draws for one item. The row index [i]
    fixes where: the row top is [Y_TABLE_TOP - i * ROW_H] and the six
    bands have constant bounds. [nsn_line] is [None] when no second line
    is drawn. *)
Record DrawnRow := {
  row_index : nat;
  box_number : str;
  description_line : str;
  nsn_line : option str;
  unit_band : str;
  initial_band : str;
  spares_band : str;
  total_band : str
}.

Record Overlay := {
  page_stamp : str;
  total_stamp : str;
  drawn_rows : list DrawnRow
}.

Definition draw_row (ii : nat * BomItem) : DrawnRow :=
  let '(i, item) := ii in
  {| row_index := i;
     box_number := str_of_Z (line_no item);
     description_line :=
       if decide (55 < length (description item))
       then take 55 (description item) else description item;
     nsn_line :=
       match nsn item with
       | [] => None
       | _ :: _ => Some (py "NSN: " ++ nsn item)
       end;
     unit_band := py "EA";
     initial_band := str_of_Z (qty item);
     spares_band := py "0";
     total_band := str_of_Z (qty item) |}.

(** [header] is accepted and not used. *)
Definition generate_dd1750_overlay (page_rows : list BomItem)
    (page_num total_pages : Z) (header : option HeaderInfo) : Overlay :=
  {| page_stamp := str_of_Z page_num;
     total_stamp := str_of_Z total_pages;
     drawn_rows := map draw_row (enumerate page_rows) |}.

(** A text field widget, with the entries the code writes: [/T], [/Rect],
    [/F], [/Ff], [/DA], [/TU], [/V] and [/DV]. *)
Record TextField := {
  field_name : str;
  field_rect : Z * Z * Z * Z;
  annotation_flags : Z;
  field_flags : Z;
  default_appearance : str;
  tooltip : str;
  field_value : str;
  default_value : str
}.

(** A page of the written document: a copy of the template page, the
    overlay merged onto it if any, and the widgets appended to it. *)
Record OutPage := {
  overlay : option Overlay;
  annots : list TextField
}.

(** The written document; [acro_fields] is [None] when no [/AcroForm] is
    created. *)
Record OutDoc := {
  pages : list OutPage;
  acro_fields : option (list TextField)
}.

Definition form_fields : list (str * (Z * Z * Z * Z) * str) :=
  [ (py "packed_by", (92, 732, 230, 746), py "Packed By");
    (py "no_boxes", (282, 732, 332, 746), py "Number of Boxes");
    (py "req_no", (405, 732, 566, 746), py "Requisition Number");
    (py "order_no", (405, 712, 566, 726), py "Order Number");
    (py "end_item", (92, 689, 370, 703), py "End Item");
    (py "date", (447, 689, 566, 703), py "Date");
    (py "typed_name", (92, 46, 290, 60), py "Typed Name and Title") ]%Z.

Definition make_field (field_def : str * (Z * Z * Z * Z) * str) : TextField :=
  let '(name, rect, tip) := field_def in
  {| field_name := name;
     field_rect := rect;
     annotation_flags := 4;
     field_flags := 0;
     default_appearance := py "/Helv 9 Tf 0 g";
     tooltip := tip;
     field_value := [];
     default_value := [] |}.

Definition add_annot (f : TextField) (p : OutPage) : OutPage :=
  {| overlay := overlay p; annots := annots p ++ [f] |}.

(** One turn of [for field_def in form_fields]: the widget goes to
    [writer.pages[0]] and to the fields of the form. *)
Definition add_field (d : OutDoc) (field_def : str * (Z * Z * Z * Z) * str)
  : OutDoc :=
  let f := make_field field_def in
  {| pages := alter (add_annot f) 0 (pages d);
     acro_fields := Some (default [] (acro_fields d) ++ [f]) |}.

(** [math.ceil(n / d)]; the float quotient gives the exact ceiling for
    every [n] below [2^53]. *)
Definition ceil_div (n d : nat) : nat := (n + d - 1) / d.

(** [l[a:b]] for indices that are not negative. *)
Definition slice {A} (l : list A) (a b : nat) : list A :=
  take (b - a) (drop a l).

(** One turn of [for page_num in range(total_pages)]. *)
Definition make_page (all_items : list BomItem) (total_pages : nat)
    (header : option HeaderInfo) (page_num : nat) : OutPage :=
  let start_idx := page_num * ROWS_PER_PAGE in
  let end_idx := min ((page_num + 1) * ROWS_PER_PAGE) (length all_items) in
  let page_rows := slice all_items start_idx end_idx in
  {| overlay :=
       Some (generate_dd1750_overlay page_rows (Z.of_nat page_num + 1)
               (Z.of_nat total_pages) header);
     annots := [] |}.

(** The document written to [output_path], and the item count returned. *)
Definition generate_dd1750_from_items (all_items : list BomItem)
    (header : option HeaderInfo) : OutDoc * nat :=
  match all_items with
  | [] => ({| pages := [ {| overlay := None; annots := [] |} ];
              acro_fields := None |}, 0)
  | _ :: _ =>
      let total_pages := ceil_div (length all_items) ROWS_PER_PAGE in
      let written :=
        {| pages := map (make_page all_items total_pages header)
                        (seq 0 total_pages);
           acro_fields := Some [] |} in
      (fold_left add_field form_fields written, length all_items)
  end.

(** ** What the claims are stated with *)

(** [d] is a run of exactly [n] decimal digits. *)
Definition digits (n : nat) (d : str) : Prop :=
  length d = n ∧ Forall (λ c, is_digit c = true) d.

(** A 9-digit token stands at the head of [s]. *)
Definition leading_niin (s d : str) : Prop :=
  ∃ rest, s = d ++ rest ∧ digits 9 d ∧ word_end rest = true.

(** A 4-2-3-4 hyphenated identifier stands at the head of [s]; [r] is its
    last three groups put together. *)
Definition leading_nsn (s r : str) : Prop :=
  ∃ g1 g2 g3 g4 rest,
    s = g1 ++ "-"%char :: g2 ++ "-"%char :: g3 ++ "-"%char :: g4 ++ rest
    ∧ digits 4 g1 ∧ digits 2 g2 ∧ digits 3 g3 ∧ digits 4 g4
    ∧ word_end rest = true ∧ r = g2 ++ g3 ++ g4.

(** What comes before a token does not end with a word character. *)
Definition word_start (pre : str) : Prop :=
  match last pre with
  | Some c => is_word c = false
  | None => True
  end.

(** [P] holds at some standalone position of [text], and [r] is what it
    gives at the leftmost one. *)
Definition leftmost (P : str -> str -> Prop) (text r : str) : Prop :=
  ∃ pre post,
    text = pre ++ post ∧ word_start pre ∧ P post r
    ∧ ∀ pre' post' r',
        text = pre' ++ post' → length pre' < length pre →
        word_start pre' → ¬ P post' r'.

Definition nowhere (P : str -> str -> Prop) (text : str) : Prop :=
  ∀ pre post r, text = pre ++ post → word_start pre → ¬ P post r.

Definition no_leading_niin (line : str) : Prop :=
  ∀ d, ¬ leading_niin (strip line) d.

(** The three layers of the stock-number search, in the words of the
    specification, over the stripped text. *)
Inductive nsn_layers (text : str) : str -> Prop :=
| layer_line pre line post d :
    split_on nl text = pre ++ line :: post →
    Forall no_leading_niin pre →
    leading_niin (strip line) d →
    nsn_layers text d
| layer_token d :
    Forall no_leading_niin (split_on nl text) →
    leftmost leading_niin text d →
    nsn_layers text d
| layer_nsn d :
    Forall no_leading_niin (split_on nl text) →
    nowhere leading_niin text →
    leftmost leading_nsn text d →
    nsn_layers text d
| layer_none :
    Forall no_leading_niin (split_on nl text) →
    nowhere leading_niin text →
    nowhere leading_nsn text →
    nsn_layers text [].

(** The rules of format detection as an ordered list, in the words of the
    specification: the first rule whose test holds names the format. *)
Definition detection_rules : list ((list table -> str -> bool) * BomFormat) :=
  [ (λ tables text,
       listing_marker text && existsb (header_has lv_header) tables,
     GCSS_ARMY_STANDARD);
    (λ tables text, listing_marker text && auth_qty_marker text,
     GCSS_ARMY_STANDARD);
    (λ _ text, epp_marker text, EPP_FORMAT);
    (λ tables _, existsb (header_has material_description_header) tables,
     GCSS_ARMY_STANDARD) ].

Fixpoint first_rule (rules : list ((list table -> str -> bool) * BomFormat))
    (tables : list table) (text : str) : BomFormat :=
  match rules with
  | [] => UNKNOWN
  | (test, f) :: rest =>
      if test tables text then f else first_rule rest tables text
  end.

(** The fallback of the orchestrator in the words of the specification. *)
Definition keep_non_empty (standard other : list BomItem) : list BomItem :=
  match standard, other with
  | _ :: _, _ => standard
  | [], _ :: _ => other
  | [], [] => standard
  end.

(** Items numbered from [n + 1] on, from the fields read off the rows. *)
Fixpoint number_from (n : nat) (fs : list Fields) : list BomItem :=
  match fs with
  | [] => []
  | (d, s, q) :: rest =>
      new_item (Z.of_nat n + 1) (take 100 d) s q (py "EA")
      :: number_from (S n) rest
  end.

(** The fields the standard path reads off one table. *)
Definition gcss_table_fields (t : table) : list Fields :=
  match t with
  | header :: rows => omap (gcss_row (gcss_indices header)) rows
  | [] => []
  end.

Definition epp_table_fields (t : table) : list Fields :=
  match t with
  | header :: rows => omap (epp_row (epp_indices header)) rows
  | [] => []
  end.

(** The level a row shows in column [l]: its cell stripped and
    upper-cased, when the cell is not empty. *)
Definition level_is (r : row) (l : nat) (v : str) : Prop :=
  ∃ c, cell_at r l = Some c ∧ c ≠ [] ∧ upper (strip c) = v.

(** What a page that can be read adds to the items, for format [f]. *)
Definition page_yield (f : BomFormat) (p : Page) : list BomItem :=
  match extract_tables p, extract_text p with
  | Returns tables, Returns text => page_items f tables (default [] text)
  | _, _ => []
  end.

Definition readable (p : Page) : Prop :=
  (∃ tables, extract_tables p = Returns tables)
  ∧ (∃ text, extract_text p = Returns text).

(** [search_bounded] started in the middle of a text. *)
Definition start_ok (prev_word : bool) (pre : str) : Prop :=
  match last pre with
  | Some c => is_word c = false
  | None => prev_word = false
  end.

(** The first run of digits of [s], empty when [s] holds no digit. *)
Definition digit_run (s : str) : str :=
  take_while is_digit (drop_while (λ c, negb (is_digit c)) s).

(** The authorized-quantity column is unresolved, or lies beyond the end
    of the row. *)
Definition no_auth_cell (ix : Indices) (r : row) : Prop :=
  ix_auth_qty ix = None ∨ ∃ a, ix_auth_qty ix = Some a ∧ length r ≤ a.

(** [n] more pages counted. *)
Definition add_pages (n : nat) (r : ExtractionResult) : ExtractionResult :=
  Nat.iter n count_page r.

(** Sample pages: a standard listing, a page of no known format whose
    only row is of level [C], and a page whose text cannot be read. *)
Definition sample_listing_page : Page :=
  {| extract_text := Returns (Some (py "COMPONENT LISTING"));
     extract_tables :=
       Returns
         [[[Some (py "LV"); Some (py "Description"); Some (py "Auth Qty")];
           [Some (py "A"); Some (py "TOOL KIT"); Some (py "1")];
           [Some (py "B"); Some (py "WRENCH, TORQUE"); Some (py "2")];
           [Some (py "B"); Some (py "HAMMER, HAND"); Some (py "4")]]] |}.

Definition sample_plain_page : Page :=
  {| extract_text := Returns (Some (py "Parts on hand"));
     extract_tables :=
       Returns
         [[[Some (py "LV"); Some (py "Descr")];
           [Some (py "C"); Some (py "BOLT, HEX   EA")]]] |}.

Definition sample_broken_page : Page :=
  {| extract_text := Raises (py "bad stream");
     extract_tables := Returns [] |}.

(** A metadata extractor that finds nothing. *)
Definition no_metadata (_ : str) : BomMetadata := default_metadata.

(** Page [p] with the widgets [fs] appended. *)
Definition with_fields (fs : list TextField) (p : OutPage) : OutPage :=
  {| overlay := overlay p; annots := annots p ++ fs |}.

#[global] Instance Role_eq_dec : EqDecision Role.
Proof. solve_decision. Defined.

(** The index a role has in [ix]. *)
Definition get_index (r : Role) (ix : Indices) : option nat :=
  match r with
  | RLv => ix_lv ix
  | RDescription => ix_description ix
  | RMaterial => ix_material ix
  | RAuthQty => ix_auth_qty ix
  | ROhQty => ix_oh_qty ix
  | RUi => ix_ui ix
  | RImage => ix_image ix
  end.

(** Every index of [ix] points at a header cell, not empty, that the
    mapper gives the role to. *)
Definition resolved_by (header : row) (ix : Indices) : Prop :=
  ∀ r i, get_index r ix = Some i →
         ∃ c, header !! i = Some (Some c) ∧ c ≠ [] ∧ role_of c = Some r.

(** The four columns the extractors read are not the on-hand column. *)
Definition reads_apart_from (ix : Indices) (j : nat) : Prop :=
  ix_lv ix ≠ Some j ∧ ix_description ix ≠ Some j
  ∧ ix_material ix ≠ Some j ∧ ix_auth_qty ix ≠ Some j.

(** Text of code points below 128, on which Python's [str.strip],
    [str.split], [str.upper] and the classes of its regular expressions are
    the ones modelled. *)
Definition ascii_text (s : str) : bool :=
  forallb (λ c, (code c <? 128)%N) s.

Definition ascii_row (r : row) : bool :=
  forallb (λ c : cell, ascii_text (default [] c)) r.

(** [sys.get_int_max_str_digits()], by default: [int] of a longer run of
    digits, and [str] of an integer of more digits, raise [ValueError]. *)
Definition MAX_STR_DIGITS : nat := 4300.

(** A cell of ASCII text short enough for any run of digits in it to be
    converted; rows, tables and pages of such cells. *)
Definition plain_cell (c : cell) : bool :=
  ascii_text (default [] c) && (length (default [] c) <=? MAX_STR_DIGITS).

Definition plain_row (r : row) : bool := forallb plain_cell r.

Definition plain_table (t : table) : bool := forallb plain_row t.

Definition plain_page (p : Page) : bool :=
  match extract_tables p with
  | Returns tables => forallb plain_table tables
  | Raises _ => true
  end.

(** The quantity of the record a row gives under a header: what
    [extract_quantity] reads in the cell of the authorized-quantity column
    the mapper resolves, and 1 when the row has no such cell. *)
Definition auth_quantity (header r : row) : Z :=
  match ix_auth_qty (find_column_indices header) with
  | Some a =>
      if decide (a < length r) then extract_quantity (of_cell (cell_at r a))
      else 1%Z
  | None => 1%Z
  end.

(** Some cell of a header row holds [pat], in any letter case. *)
Definition header_cell_holds (pat : str) (header : row) : Prop :=
  ∃ c, Some c ∈ header ∧ str_in pat (upper c) = true.

(** ** Metadata extractor *)

Module Metadata.

(** A literal of the pattern, written in upper case, at the head of [s]
    under [re.IGNORECASE]: what follows it. *)
Fixpoint literal (p s : str) : option str :=
  match p, s with
  | [], _ => Some s
  | x :: p', y :: s' =>
      if Ascii.eqb x (upper_char y) then literal p' s' else None
  | _ :: _, [] => None
  end.

(** [[:\s]] *)
Definition is_colon_space (c : ascii) : bool :=
  Ascii.eqb c ":"%char || is_space c.

(** [[A-Z0-9]] under [re.IGNORECASE] *)
Definition is_alnum (c : ascii) : bool :=
  is_digit c || in_range 65 90 c || in_range 97 122 c.

(** [[A-Z0-9\s/\-]] under [re.IGNORECASE] *)
Definition is_desc_char (c : ascii) : bool :=
  is_alnum c || is_space c || Ascii.eqb c "/"%char || Ascii.eqb c "-"%char.

(** [cls+] at the head of [s], greedy: group 1, if it is not empty. *)
Definition run_of (cls : ascii -> bool) (s : str) : option str :=
  match take_while cls s with
  | [] => None
  | g => Some g
  end.

(** [END\s*ITEM\s*NIIN[:\s]*(\d{9})] at the head of [s]. *)
Definition match_end_item_niin (s : str) : option str :=
  r ← literal (py "END") s;
  r ← literal (py "ITEM") (drop_while is_space r);
  r ← literal (py "NIIN") (drop_while is_space r);
  '(d, _) ← take_digits 9 (drop_while is_colon_space r);
  Some d.

(** [anchor[:\s]*(cls+)] at the head of [s], for a class that holds
    neither the colon nor white space. *)
Definition match_field (anchor : str) (cls : ascii -> bool) (s : str)
  : option str :=
  r ← literal anchor s;
  run_of cls (drop_while is_colon_space r).

(** [SER/EQUIP\s*NO[:\s]*([A-Z0-9]+)] at the head of [s]. *)
Definition match_serial (s : str) : option str :=
  r ← literal (py "SER/EQUIP") s;
  match_field (py "NO") is_alnum (drop_while is_space r).

(** [DESC[:\s]*([A-Z0-9\s/\-]+)] at the head of [s]. White space is in
    both classes: when what follows the colons and spaces cannot start the
    group, the matcher gives back characters until the group can start,
    which is at the last white space given up, and the group is that one
    character. *)
Definition match_desc (s : str) : option str :=
  r ← literal (py "DESC") s;
  match run_of is_desc_char (drop_while is_colon_space r) with
  | Some g => Some g
  | None =>
      match last (filter (λ c, is_space c = true)
                    (take_while is_colon_space r)) with
      | Some w => Some [w]
      | None => None
      end
  end.

(** [re.search(pat, s)] for a pattern that cannot match the empty text:
    the group at the leftmost position where [m] matches. *)
Fixpoint search (m : str -> option str) (s : str) : option str :=
  match m s with
  | Some g => Some g
  | None =>
      match s with
      | [] => None
      | _ :: t => search m t
      end
  end.

Definition extract_metadata (page_text : str) : BomMetadata :=
  {| end_item_niin := default [] (search match_end_item_niin page_text);
     end_item_description :=
       match search match_desc page_text with
       | Some g => take 50 (strip g)
       | None => []
       end;
     lin := default [] (search (match_field (py "LIN") is_alnum) page_text);
     pub_num := [];
     pub_date := [];
     serial_equip_no := default [] (search match_serial page_text);
     uic := default [] (search (match_field (py "UIC") is_alnum) page_text);
     fe := default [] (search (match_field (py "FE") is_digit) page_text);
     bom_format := UNKNOWN |}.

End Metadata.

(** ** Conversion entry point *)

(** [generate_dd1750_from_pdf]: [template] is what [PdfReader(template_path)]
    does, and writing the output file is taken to succeed. The result is the
    document written to [output_path], if one is, and the count returned.
    When the template cannot be read the generation raises, the handler's
    own attempt to write the blank template raises as well and is passed
    over, and the count is 0. *)
Definition generate_dd1750_from_pdf (bom : Document) (template : outcome unit)
    (start_page : Z) : option OutDoc * nat :=
  let result :=
    extract_items_from_pdf Metadata.extract_metadata bom start_page in
  match template with
  | Returns _ =>
      let '(doc, count) := generate_dd1750_from_items (items result) None in
      (Some doc, count)
  | Raises _ => (None, 0)
  end.

(** ** Web application *)

Definition lower_char (c : ascii) : ascii :=
  if in_range 65 90 c then ascii_of_N (code c + 32) else c.

(** [s.lower()] *)
Definition lower (s : str) : str := map lower_char s.

(** [s.rsplit('.', 1)[1]] when [s] holds a dot: what follows the last
    one. *)
Fixpoint after_last_dot (s : str) : option str :=
  match s with
  | [] => None
  | c :: t =>
      match after_last_dot t with
      | Some ext => Some ext
      | None => if Ascii.eqb c "."%char then Some t else None
      end
  end.

(** [ALLOWED_EXTENSIONS = {'pdf'}] *)
Definition ALLOWED_EXTENSIONS : list str := [py "pdf"].

Definition allowed_file (filename : str) : bool :=
  match after_last_dot filename with
  | Some ext => existsb (str_eqb (lower ext)) ALLOWED_EXTENSIONS
  | None => false
  end.

(** The dictionary the upload route returns for one item. *)
Record ItemData := {
  d_line_no : Z;
  d_description : str;
  d_nsn : str;
  d_qty : Z;
  d_unit_of_issue : str
}.

Definition items_data (found : list BomItem) : list ItemData :=
  map (λ item,
         {| d_line_no := line_no item;
            d_description := description item;
            d_nsn := nsn item;
            d_qty := qty item;
            d_unit_of_issue := unit_of_issue item |}) found.

(** What the generate route answers: the 400 answer with its error text,
    or the document sent. *)
Inductive RouteAnswer :=
| BadRequest (error : str)
| SendFile (doc : OutDoc).

(** [for i, item_data in enumerate(items_data): items.append(BomItem(
    line_no=i + 1, description=item_data.get('description', ''), ...,
    qty=int(item_data.get('qty', 1)), ...))] in the generate route, on
    dictionaries as the upload route sends them: every key is present, the
    texts are strings and the quantity is an integer, so that [.get]
    returns the value of the key and [int] the integer itself; the
    [line_no] sent is not read. *)
Definition rebuild_items (items_data : list ItemData) : list BomItem :=
  map (λ '(i, d),
         new_item (Z.of_nat i + 1) (d_description d) (d_nsn d) (d_qty d)
           (d_unit_of_issue d))
      (enumerate items_data).

(** The generate route on a request that holds such dictionaries under
    [items], with the template found: [if not items_data] answers 400, and
    otherwise the document generated from the items rebuilt and the header
    information is sent. *)
Definition generate_route (items_data : list ItemData) (header : HeaderInfo)
  : RouteAnswer :=
  match items_data with
  | [] => BadRequest (py "No items to generate")
  | _ :: _ =>
      SendFile
        (generate_dd1750_from_items (rebuild_items items_data)
           (Some header)).1
  end.

(** ** What the further properties are stated with *)

(** The mapper gives the cell [c] the role [r]. *)
Definition has_role (r : Role) (c : cell) : bool :=
  truthy c && bool_decide (role_of (default [] c) = Some r).

(** The index, counted from [n], of the last cell of [l] with role [r]. *)
Fixpoint last_role (r : Role) (n : nat) (l : row) : option nat :=
  match l with
  | [] => None
  | c :: t =>
      match last_role r (S n) t with
      | Some i => Some i
      | None => if has_role r c then Some n else None
      end
  end.

(** Item [it] with its line number moved up by [k]. *)
Definition shift_line_no (k : Z) (it : BomItem) : BomItem :=
  set_line_no (line_no it + k) it.

(** The text and the tables of a page that can be read. *)
Definition text_of_page (p : Page) : str :=
  match extract_text p with
  | Returns t => default [] t
  | Raises _ => []
  end.

Definition tables_of_page (p : Page) : list table :=
  match extract_tables p with
  | Returns t => t
  | Raises _ => []
  end.

(** The exception a page raises in the loop over the pages, where its
    tables are read before its text. *)
Definition loop_error (p : Page) : str :=
  match extract_tables p, extract_text p with
  | Raises e, _ => e
  | Returns _, Raises e => e
  | Returns _, Returns _ => []
  end.

(** The exception the start page raises before the loop, where its text is
    read before its tables. *)
Definition start_error (p : Page) : str :=
  match extract_text p, extract_tables p with
  | Raises e, _ => e
  | Returns _, Raises e => e
  | Returns _, Returns _ => []
  end.
(** All the rows drawn in document [d], page after page. *)
Definition all_rows (d : OutDoc) : list DrawnRow :=
  concat (map drawn_rows (omap overlay (pages d))).

(** What the layout engine reads of an item. *)
Definition printed (item : BomItem) : Z * str * str * Z :=
  (line_no item, take 55 (description item), nsn item, qty item).

(** The document with the blank template page alone. *)
Definition blank_document : OutDoc :=
  {| pages := [ {| overlay := None; annots := [] |} ];
     acro_fields := None |}.
(** An item as the constructor leaves it: no material number, editable,
    and its description snapshotted. *)
Definition as_constructed (item : BomItem) : Prop :=
  original_description item = description item
  ∧ material_number item = [] ∧ is_editable item = true.

(** ** Text lemmas *)

Lemma enumerate_lookup {A} (l : list A) k :
  enumerate l !! k = (λ x, (k, x)) <$> l !! k.
Proof.
  unfold enumerate. rewrite lookup_zip_with.
  destruct (decide (k < length l)) as [Hlt|Hge].
  - rewrite lookup_seq_lt by done. simpl. by destruct (l !! k).
  - rewrite lookup_seq_ge by lia. simpl.
    by rewrite (lookup_ge_None_2 l k) by lia.
Qed.

Lemma digit_is_word c : is_digit c = true → is_word c = true.
Proof. unfold is_word. intros ->. reflexivity. Qed.

Lemma digit_not_space c : is_digit c = true → is_space c = false.
Proof.
  unfold is_digit, is_space, in_range. intros H.
  apply andb_true_iff in H as [H1 H2].
  apply N.leb_le in H1. apply N.leb_le in H2.
  apply orb_false_iff.
  split; apply andb_false_iff; right; apply N.leb_gt; lia.
Qed.

Lemma digit_not_nl c : is_digit c = true → Ascii.eqb c nl = false.
Proof.
  intros H. destruct (Ascii.eqb_spec c nl) as [->|]; [|reflexivity].
  vm_compute in H. discriminate.
Qed.

Lemma str_eqb_eq a b : str_eqb a b = true ↔ a = b.
Proof.
  revert b. induction a as [|x a IH]; intros [|y b]; simpl; try easy.
  rewrite andb_true_iff, IH. split.
  - intros [H ->]. apply Ascii.eqb_eq in H. by subst.
  - intros [= -> ->]. split; [apply Ascii.eqb_refl | reflexivity].
Qed.

Lemma starts_with_spec p s : starts_with p s = true ↔ ∃ b, s = p ++ b.
Proof.
  revert s. induction p as [|x p IH]; intros s; simpl.
  - split; [eauto | done].
  - destruct s as [|y s].
    + split; [done | intros [b Hb]; discriminate].
    + rewrite andb_true_iff, IH. split.
      * intros [H [b ->]]. apply Ascii.eqb_eq in H. subst. by exists b.
      * intros [b [= -> ->]]. split; [apply Ascii.eqb_refl | by exists b].
Qed.

Lemma str_in_spec p s : str_in p s = true ↔ ∃ a b, s = a ++ p ++ b.
Proof.
  induction s as [|c s IH].
  - simpl. rewrite orb_false_r, starts_with_spec. split.
    + intros [b ->]. by exists [], b.
    + intros (a & b & H). destruct a; [by exists b|discriminate].
  - simpl. rewrite orb_true_iff, starts_with_spec, IH. split.
    + intros [[b ->] | (a & b & ->)]; [by exists [], b | by exists (c :: a), b].
    + intros ([|x a] & b & H); simpl in H.
      * left. by exists b.
      * injection H as -> ->. right. by exists a, b.
Qed.

Lemma upper_app a b : upper (a ++ b) = upper a ++ upper b.
Proof. apply map_app. Qed.

Lemma str_in_upper p s :
  str_in p s = true → str_in (upper p) (upper s) = true.
Proof.
  rewrite !str_in_spec. intros (a & b & ->).
  exists (upper a), (upper b). by rewrite !upper_app.
Qed.

Lemma drop_while_head p c s : p c = false → drop_while p (c :: s) = c :: s.
Proof. simpl. by intros ->. Qed.

Lemma strip_fixed s c0 c1 t u :
  s = c0 :: t → s = u ++ [c1] →
  is_space c0 = false → is_space c1 = false → strip s = s.
Proof.
  intros H0 H1 Hs0 Hs1. unfold strip, lstrip, rstrip.
  rewrite H0, drop_while_head by done. rewrite <- H0, H1.
  rewrite rev_app_distr. simpl. rewrite Hs1. simpl.
  by rewrite rev_involutive.
Qed.

Lemma split_on_no_sep d s :
  Forall (λ c, Ascii.eqb c d = false) s → split_on d s = [s].
Proof.
  induction 1 as [|c s Hc _ IH]; simpl; [done|]. by rewrite Hc, IH.
Qed.

Lemma take_digits_spec n s d r :
  take_digits n s = Some (d, r) ↔ s = d ++ r ∧ digits n d.
Proof.
  revert s d r. induction n as [|n IH]; intros s d r; simpl.
  - split.
    + intros [= <- <-]. repeat split; constructor.
    + intros (-> & Hl & _). destruct d; [done | discriminate].
  - destruct s as [|c t].
    + split; [done|]. intros (H & Hl & _). destruct d; discriminate.
    + destruct (is_digit c) eqn:Hc.
      * destruct (take_digits n t) as [[d' r']|] eqn:Ht; simpl.
        -- apply IH in Ht as (-> & Hl & Hd). split.
           ++ intros [= <- <-]. repeat split; simpl; [by f_equal | by constructor].
           ++ intros (H & Hl' & Hd'). destruct d as [|x d]; [discriminate|].
              injection H as -> H. injection Hl' as Hl'.
              assert (d = d' ∧ r = r') as [-> ->]; [|done].
              apply app_inj_1; [congruence | done].
        -- split; [done|]. intros (H & Hl' & Hd').
           destruct d as [|x d]; [discriminate|]. injection H as -> ->.
           injection Hl' as Hl'. apply Forall_cons in Hd' as [_ Hd'].
           assert (take_digits n (d ++ r) = Some (d, r)) as E
             by (apply IH; repeat split; done).
           congruence.
      * split; [done|]. intros (H & Hl' & Hd').
        destruct d as [|x d]; [discriminate|]. injection H as -> ->.
        apply Forall_cons in Hd' as [Hx _]. congruence.
Qed.

Lemma match_niin_spec s d : match_niin s = Some d ↔ leading_niin s d.
Proof.
  unfold match_niin, leading_niin.
  destruct (take_digits 9 s) as [[d' r]|] eqn:E; simpl.
  - apply take_digits_spec in E as (-> & Hd). split.
    + destruct (word_end r) eqn:Hw; [|done]. intros [= <-]. by exists r.
    + intros (rest & H & Hd' & Hw).
      assert (d' = d ∧ r = rest) as [-> ->].
      { apply app_inj_1; [|done]. destruct Hd as [? _], Hd' as [? _]. congruence. }
      by rewrite Hw.
  - split; [done|]. intros (rest & -> & Hd & _).
    assert (take_digits 9 (d ++ rest) = Some (d, rest)) as E'
      by (by apply take_digits_spec).
    rewrite E in E'. discriminate.
Qed.

Lemma expect_spec ch s r : expect ch s = Some r ↔ s = ch :: r.
Proof.
  destruct s as [|c t]; simpl; [done|].
  destruct (Ascii.eqb_spec c ch) as [->|Hn]; split; intros H;
    try discriminate; injection H; intros; subst; done.
Qed.

Lemma match_nsn_spec s r : match_nsn s = Some r ↔ leading_nsn s r.
Proof.
  unfold leading_nsn. split.
  - unfold match_nsn. intros H.
    apply bind_Some in H as ([g1 r1] & E1 & H).
    apply bind_Some in H as (r1' & X1 & H).
    apply bind_Some in H as ([g2 r2] & E2 & H).
    apply bind_Some in H as (r2' & X2 & H).
    apply bind_Some in H as ([g3 r3] & E3 & H).
    apply bind_Some in H as (r3' & X3 & H).
    apply bind_Some in H as ([g4 r4] & E4 & H).
    destruct (word_end r4) eqn:Hw; [|done]. injection H as <-.
    apply take_digits_spec in E1 as (-> & ?), E2 as (-> & ?),
      E3 as (-> & ?), E4 as (-> & ?).
    apply expect_spec in X1 as ->, X2 as ->, X3 as ->.
    by exists g1, g2, g3, g4, r4.
  - intros (g1 & g2 & g3 & g4 & rest & -> & H1 & H2 & H3 & H4 & Hw & ->).
    unfold match_nsn.
    apply bind_Some. eexists (g1, _). split; [by apply take_digits_spec|].
    cbv beta iota. apply bind_Some. eexists. split; [by apply expect_spec|].
    apply bind_Some. eexists (g2, _). split; [by apply take_digits_spec|].
    cbv beta iota. apply bind_Some. eexists. split; [by apply expect_spec|].
    apply bind_Some. eexists (g3, _). split; [by apply take_digits_spec|].
    cbv beta iota. apply bind_Some. eexists. split; [by apply expect_spec|].
    apply bind_Some. eexists (g4, _). split; [by apply take_digits_spec|].
    cbv beta iota. by rewrite Hw.
Qed.

Lemma digits_app n m a b : digits n a → digits m b → digits (n + m) (a ++ b).
Proof.
  intros [<- Ha] [<- Hb]. split; [by rewrite length_app | by apply Forall_app].
Qed.

Lemma leading_nsn_digits s r : leading_nsn s r → digits 9 r.
Proof.
  intros (g1 & g2 & g3 & g4 & rest & _ & _ & H2 & H3 & H4 & _ & ->).
  apply (digits_app 2 7); [done|]. by apply (digits_app 3 4).
Qed.

Lemma leading_niin_digits s d : leading_niin s d → digits 9 d.
Proof. by intros (? & _ & H & _). Qed.

Lemma first_line_niin_some lines d :
  first_line_niin lines = Some d →
  ∃ pre line post,
    lines = pre ++ line :: post ∧ Forall no_leading_niin pre
    ∧ leading_niin (strip line) d.
Proof.
  induction lines as [|l ls IH]; simpl; [done|].
  destruct (match_niin (strip l)) as [r|] eqn:E.
  - intros [= ->]. exists [], l, ls. repeat split; [constructor|].
    by apply match_niin_spec.
  - intros H. destruct (IH H) as (pre & line & post & -> & Hpre & Hl).
    exists (l :: pre), line, post. repeat split; [|done].
    constructor; [|done]. intros d' Hd'. apply match_niin_spec in Hd'.
    congruence.
Qed.

Lemma first_line_niin_none lines :
  first_line_niin lines = None → Forall no_leading_niin lines.
Proof.
  induction lines as [|l ls IH]; simpl; [constructor|].
  destruct (match_niin (strip l)) as [r|] eqn:E; [done|].
  intros H. constructor; [|by apply IH].
  intros d' Hd'. apply match_niin_spec in Hd'. congruence.
Qed.

Lemma start_ok_cons pw c pre :
  start_ok pw (c :: pre) ↔ start_ok (is_word c) pre.
Proof.
  unfold start_ok. destruct pre as [|x pre]; [done|].
  change (last (c :: x :: pre)) with (last (x :: pre)).
  destruct (last (x :: pre)) eqn:E; [done|].
  apply last_None in E. discriminate.
Qed.

Lemma search_bounded_some m pw s r :
  search_bounded m pw s = Some r →
  ∃ pre post,
    s = pre ++ post ∧ start_ok pw pre ∧ m post = Some r
    ∧ ∀ pre' post',
        s = pre' ++ post' → length pre' < length pre →
        start_ok pw pre' → m post' = None.
Proof.
  revert pw. induction s as [|c t IH]; intros pw; simpl; [done|].
  destruct (if pw then None else m (c :: t)) as [r'|] eqn:E.
  - intros [= ->]. destruct pw; [done|]. exists [], (c :: t).
    repeat split; [done|]. intros ? ? _ Hl. simpl in Hl. lia.
  - intros H. destruct (IH _ H) as (pre & post & -> & Hs & Hm & Hleft).
    exists (c :: pre), post. repeat split; [by apply start_ok_cons|done|].
    intros [|x pre'] post' Heq Hl Hs'.
    + simpl in Heq. subst post'. unfold start_ok in Hs'. simpl in Hs'.
      by subst pw.
    + injection Heq as -> Heq. apply (Hleft pre'); [done | simpl in Hl; lia |].
      by apply start_ok_cons in Hs'.
Qed.

Lemma search_bounded_none m pw s :
  m [] = None →
  search_bounded m pw s = None →
  ∀ pre post, s = pre ++ post → start_ok pw pre → m post = None.
Proof.
  intros Hnil. revert pw. induction s as [|c t IH]; intros pw; simpl.
  - intros _ pre post H _. symmetry in H. apply app_eq_nil in H as [_ ->].
    done.
  - destruct (if pw then None else m (c :: t)) as [r'|] eqn:E; [done|].
    intros H [|x pre] post Heq Hs.
    + simpl in Heq. subst post. unfold start_ok in Hs. simpl in Hs.
      by subst pw.
    + injection Heq as -> Heq. apply (IH _ H pre); [done|].
      by apply start_ok_cons in Hs.
Qed.

Lemma start_ok_word_start pre : start_ok false pre ↔ word_start pre.
Proof. unfold start_ok, word_start. by destruct (last pre). Qed.

Lemma search_leftmost m P text r :
  (∀ s d, m s = Some d ↔ P s d) →
  search_bounded m false text = Some r → leftmost P text r.
Proof.
  intros Hm H.
  destruct (search_bounded_some _ _ _ _ H) as (pre & post & -> & Hs & Hp & Hl).
  exists pre, post. repeat split.
  - by apply start_ok_word_start.
  - by apply Hm.
  - intros pre' post' r' Heq Hlen Hs' HP. apply Hm in HP.
    rewrite (Hl pre' post') in HP; [done..|]. by apply start_ok_word_start.
Qed.

Lemma search_nowhere m P text :
  (∀ s d, m s = Some d ↔ P s d) →
  m [] = None →
  search_bounded m false text = None → nowhere P text.
Proof.
  intros Hm Hnil H pre post r Heq Hs HP. apply Hm in HP.
  rewrite (search_bounded_none _ _ _ Hnil H pre post) in HP; [done..|].
  by apply start_ok_word_start.
Qed.

Lemma nsn_layers_sound (t : cell) :
  nsn_layers (strip (default [] t)) (extract_nsn_from_material t).
Proof.
  assert (extract_nsn_from_material t =
          let text := strip (default [] t) in
          match first_line_niin (split_on nl text) with
          | Some r => r
          | None =>
              match search_bounded match_niin false text with
              | Some r => r
              | None =>
                  match search_bounded match_nsn false text with
                  | Some r => r
                  | None => []
                  end
              end
          end) as ->.
  { unfold extract_nsn_from_material. by destruct t as [[|c s]|]. }
  cbv zeta. set (text := strip (default [] t)).
  destruct (first_line_niin (split_on nl text)) as [r|] eqn:E1.
  { apply first_line_niin_some in E1 as (pre & line & post & ? & ? & ?).
    by eapply layer_line. }
  apply first_line_niin_none in E1.
  destruct (search_bounded match_niin false text) as [r|] eqn:E2.
  { apply layer_token; [done|].
    by apply (search_leftmost match_niin); [apply match_niin_spec|]. }
  apply (search_nowhere match_niin leading_niin) in E2;
    [|apply match_niin_spec|done].
  destruct (search_bounded match_nsn false text) as [r|] eqn:E3.
  { apply layer_nsn; [done..|].
    by apply (search_leftmost match_nsn); [apply match_nsn_spec|]. }
  apply (search_nowhere match_nsn leading_nsn) in E3;
    [|apply match_nsn_spec|done].
  by apply layer_none.
Qed.

Lemma nsn_layers_shape text r : nsn_layers text r → r = [] ∨ digits 9 r.
Proof.
  destruct 1 as [? ? ? ? _ _ H|? _ (? & ? & _ & _ & H & _)
                |? _ _ (? & ? & _ & _ & H & _)|]; [right..|by left].
  - by eapply leading_niin_digits.
  - by eapply leading_niin_digits.
  - by eapply leading_nsn_digits.
Qed.

Lemma extract_nsn_fixed d :
  digits 9 d → extract_nsn_from_material (Some d) = d.
Proof.
  intros [Hl Hd].
  assert (d ≠ []) as Hne by (intros ->; discriminate).
  destruct (exists_last Hne) as (u & c1 & Hu).
  destruct d as [|c0 t] eqn:Ed; [done|]. rewrite <- Ed in *.
  assert (is_digit c0 = true) as H0.
  { rewrite Ed in Hd. by apply Forall_cons in Hd as [? _]. }
  assert (is_digit c1 = true) as H1.
  { rewrite Hu in Hd. apply Forall_app in Hd as [_ Hd].
    by apply Forall_cons in Hd as [? _]. }
  assert (strip d = d) as Hs.
  { eapply strip_fixed; eauto using digit_not_space. }
  unfold extract_nsn_from_material.
  replace (truthy (Some d)) with true by (by rewrite Ed).
  simpl. rewrite Hs, split_on_no_sep.
  2: { eapply Forall_impl; [exact Hd|]. apply digit_not_nl. }
  simpl. rewrite Hs.
  assert (match_niin d = Some d) as ->; [|done].
  apply match_niin_spec. exists []. by rewrite app_nil_r.
Qed.

(** C2. Stock-number extraction returns, for every cell, the empty string
    or exactly nine digits; applying it to its own result changes nothing;
    on a cell of ASCII text the result is the one the three layers give in
    order (leading token of the first line that has one, else the leftmost
    standalone 9-digit token, else the last three groups of the leftmost
    4-2-3-4 identifier, else the empty string); and the three examples
    hold. *)
Theorem nsn_extraction_total_idempotent_layered :
  (∀ t : cell,
     extract_nsn_from_material t = []
     ∨ digits 9 (extract_nsn_from_material t))
  ∧ (∀ t : cell,
       extract_nsn_from_material (Some (extract_nsn_from_material t))
       = extract_nsn_from_material t)
  ∧ (∀ t : cell,
       ascii_text (default [] t) = true →
       nsn_layers (strip (default [] t)) (extract_nsn_from_material t))
  ∧ extract_nsn_from_material
      (Some (py "002643796" ++ nl :: py "C_19207 ~ 11655778-5"))
    = py "002643796"
  ∧ extract_nsn_from_material (Some (py "6545-00-922-1200"))
    = py "009221200"
  ∧ extract_nsn_from_material (Some (py "no numbers here")) = [].
Proof.
  assert (∀ t : cell,
            extract_nsn_from_material t = []
            ∨ digits 9 (extract_nsn_from_material t)) as Hshape.
  { intros t. eapply nsn_layers_shape, nsn_layers_sound. }
  split; [exact Hshape|].
  split; [|split; [intros t _; apply nsn_layers_sound|]].
  - intros t. destruct (Hshape t) as [-> | Hd]; [reflexivity|].
    by apply extract_nsn_fixed.
  - repeat split; vm_compute; reflexivity.
Qed.

Lemma nsn_extraction_total_idempotent_layered_witness :
  nsn_layers (py "C_89875 ~ 6545-00-922-1200")
    (extract_nsn_from_material (Some (py " C_89875 ~ 6545-00-922-1200 "))).
Proof.
  apply (proj1 (proj2 (proj2 nsn_extraction_total_idempotent_layered))
           (Some (py " C_89875 ~ 6545-00-922-1200 "))).
  reflexivity.
Defined.

(** *** Quantity *)

Lemma first_digit_run_eq s :
  first_digit_run s = match digit_run s with [] => None | r => Some r end.
Proof. reflexivity. Qed.

Lemma space_not_digit c : is_space c = true → is_digit c = false.
Proof.
  intros H. destruct (is_digit c) eqn:E; [|done].
  apply digit_not_space in E. congruence.
Qed.

Lemma take_while_digit_app a ws :
  Forall (λ c, is_digit c = false) ws →
  take_while is_digit (a ++ ws) = take_while is_digit a.
Proof.
  intros Hws. induction a as [|c a IH]; simpl.
  - destruct Hws as [|w ws Hw _]; [done|]. simpl. by rewrite Hw.
  - by rewrite IH.
Qed.

Lemma digit_run_app_nondigits a ws :
  Forall (λ c, is_digit c = false) ws → digit_run (a ++ ws) = digit_run a.
Proof.
  intros Hws. unfold digit_run. induction a as [|c a IH]; simpl.
  - induction Hws as [|w ws Hw _ IHw]; [done|]. simpl. by rewrite Hw.
  - destruct (is_digit c) eqn:E; simpl; [|done].
    rewrite E. f_equal. by apply take_while_digit_app.
Qed.

Lemma digit_run_lstrip s : digit_run (lstrip s) = digit_run s.
Proof.
  unfold lstrip, digit_run. induction s as [|c s IH]; simpl; [done|].
  destruct (is_space c) eqn:E; [|done].
  by rewrite (space_not_digit _ E).
Qed.

Lemma drop_while_split p s :
  ∃ a, s = a ++ drop_while p s ∧ Forall (λ c, p c = true) a.
Proof.
  induction s as [|c s (a & Ha & Hp)]; simpl.
  - by exists [].
  - destruct (p c) eqn:E.
    + exists (c :: a). split; [by rewrite Ha at 1 | by constructor].
    + by exists [].
Qed.

Lemma rstrip_split s :
  ∃ ws, s = rstrip s ++ ws ∧ Forall (λ c, is_space c = true) ws.
Proof.
  unfold rstrip.
  destruct (drop_while_split is_space (rev s)) as (a & Ha & Hp).
  exists (rev a). split.
  - rewrite <- rev_app_distr, <- Ha. by rewrite rev_involutive.
  - by apply Forall_rev.
Qed.

Lemma digit_run_strip s : digit_run (strip s) = digit_run s.
Proof.
  unfold strip. rewrite <- (digit_run_lstrip s).
  destruct (rstrip_split (lstrip s)) as (ws & Hs & Hws).
  rewrite Hs at 2. symmetry. apply digit_run_app_nondigits.
  eapply Forall_impl; [exact Hws|]. apply space_not_digit.
Qed.



Lemma digit_run_digits s : Forall (λ c, is_digit c = true) (digit_run s).
Proof.
  unfold digit_run. generalize (drop_while (λ c, negb (is_digit c)) s).
  intros l. induction l as [|c l IH]; simpl; [constructor|].
  destruct (is_digit c) eqn:E; by constructor.
Qed.

Lemma digit_val_nonneg c : is_digit c = true → (0 <= digit_val c)%Z.
Proof.
  unfold is_digit, in_range, digit_val. intros H.
  apply andb_true_iff in H as [H _]. apply N.leb_le in H. lia.
Qed.

Lemma int_of_digits_nonneg r :
  Forall (λ c, is_digit c = true) r → (0 <= int_of_digits r)%Z.
Proof.
  unfold int_of_digits. intros H.
  assert (∀ acc, (0 <= acc)%Z →
            (0 <= fold_left (λ a c, 10 * a + digit_val c) r acc)%Z) as G.
  { induction H as [|c r Hc _ IH]; intros acc Hacc; simpl; [done|].
    apply IH. pose proof (digit_val_nonneg c Hc). lia. }
  by apply G.
Qed.

Lemma extract_quantity_eq (v : PyValue) :
  py_truth v = true →
  extract_quantity v =
  match digit_run (py_str v) with
  | [] => 1%Z
  | r => int_of_digits r
  end.
Proof.
  intros Hv. unfold extract_quantity. rewrite Hv. simpl negb. cbv iota zeta.
  rewrite first_digit_run_eq, digit_run_strip.
  by destruct (digit_run (py_str v)).
Qed.




(** *** Format detection *)

Lemma str_in_app_l p a b : str_in p a = true → str_in p (a ++ b) = true.
Proof.
  rewrite !str_in_spec. intros (x & y & ->). exists x, (y ++ b).
  by rewrite <- !app_assoc.
Qed.

Lemma str_in_app_r p a b : str_in p b = true → str_in p (a ++ b) = true.
Proof.
  rewrite !str_in_spec. intros (x & y & ->). exists (a ++ x), y.
  by rewrite <- !app_assoc.
Qed.

Lemma str_in_join p sep x parts :
  x ∈ parts → str_in p x = true → str_in p (join sep parts) = true.
Proof.
  intros Hx Hp. induction parts as [|y ps IH]; [by apply elem_of_nil in Hx|].
  apply elem_of_cons in Hx as [<- | Hx].
  - destruct ps as [|z ps]; [done|]. by apply str_in_app_l.
  - destruct ps as [|z ps]; [by apply elem_of_nil in Hx|].
    change (join sep (y :: z :: ps)) with (y ++ sep ++ join sep (z :: ps)).
    apply str_in_app_r, str_in_app_r. by apply IH.
Qed.

Lemma existsb_elem_of {A} (f : A → bool) (l : list A) :
  existsb f l = true ↔ ∃ x, x ∈ l ∧ f x = true.
Proof.
  rewrite existsb_exists. split; intros (x & H & ?); exists x;
    (split; [by apply list_elem_of_In | done]).
Qed.

Lemma existsb_none {A} (f : A → bool) (l : list A) :
  (∀ x, x ∈ l → f x = false) → existsb f l = false.
Proof.
  intros H. destruct (existsb f l) eqn:E; [|done].
  apply existsb_elem_of in E as (x & Hx & Hf). rewrite (H x Hx) in Hf. done.
Qed.

Lemma starts_with_app_inv p a c b :
  c ∉ p → starts_with p (a ++ c :: b) = true → starts_with p a = true.
Proof.
  revert a. induction p as [|x p IH]; intros a Hc H; [done|].
  destruct a as [|h a]; cbn [app starts_with] in *.
  - apply andb_true_iff in H as [H _]. apply Ascii.eqb_eq in H. subst x.
    exfalso. apply Hc. apply list_elem_of_here.
  - apply andb_true_iff in H as [H1 H2]. rewrite H1. cbn [andb].
    apply IH; [|done]. intros Hin. apply Hc. by apply list_elem_of_further.
Qed.

Lemma str_in_nil p : p ≠ [] → str_in p [] = false.
Proof. by destruct p. Qed.

Lemma str_in_sep_inv p a c b :
  p ≠ [] → c ∉ p →
  str_in p (a ++ c :: b) = true → str_in p a = true ∨ str_in p b = true.
Proof.
  intros Hne Hc. induction a as [|h a IH]; cbn [app str_in]; intros H.
  - apply orb_true_iff in H as [H | H]; [|by right].
    apply (starts_with_app_inv p [] c b Hc) in H. by destruct p.
  - apply orb_true_iff in H as [H | H].
    + apply (starts_with_app_inv p (h :: a) c b Hc) in H.
      left. by rewrite H.
    + destruct (IH H) as [Ha | Hb]; [|by right].
      left. rewrite Ha. by rewrite orb_true_r.
Qed.

Lemma str_in_join_inv p c parts :
  p ≠ [] → c ∉ p →
  str_in p (join [c] parts) = true → ∃ x, x ∈ parts ∧ str_in p x = true.
Proof.
  intros Hne Hc. induction parts as [|y ps IH]; intros H.
  - cbn [join] in H. by rewrite str_in_nil in H.
  - destruct ps as [|z ps].
    + exists y. split; [apply list_elem_of_here | done].
    + change (join [c] (y :: z :: ps)) with (y ++ c :: join [c] (z :: ps)) in H.
      apply str_in_sep_inv in H as [H | H]; [| |done..].
      * exists y. split; [apply list_elem_of_here | done].
      * destruct (IH H) as (x & Hx & ?). exists x.
        split; [by apply list_elem_of_further | done].
Qed.

Lemma upper_join sep parts :
  upper (join sep parts) = join (upper sep) (map upper parts).
Proof.
  induction parts as [|y ps IH]; [done|].
  destruct ps as [|z ps]; [done|].
  change (join sep (y :: z :: ps)) with (y ++ sep ++ join sep (z :: ps)).
  rewrite !upper_app, IH. done.
Qed.

Lemma header_text_holds pat (header : row) :
  pat ≠ [] → " "%char ∉ pat →
  str_in pat (header_text header) = true ↔ header_cell_holds pat header.
Proof.
  intros Hne Hsp. unfold header_text, header_cell_holds.
  rewrite upper_join. change (upper (py " ")) with [" "%char]. split.
  - intros (x & Hx & Hin)%str_in_join_inv; [|done..].
    apply list_elem_of_fmap in Hx as (y & -> & Hy).
    apply list_elem_of_fmap in Hy as ([c|] & -> & Hc).
    + by exists c.
    + change (str_in pat [] = true) in Hin. by rewrite str_in_nil in Hin.
  - intros (c & Hc & Hin). apply (str_in_join _ _ (upper c)); [|done].
    apply (list_elem_of_fmap_2 upper).
    apply (list_elem_of_fmap_2 (default []) header (Some c)) in Hc. exact Hc.
Qed.

Lemma header_marker_holds pat (header : row) :
  pat ∈ map py ["LV"; "LEVEL"; "MATERIAL"; "DESCRIPTION"]%string →
  str_in pat (header_text header) = true ↔ header_cell_holds pat header.
Proof.
  intros Hpat. apply header_text_holds.
  - intros ->. cbn in Hpat.
    repeat (apply elem_of_cons in Hpat as [Hpat | Hpat]; [discriminate|]).
    by apply elem_of_nil in Hpat.
  - intros Hin. cbn in Hpat.
    repeat (apply elem_of_cons in Hpat as [-> | Hpat];
            [cbn in Hin;
             repeat (apply elem_of_cons in Hin as [Hin | Hin];
                     [discriminate|]);
             by apply elem_of_nil in Hin|]).
    by apply elem_of_nil in Hpat.
Qed.

Lemma some_header_has (p : str → bool) (tables : list table) :
  existsb (header_has p) tables = true
  ↔ ∃ header rows, header :: rows ∈ tables ∧ p (header_text header) = true.
Proof.
  rewrite existsb_elem_of. split.
  - intros ([|header rows] & Ht & H); [done|]. by exists header, rows.
  - intros (header & rows & Ht & H). by exists (header :: rows).
Qed.

Lemma detect_bom_format_cases (tables : list table) (text : str)
    (listing level quantity equipment columns : Prop) :
  (listing_marker text = true ↔ listing) →
  (existsb (header_has lv_header) tables = true ↔ level) →
  (auth_qty_marker text = true ↔ quantity) →
  (epp_marker text = true ↔ equipment) →
  (existsb (header_has material_description_header) tables = true
   ↔ columns) →
  (listing ∧ level → detect_bom_format tables text = GCSS_ARMY_STANDARD)
  ∧ (listing ∧ ¬ level ∧ quantity →
     detect_bom_format tables text = GCSS_ARMY_STANDARD)
  ∧ (¬ (listing ∧ (level ∨ quantity)) ∧ equipment →
     detect_bom_format tables text = EPP_FORMAT)
  ∧ (¬ (listing ∧ (level ∨ quantity)) ∧ ¬ equipment ∧ columns →
     detect_bom_format tables text = GCSS_ARMY_STANDARD)
  ∧ (¬ (listing ∧ (level ∨ quantity)) ∧ ¬ equipment ∧ ¬ columns →
     detect_bom_format tables text = UNKNOWN).
Proof.
  intros Hl Hv Hq He Hc. unfold detect_bom_format, detect_listing.
  destruct (listing_marker text), (existsb (header_has lv_header) tables),
    (auth_qty_marker text), (epp_marker text),
    (existsb (header_has material_description_header) tables);
    split_and!; intros H; try done; exfalso;
    repeat match goal with
           | H : true = true ↔ _ |- _ => apply proj1 in H; specialize (H eq_refl)
           | H : false = true ↔ ?P |- _ =>
               assert (¬ P) by (intros HP; by apply H in HP); clear H
           end; tauto.
Qed.

Lemma detect_bom_format_rules tables text :
  detect_bom_format tables text = first_rule detection_rules tables text.
Proof.
  unfold detect_bom_format, detect_listing. simpl.
  destruct (listing_marker text); simpl; [|done].
  destruct (existsb (header_has lv_header) tables); simpl; [done|].
  by destruct (auth_qty_marker text).
Qed.

(** C6. Format detection always returns a format, the one of the first
    rule that applies among: listing marker and a level header; listing
    marker and both quantity markers; equipment-record markers; a header
    with both a material and a description marker; and [UNKNOWN] when no
    rule applies. A page whose text holds [COMPONENT LISTING] and one of
    whose header cells holds [LV] is a standard listing; a page without
    listing or equipment-record marker and without a
    material-and-description header is [UNKNOWN]. The last part states the
    five rules on the page text and the header cells themselves, in any
    letter case: the listing marker is [COMPONENT LISTING] or
    [HAND RECEIPT] in the text, the level marker [LV] or [LEVEL] in a cell
    of some header row, the quantity markers [AUTH] and [QTY] both in the
    text, the equipment-record marker [PWR PLANT] or [OPERATIONAL SUPPORT]
    in the text, and the column markers [MATERIAL] and [DESCRIPTION] both
    in cells of one header row. *)
Theorem format_detection_priority_rules :
  (∀ tables text,
     detect_bom_format tables text = first_rule detection_rules tables text)
  ∧ (∀ (tables : list table) (header : row) (rows : table) (c text : str),
       header :: rows ∈ tables →
       Some c ∈ header →
       str_in (py "LV") c = true →
       str_in (py "COMPONENT LISTING") text = true →
       detect_bom_format tables text = GCSS_ARMY_STANDARD)
  ∧ (∀ (tables : list table) (text : str),
       listing_marker text = false →
       epp_marker text = false →
       (∀ header rows,
          header :: rows ∈ tables →
          material_description_header (header_text header) = false) →
       detect_bom_format tables text = UNKNOWN)
  ∧ (∀ (tables : list table) (text : str),
       let listing :=
         str_in (py "COMPONENT LISTING") (upper text) = true
         ∨ str_in (py "HAND RECEIPT") (upper text) = true in
       let level :=
         ∃ header rows,
           header :: rows ∈ tables
           ∧ (header_cell_holds (py "LV") header
              ∨ header_cell_holds (py "LEVEL") header) in
       let quantity :=
         str_in (py "AUTH") (upper text) = true
         ∧ str_in (py "QTY") (upper text) = true in
       let equipment :=
         str_in (py "PWR PLANT") (upper text) = true
         ∨ str_in (py "OPERATIONAL SUPPORT") (upper text) = true in
       let columns :=
         ∃ header rows,
           header :: rows ∈ tables
           ∧ header_cell_holds (py "MATERIAL") header
           ∧ header_cell_holds (py "DESCRIPTION") header in
       (listing ∧ level →
        detect_bom_format tables text = GCSS_ARMY_STANDARD)
       ∧ (listing ∧ ¬ level ∧ quantity →
          detect_bom_format tables text = GCSS_ARMY_STANDARD)
       ∧ (¬ (listing ∧ (level ∨ quantity)) ∧ equipment →
          detect_bom_format tables text = EPP_FORMAT)
       ∧ (¬ (listing ∧ (level ∨ quantity)) ∧ ¬ equipment ∧ columns →
          detect_bom_format tables text = GCSS_ARMY_STANDARD)
       ∧ (¬ (listing ∧ (level ∨ quantity)) ∧ ¬ equipment ∧ ¬ columns →
          detect_bom_format tables text = UNKNOWN)).
Proof.
  split; [apply detect_bom_format_rules|]. split; [|split].
  - intros tables header rows c text Ht Hc Hlv Hcl.
    unfold detect_bom_format, detect_listing.
    assert (listing_marker text = true) as ->.
    { unfold listing_marker. apply orb_true_iff. left.
      by apply (str_in_upper (py "COMPONENT LISTING")). }
    assert (existsb (header_has lv_header) tables = true) as ->; [|done].
    apply existsb_elem_of. exists (header :: rows). split; [done|].
    unfold header_has, lv_header, header_text. apply orb_true_iff. left.
    apply (str_in_upper (py "LV")). apply (str_in_join _ _ c); [|done].
    apply (list_elem_of_fmap_2 (default []) header (Some c)) in Hc. exact Hc.
  - intros tables text Hl He Hh.
    unfold detect_bom_format, detect_listing. rewrite Hl, He.
    rewrite existsb_none; [done|].
    intros [|header rows] Ht; [done|]. by apply (Hh header rows).
  - intros tables text listing level quantity equipment columns.
    apply detect_bom_format_cases.
    + unfold listing_marker. apply orb_true_iff.
    + rewrite some_header_has. unfold lv_header, level.
      split; intros (header & rows & Ht & H); exists header, rows;
        (split; [done|]).
      * apply orb_true_iff in H as [H | H]; [left | right];
          (apply header_marker_holds in H; [done|]);
          cbn; repeat first [apply list_elem_of_here | apply list_elem_of_further].
      * apply orb_true_iff.
        destruct H as [H | H]; [left | right];
          (apply header_marker_holds; [|done]); cbn; repeat first [apply list_elem_of_here | apply list_elem_of_further].
    + unfold auth_qty_marker. apply andb_true_iff.
    + unfold epp_marker. apply orb_true_iff.
    + rewrite some_header_has. unfold material_description_header, columns.
      split; intros (header & rows & Ht & H); exists header, rows;
        (split; [done|]).
      * apply andb_true_iff in H as [H1 H2].
        apply header_marker_holds in H1; [|cbn; repeat first [apply list_elem_of_here | apply list_elem_of_further]].
        apply header_marker_holds in H2; [|cbn; repeat first [apply list_elem_of_here | apply list_elem_of_further]]. done.
      * apply andb_true_iff. destruct H as [H1 H2].
        split; (apply header_marker_holds; [|done]); cbn; repeat first [apply list_elem_of_here | apply list_elem_of_further].
Qed.

Lemma format_detection_priority_rules_witness :
  detect_bom_format
    [[[Some (py "Material"); Some (py "LV"); Some (py "Description")];
      [Some (py "002643796"); Some (py "B"); Some (py "CHAIN ASSEMBLY")]]]
    (py "COMPONENT LISTING / HAND RECEIPT") = GCSS_ARMY_STANDARD
  ∧ detect_bom_format
      [[[Some (py "Item"); Some (py "Count")]; [Some (py "Bolt"); None]]]
      (py "Parts on hand") = UNKNOWN
  ∧ detect_bom_format
      [[[Some (py "Item"); Some (py "Count")]]]
      (py "Hand Receipt, auth qty per item") = GCSS_ARMY_STANDARD
  ∧ detect_bom_format
      [[[Some (py "Material"); Some (py "Description")]]]
      (py "Operational support items") = EPP_FORMAT
  ∧ detect_bom_format
      [[[Some (py "Material No"); None; Some (py "Item description")]]]
      (py "Parts on hand") = GCSS_ARMY_STANDARD.
Proof.
  split_and!.
  - apply (proj1 (proj2 format_detection_priority_rules) _
             [Some (py "Material"); Some (py "LV"); Some (py "Description")]
             [[Some (py "002643796"); Some (py "B");
               Some (py "CHAIN ASSEMBLY")]]
             (py "LV")).
    + apply list_elem_of_here.
    + apply list_elem_of_further, list_elem_of_here.
    + reflexivity.
    + reflexivity.
  - apply (proj1 (proj2 (proj2 format_detection_priority_rules))).
    + reflexivity.
    + reflexivity.
    + intros header rows H. apply list_elem_of_singleton in H.
      injection H as -> _. reflexivity.
  - destruct (proj2 (proj2 (proj2 format_detection_priority_rules))
                [[[Some (py "Item"); Some (py "Count")]]]
                (py "Hand Receipt, auth qty per item"))
      as (_ & Hrule & _).
    apply Hrule. split_and!.
    + right. reflexivity.
    + intros (header & rows & H & [(c & Hc & Hin) | (c & Hc & Hin)]);
        apply list_elem_of_singleton in H; injection H as -> _;
        repeat (apply elem_of_cons in Hc as [[= ->] | Hc];
                [vm_compute in Hin; discriminate|]);
        by apply elem_of_nil in Hc.
    + reflexivity.
    + reflexivity.
  - destruct (proj2 (proj2 (proj2 format_detection_priority_rules))
                [[[Some (py "Material"); Some (py "Description")]]]
                (py "Operational support items"))
      as (_ & _ & Hrule & _).
    apply Hrule. split.
    + intros [[H | H] _]; vm_compute in H; discriminate.
    + right. reflexivity.
  - destruct (proj2 (proj2 (proj2 format_detection_priority_rules))
                [[[Some (py "Material No"); None;
                   Some (py "Item description")]]]
                (py "Parts on hand"))
      as (_ & _ & _ & Hrule & _).
    apply Hrule. split_and!.
    + intros [[H | H] _]; vm_compute in H; discriminate.
    + intros [H | H]; vm_compute in H; discriminate.
    + eexists _, _. split; [apply list_elem_of_here|]. split.
      * exists (py "Material No"). split; [apply list_elem_of_here|].
        reflexivity.
      * exists (py "Item description").
        split; [do 2 apply list_elem_of_further; apply list_elem_of_here|].
        reflexivity.
Defined.

(** *** Item extractors *)

Lemma number_from_length n fs : length (number_from n fs) = length fs.
Proof.
  revert n. induction fs as [|[[d s] q] fs IH]; intros n; simpl; [done|].
  by rewrite IH.
Qed.

Lemma number_from_app n a b :
  number_from n (a ++ b) = number_from n a ++ number_from (n + length a) b.
Proof.
  revert n. induction a as [|[[d s] q] a IH]; intros n; simpl.
  - by rewrite Nat.add_0_r.
  - rewrite IH. do 3 f_equal. lia.
Qed.

Lemma row_steps on_row rows acc :
  fold_left (row_step on_row) rows acc
  = acc ++ number_from (length acc) (omap on_row rows).
Proof.
  revert acc. induction rows as [|r rows IH]; intros acc; simpl.
  - by rewrite app_nil_r.
  - rewrite IH. unfold row_step. destruct (on_row r) as [[[d s] q]|]; [|done].
    unfold append_item. rewrite length_app, <- app_assoc. simpl.
    do 3 f_equal. lia.
Qed.

Lemma omap_none {A B} (f : A → option B) (l : list A) :
  (∀ x, f x = None) → omap f l = [].
Proof. intros H. induction l as [|x l IH]; simpl; [done|]. by rewrite H. Qed.

Lemma gcss_table_eq acc t :
  gcss_table acc t
  = acc ++ number_from (length acc) (gcss_table_fields t).
Proof.
  destruct t as [|header [|r rows]];
    [simpl; by rewrite app_nil_r | simpl; by rewrite app_nil_r |].
  unfold gcss_table, gcss_table_fields.
  destruct (ix_description (gcss_indices header)) eqn:E.
  - apply (row_steps _ (r :: rows)).
  - rewrite (omap_none (gcss_row (gcss_indices header)) (r :: rows)).
    + simpl. by rewrite app_nil_r.
    + intros x. unfold gcss_row. by rewrite E.
Qed.

Lemma epp_table_eq acc t :
  epp_table acc t = acc ++ number_from (length acc) (epp_table_fields t).
Proof.
  destruct t as [|header [|r rows]];
    [simpl; by rewrite app_nil_r | simpl; by rewrite app_nil_r |].
  unfold epp_table, epp_table_fields.
  destruct (ix_description (epp_indices header)) eqn:E.
  - apply (row_steps _ (r :: rows)).
  - rewrite (omap_none (epp_row (epp_indices header)) (r :: rows)).
    + simpl. by rewrite app_nil_r.
    + intros x. unfold epp_row. by rewrite E.
Qed.

Lemma tables_fold (step : list BomItem → table → list BomItem)
    (fields : table → list Fields) tables acc :
  (∀ a t, step a t = a ++ number_from (length a) (fields t)) →
  fold_left step tables acc
  = acc ++ number_from (length acc) (concat (map fields tables)).
Proof.
  intros Hstep. revert acc.
  induction tables as [|t ts IH]; intros acc; simpl.
  - by rewrite app_nil_r.
  - rewrite IH, Hstep, number_from_app, length_app, number_from_length.
    by rewrite <- app_assoc.
Qed.

Lemma extract_items_gcss_standard_eq tables :
  extract_items_gcss_standard tables
  = number_from 0 (concat (map gcss_table_fields tables)).
Proof.
  unfold extract_items_gcss_standard.
  by rewrite (tables_fold _ gcss_table_fields _ _ gcss_table_eq).
Qed.

Lemma extract_items_epp_format_eq tables text :
  extract_items_epp_format tables text
  = number_from 0 (concat (map epp_table_fields tables)).
Proof.
  unfold extract_items_epp_format.
  by rewrite (tables_fold _ epp_table_fields _ _ epp_table_eq).
Qed.

Lemma level_not_empty_row r l v : level_is r l v → empty_row r = false.
Proof.
  intros (c & Hc & Hne & _). unfold empty_row.
  apply negb_false_iff, existsb_elem_of. exists (Some c). split.
  - unfold cell_at in Hc. destruct (r !! l) as [x|] eqn:E; [|done].
    simpl in Hc. subst x. by eapply list_elem_of_lookup_2.
  - by destruct c.
Qed.

Lemma level_skip_iff ix r l v :
  ix_lv ix = Some l → level_is r l v →
  gcss_level_skip ix r = negb (str_eqb v (py "B")).
Proof.
  intros Hl (c & Hc & Hne & <-). unfold gcss_level_skip. rewrite Hl, Hc.
  by destruct c.
Qed.

Lemma existsb_false_Forall {A} (f : A → bool) (l : list A) :
  existsb f l = false ↔ Forall (λ x, f x = false) l.
Proof.
  induction l as [|x l IH]; simpl; [by split; [constructor|]|].
  rewrite orb_false_iff, IH, Forall_cons. done.
Qed.

(** C8, counterexample. A row of level [B] whose description is the
    category phrase [BASIC ISSUE ITEMS], and one whose description cell is
    the two characters [AB], have a description that is not empty and are
    not emitted. *)
Lemma gcss_level_b_not_always_emitted :
  let header := [Some (py "LV"); Some (py "Description")] in
  let r1 := [Some (py "B"); Some (py "BASIC ISSUE ITEMS")] in
  let r2 := [Some (py "B"); Some (py "AB")] in
  ix_lv (gcss_indices header) = Some 0
  ∧ ix_description (gcss_indices header) = Some 1
  ∧ level_is r1 0 (py "B") ∧ level_is r2 0 (py "B")
  ∧ gcss_description (cell_at r1 1) = py "BASIC ISSUE ITEMS"
  ∧ cell_at r2 1 = Some (py "AB")
  ∧ gcss_row (gcss_indices header) r1 = None
  ∧ gcss_row (gcss_indices header) r2 = None
  ∧ extract_items_gcss_standard [[header; r1; r2]] = [].
Proof.
  cbv zeta. split_and!; try (vm_compute; reflexivity).
  - exists (py "B"). split_and!; [reflexivity | discriminate | reflexivity].
  - exists (py "B"). split_and!; [reflexivity | discriminate | reflexivity].
Qed.

(** C8, amended. In the standard-listing path, when a level column is
    present, a row whose level is [A] is never emitted; over rows of plain
    cells (ASCII text within the conversion limit), a row whose level is
    anything but [B] is never emitted, and a row whose level is [B] is
    emitted exactly when its description, as the path cleans it, has at
    least three characters and holds none of the category phrases; and the
    items returned from tables of plain cells are the rows so emitted,
    numbered in order. *)
Theorem gcss_level_filter :
  (∀ ix r l, ix_lv ix = Some l → level_is r l (py "A") →
     gcss_row ix r = None)
  ∧ (∀ ix r l v, plain_row r = true →
       ix_lv ix = Some l → level_is r l v → v ≠ py "B" →
       gcss_row ix r = None)
  ∧ (∀ ix r l d,
       plain_row r = true →
       ix_lv ix = Some l → ix_description ix = Some d →
       level_is r l (py "B") →
       (is_Some (gcss_row ix r)
        ↔ 3 ≤ length (gcss_description (cell_at r d))
          ∧ Forall (λ pat,
                      str_in pat (upper (gcss_description (cell_at r d)))
                      = false) skip_patterns))
  ∧ (∀ tables,
       forallb plain_table tables = true →
       extract_items_gcss_standard tables
       = number_from 0 (concat (map gcss_table_fields tables))).
Proof.
  assert (∀ ix r l v, ix_lv ix = Some l → level_is r l v → v ≠ py "B" →
            gcss_row ix r = None) as Hskip.
  { intros ix r l v Hl Hv Hne. unfold gcss_row.
    destruct (ix_description ix); [|done].
    rewrite (level_not_empty_row _ _ _ Hv), (level_skip_iff _ _ _ _ Hl Hv).
    destruct (str_eqb v (py "B")) eqn:E; [|done].
    by apply str_eqb_eq in E. }
  split; [|split; [intros ix r l v _; apply Hskip|split]].
  - intros ix r l Hl Hv. by apply (Hskip ix r l (py "A")).
  - intros ix r l d _ Hl Hd Hv. unfold gcss_row. rewrite Hd.
    rewrite (level_not_empty_row _ _ _ Hv), (level_skip_iff _ _ _ _ Hl Hv).
    simpl negb. cbv iota.
    destruct (decide (length (gcss_description (cell_at r d)) < 3)) as [Hlt|Hge].
    { split; [by intros [? ?] | intros [? _]; lia]. }
    destruct (existsb _ skip_patterns) eqn:E.
    + split; [by intros [? ?]|]. intros [_ HF].
      apply existsb_false_Forall in HF. congruence.
    + apply existsb_false_Forall in E. split; [|by eexists].
      intros _. split; [lia | done].
  - intros tables _. apply extract_items_gcss_standard_eq.
Qed.

Lemma gcss_level_filter_witness :
  gcss_row (gcss_indices [Some (py "LV"); Some (py "Description")])
    [Some (py "A"); Some (py "TOOL KIT")] = None
  ∧ gcss_row (gcss_indices [Some (py "LV"); Some (py "Description")])
      [Some (py " c "); Some (py "TOOL KIT")] = None
  ∧ is_Some
      (gcss_row (gcss_indices [Some (py "LV"); Some (py "Description")])
         [Some (py "B"); Some (py "CHAIN ASSEMBLY")]).
Proof.
  split_and!.
  - apply (proj1 gcss_level_filter _ _ 0); [reflexivity|].
    exists (py "A"). split_and!; [reflexivity | discriminate | reflexivity].
  - apply (proj1 (proj2 gcss_level_filter) _ _ 0 (py "C"));
      [reflexivity | reflexivity | | discriminate].
    exists (py " c "). split_and!; [reflexivity | discriminate | reflexivity].
  - apply (proj1 (proj2 (proj2 gcss_level_filter)) _ _ 0 1);
      [reflexivity | reflexivity | reflexivity | |].
    + exists (py "B"). split_and!; [reflexivity | discriminate | reflexivity].
    + split; [vm_compute; lia | repeat constructor].
Defined.

(** *** The quantity column *)

Lemma empty_row_cell r i : empty_row r = true → truthy (cell_at r i) = false.
Proof.
  unfold empty_row, cell_at. intros H. apply negb_true_iff in H.
  destruct (r !! i) as [c|] eqn:E; [|done]. simpl.
  rewrite existsb_false_Forall in H. rewrite Forall_forall in H.
  apply H. by eapply list_elem_of_lookup_2.
Qed.

Lemma gcss_description_falsy c : truthy c = false → gcss_description c = [].
Proof. unfold gcss_description. by intros ->. Qed.

Lemma clean_description_falsy c : truthy c = false → clean_description c = [].
Proof. unfold clean_description. by intros ->. Qed.

(** The test on empty rows changes nothing: such a row has no
    description. *)
Lemma gcss_row_no_empty_test ix r :
  gcss_row ix r =
  match ix_description ix with
  | None => None
  | Some d =>
      if gcss_level_skip ix r then None
      else
        let description := gcss_description (cell_at r d) in
        if decide (length description < 3) then None
        else if existsb (λ pat, str_in pat (upper description)) skip_patterns
        then None
        else Some (description, row_nsn ix r, gcss_qty ix r)
  end.
Proof.
  unfold gcss_row. destruct (ix_description ix) as [d|]; [|done].
  destruct (empty_row r) eqn:E; [|done].
  rewrite (gcss_description_falsy _ (empty_row_cell r d E)). simpl.
  by destruct (gcss_level_skip ix r).
Qed.

Lemma epp_row_no_empty_test ix r :
  epp_row ix r =
  match ix_description ix with
  | None => None
  | Some d =>
      if epp_level_skip ix r then None
      else
        match clean_description (cell_at r d) with
        | [] => None
        | c :: description =>
            if existsb (str_eqb (upper (c :: description))) epp_categories
            then None
            else Some (c :: description, row_nsn ix r, epp_qty ix r)
        end
  end.
Proof.
  unfold epp_row. destruct (ix_description ix) as [d|]; [|done].
  destruct (empty_row r) eqn:E.
  - rewrite (clean_description_falsy _ (empty_row_cell r d E)).
    by destruct (epp_level_skip ix r).
  - destruct (epp_level_skip ix r); [done|]. cbv zeta.
    by destruct (clean_description (cell_at r d)).
Qed.

Lemma cell_at_insert_ne (r : row) j v i :
  i ≠ j → cell_at (<[j:=v]> r) i = cell_at r i.
Proof. intros H. unfold cell_at. by rewrite list_lookup_insert_ne. Qed.

Lemma column_cell_insert_ne (r : row) j v idx :
  idx ≠ Some j → column_cell (<[j:=v]> r) idx = column_cell r idx.
Proof.
  intros H. destruct idx as [i|]; [|done]. unfold column_cell.
  rewrite length_insert, cell_at_insert_ne; [done|]. congruence.
Qed.

Lemma gcss_level_skip_insert_ne ix (r : row) j v :
  ix_lv ix ≠ Some j →
  gcss_level_skip ix (<[j:=v]> r) = gcss_level_skip ix r.
Proof.
  intros H. unfold gcss_level_skip. destruct (ix_lv ix) as [l|]; [|done].
  rewrite cell_at_insert_ne; [done|]. congruence.
Qed.

Lemma epp_level_skip_insert_ne ix (r : row) j v :
  ix_lv ix ≠ Some j →
  epp_level_skip ix (<[j:=v]> r) = epp_level_skip ix r.
Proof.
  intros H. unfold epp_level_skip. destruct (ix_lv ix) as [l|]; [|done].
  rewrite cell_at_insert_ne; [done|]. congruence.
Qed.

Lemma rows_insert_ne ix (r : row) j v :
  ix_lv ix ≠ Some j → ix_description ix ≠ Some j →
  ix_material ix ≠ Some j → ix_auth_qty ix ≠ Some j →
  gcss_row ix (<[j:=v]> r) = gcss_row ix r
  ∧ epp_row ix (<[j:=v]> r) = epp_row ix r.
Proof.
  intros Hl Hd Hm Ha.
  rewrite !gcss_row_no_empty_test, !epp_row_no_empty_test.
  unfold row_nsn, gcss_qty, epp_qty.
  rewrite gcss_level_skip_insert_ne, epp_level_skip_insert_ne by done.
  rewrite !column_cell_insert_ne by done.
  destruct (ix_description ix) as [d|]; [|done].
  rewrite !cell_at_insert_ne; [done|congruence].
Qed.

Lemma rows_same_columns ix ix' (r : row) :
  ix_lv ix = ix_lv ix' → ix_description ix = ix_description ix' →
  ix_material ix = ix_material ix' → ix_auth_qty ix = ix_auth_qty ix' →
  gcss_row ix r = gcss_row ix' r ∧ epp_row ix r = epp_row ix' r.
Proof.
  intros Hl Hd Hm Ha.
  unfold gcss_row, epp_row, gcss_level_skip, epp_level_skip, row_nsn,
    gcss_qty, epp_qty.
  by rewrite Hl, Hd, Hm, Ha.
Qed.

Lemma no_auth_cell_column ix r :
  no_auth_cell ix r → column_cell r (ix_auth_qty ix) = None.
Proof.
  intros [-> | (a & -> & Hle)]; [done|]. unfold column_cell.
  destruct (decide (a < length r)); [lia | done].
Qed.

Lemma rows_default_quantity ix r f :
  no_auth_cell ix r →
  gcss_row ix r = Some f ∨ epp_row ix r = Some f → f.2 = 1%Z.
Proof.
  intros Hn%no_auth_cell_column [H | H].
  - unfold gcss_row, gcss_qty in H. rewrite Hn in H.
    repeat case_match; simplify_eq; done.
  - unfold epp_row, epp_qty in H. rewrite Hn in H.
    repeat case_match; simplify_eq; done.
Qed.

Lemma set_description_auth i ix :
  ix_auth_qty (set_index RDescription i ix) = ix_auth_qty ix.
Proof. reflexivity. Qed.

Lemma gcss_indices_auth header :
  ix_auth_qty (gcss_indices header) = ix_auth_qty (find_column_indices header).
Proof.
  unfold gcss_indices.
  destruct (ix_description (find_column_indices header)); [done|].
  by destruct (gcss_find_desc (enumerate header)).
Qed.

Lemma epp_indices_auth header :
  ix_auth_qty (epp_indices header) = ix_auth_qty (find_column_indices header).
Proof.
  unfold epp_indices.
  destruct (ix_description (find_column_indices header)); [done|].
  generalize (find_column_indices header) as ix.
  induction (enumerate header) as [|[i c] l IH]; intros ix; simpl; [done|].
  rewrite IH. unfold epp_desc_step.
  destruct (negb (truthy c)); [done|].
  by destruct (_ || _).
Qed.

Lemma Forall_qty_one n fs :
  Forall (λ f : Fields, f.2 = 1%Z) fs →
  Forall (λ it, qty it = 1%Z) (number_from n fs).
Proof.
  intros H. revert n.
  induction H as [|[[d s] q] fs Hq _ IH]; intros n; simpl; constructor;
    [exact Hq | apply IH].
Qed.

Lemma Forall_omap_rows (on_row : row → option Fields) rows (P : Fields → Prop) :
  (∀ r f, on_row r = Some f → P f) → Forall P (omap on_row rows).
Proof.
  intros H. induction rows as [|r rows IH]; simpl; [constructor|].
  destruct (on_row r) as [f|] eqn:E; [|done]. constructor; eauto.
Qed.

Lemma tables_default_quantity (tables : list table) text :
  (∀ header rows, header :: rows ∈ tables →
     ix_auth_qty (find_column_indices header) = None) →
  Forall (λ it, qty it = 1%Z) (extract_items_gcss_standard tables)
  ∧ Forall (λ it, qty it = 1%Z) (extract_items_epp_format tables text).
Proof.
  intros H.
  rewrite extract_items_gcss_standard_eq, (extract_items_epp_format_eq _ text).
  split; apply Forall_qty_one, Forall_concat, Forall_fmap, Forall_forall;
    intros [|header rows] Ht; simpl; try constructor.
  - apply Forall_omap_rows. intros r f Hf.
    apply (rows_default_quantity (gcss_indices header) r); [|by left].
    left. rewrite gcss_indices_auth. by eapply H.
  - apply Forall_omap_rows. intros r f Hf.
    apply (rows_default_quantity (epp_indices header) r); [|by right].
    left. rewrite epp_indices_auth. by eapply H.
Qed.

(** *** The mapper gives a header cell one role *)

Lemma get_set_index r r' i ix :
  get_index r (set_index r' i ix)
  = if decide (r = r') then Some i else get_index r ix.
Proof. destruct r, r'; reflexivity. Qed.

Lemma column_step_resolved header ix i c :
  header !! i = Some c → resolved_by header ix →
  resolved_by header (column_step ix (i, c)).
Proof.
  intros Hi Hix. unfold column_step.
  destruct c as [[|x s]|]; simpl; [done| |done].
  destruct (role_of (x :: s)) as [r'|] eqn:Er; [|done].
  intros r k. rewrite get_set_index. destruct (decide (r = r')) as [->|Hne].
  - intros [= <-]. by exists (x :: s).
  - apply Hix.
Qed.

Lemma enumerate_elem {A} (l : list A) i x :
  (i, x) ∈ enumerate l → l !! i = Some x.
Proof.
  intros H. apply list_elem_of_lookup in H as [k Hk].
  rewrite enumerate_lookup in Hk. apply fmap_Some in Hk as (y & Hy & [= -> ->]).
  done.
Qed.

Lemma find_column_indices_resolved header :
  resolved_by header (find_column_indices header).
Proof.
  unfold find_column_indices.
  assert (∀ l ix,
            (∀ i c, (i, c) ∈ l → header !! i = Some c) →
            resolved_by header ix →
            resolved_by header (fold_left column_step l ix)) as H.
  { induction l as [|[i c] l IH]; intros ix Hl Hix; simpl; [done|].
    apply IH.
    - intros k d Hk. apply Hl. by apply list_elem_of_further.
    - apply column_step_resolved; [|done]. apply Hl, list_elem_of_here. }
  apply H.
  - intros i c. apply enumerate_elem.
  - intros r i. by destruct r.
Qed.

Lemma resolved_one_role header ix r r' i :
  resolved_by header ix →
  get_index r ix = Some i → get_index r' ix = Some i → r = r'.
Proof.
  intros H Hr Hr'.
  destruct (H _ _ Hr) as (c & Hc & _ & Hrole).
  destruct (H _ _ Hr') as (c' & Hc' & _ & Hrole'). congruence.
Qed.

Lemma drop_while_keeps a x p b :
  is_space x = false →
  ∃ a', drop_while is_space (a ++ x :: p ++ b) = a' ++ x :: p ++ b.
Proof.
  intros Hx. induction a as [|c a [a' IH]]; simpl.
  - exists []. by rewrite Hx.
  - destruct (is_space c); [by exists a' | by exists (c :: a)].
Qed.

Lemma str_in_strip p s :
  p ≠ [] → Forall (λ c, is_space c = false) p →
  str_in p s = true → str_in p (strip s) = true.
Proof.
  intros Hne Hp. rewrite !str_in_spec. intros (a & b & ->).
  unfold strip, lstrip, rstrip.
  destruct p as [|x p]; [done|]. apply Forall_cons in Hp as [Hx Hp].
  change ((x :: p) ++ b) with (x :: p ++ b).
  destruct (drop_while_keeps a x p b Hx) as [a' ->].
  destruct (exists_last Hne) as (q & y & Hq).
  assert (is_space y = false) as Hy.
  { assert (Forall (λ c, is_space c = false) (x :: p)) as H by by constructor.
    rewrite Hq in H. apply Forall_app in H as [_ H].
    by apply Forall_cons in H as [? _]. }
  assert (rev (a' ++ x :: p ++ b) = rev b ++ y :: rev q ++ rev a') as ->.
  { change (x :: p ++ b) with ((x :: p) ++ b). rewrite Hq.
    rewrite !rev_app_distr. simpl. by rewrite <- !app_assoc. }
  destruct (drop_while_keeps (rev b) y (rev q) (rev a') Hy) as [b' ->].
  exists a', (rev b').
  change (x :: p ++ rev b') with ((x :: p) ++ rev b'). rewrite Hq.
  rewrite rev_app_distr. simpl. rewrite rev_app_distr, !rev_involutive.
  by rewrite <- !app_assoc.
Qed.

Lemma role_of_desc c :
  str_in (py "DESC") (upper c) = true →
  role_of c = Some RLv ∨ role_of c = Some RDescription.
Proof.
  intros H. apply (str_in_strip (py "DESC")) in H;
    [|done|repeat constructor].
  unfold role_of. rewrite H.
  destruct (_ || _); [by left | by right].
Qed.

Lemma gcss_find_desc_some l d :
  gcss_find_desc l = Some d →
  ∃ c, (d, Some c) ∈ l ∧ str_in (py "DESC") (upper c) = true.
Proof.
  induction l as [|[i c] l IH]; [done|]. cbn [gcss_find_desc].
  destruct (truthy c && str_in (py "DESC") (upper (default [] c))) eqn:E.
  - intros [= ->]. apply andb_true_iff in E as [Ht Hd].
    destruct c as [c|]; [|done]. exists c. split; [apply list_elem_of_here|done].
  - intros H. destruct (IH H) as (c' & Hc' & Hd). exists c'.
    split; [by apply list_elem_of_further | done].
Qed.

Lemma descr_is_desc text :
  str_in (py "DESCR") text || str_eqb text (py "DESC") = true →
  str_in (py "DESC") text = true.
Proof.
  intros H. apply orb_true_iff in H as [H | H].
  - apply str_in_spec in H as (a & b & ->). apply str_in_spec.
    exists a, ("R"%char :: b). reflexivity.
  - apply str_eqb_eq in H as ->. reflexivity.
Qed.

Lemma epp_desc_step_cases ix i c :
  let ix' := epp_desc_step ix (i, c) in
  ix_lv ix' = ix_lv ix ∧ ix_material ix' = ix_material ix
  ∧ ix_auth_qty ix' = ix_auth_qty ix ∧ ix_oh_qty ix' = ix_oh_qty ix
  ∧ (ix_description ix' = ix_description ix
     ∨ ∃ c', c = Some c' ∧ ix_description ix' = Some i
             ∧ str_in (py "DESC") (upper c') = true).
Proof.
  unfold epp_desc_step. destruct c as [[|x s]|]; cbn [truthy negb];
    cbv zeta iota; try (split_and!; try done; by left).
  cbn [default from_option id].
  destruct (str_in (py "DESCR") (upper (x :: s))
            || str_eqb (upper (x :: s)) (py "DESC")) eqn:E.
  - split_and!; try done. right. exists (x :: s).
    split_and!; [done | done | by apply descr_is_desc].
  - split_and!; try done. by left.
Qed.

Lemma epp_desc_fold l ix :
  ix_lv (fold_left epp_desc_step l ix) = ix_lv ix
  ∧ ix_material (fold_left epp_desc_step l ix) = ix_material ix
  ∧ ix_auth_qty (fold_left epp_desc_step l ix) = ix_auth_qty ix
  ∧ ix_oh_qty (fold_left epp_desc_step l ix) = ix_oh_qty ix
  ∧ (ix_description (fold_left epp_desc_step l ix) = ix_description ix
     ∨ ∃ d c, ix_description (fold_left epp_desc_step l ix) = Some d
              ∧ (d, Some c) ∈ l
              ∧ str_in (py "DESC") (upper c) = true).
Proof.
  revert ix. induction l as [|[i c] l IH]; intros ix; cbn [fold_left].
  { split_and!; try done. by left. }
  destruct (IH (epp_desc_step ix (i, c))) as (H1 & H2 & H3 & H4 & H5).
  destruct (epp_desc_step_cases ix i c) as (S1 & S2 & S3 & S4 & S5).
  rewrite H1, H2, H3, H4, S1, S2, S3, S4. split_and!; try done.
  destruct H5 as [H5 | (d & c' & Hd & Hin & Hdesc)].
  - rewrite H5. destruct S5 as [S5 | (c' & -> & Hd & Hdesc)]; [by left|].
    right. exists i, c'. split_and!; [done | apply list_elem_of_here | done].
  - right. exists d, c'. split_and!; [done | by apply list_elem_of_further | done].
Qed.

Lemma desc_cell_not_on_hand header j d c :
  ix_oh_qty (find_column_indices header) = Some j →
  (d, Some c) ∈ enumerate header →
  str_in (py "DESC") (upper c) = true → d ≠ j.
Proof.
  intros Hoh Hd Hdesc ->.
  destruct (find_column_indices_resolved header ROhQty j Hoh)
    as (c' & Hc' & _ & Hrole).
  apply enumerate_elem in Hd.
  assert (c' = c) as -> by congruence.
  destruct (role_of_desc c Hdesc); congruence.
Qed.

Lemma on_hand_column_apart header j :
  ix_oh_qty (find_column_indices header) = Some j →
  reads_apart_from (gcss_indices header) j
  ∧ reads_apart_from (epp_indices header) j.
Proof.
  intros Hoh.
  pose proof (find_column_indices_resolved header) as Hres.
  assert (reads_apart_from (find_column_indices header) j) as (A1 & A2 & A3 & A4).
  { unfold reads_apart_from. split_and!; intros H.
    - by pose proof (resolved_one_role _ _ RLv ROhQty j Hres H Hoh).
    - by pose proof (resolved_one_role _ _ RDescription ROhQty j Hres H Hoh).
    - by pose proof (resolved_one_role _ _ RMaterial ROhQty j Hres H Hoh).
    - by pose proof (resolved_one_role _ _ RAuthQty ROhQty j Hres H Hoh). }
  split.
  - unfold gcss_indices.
    destruct (ix_description (find_column_indices header)) eqn:Ed.
    { unfold reads_apart_from. by rewrite Ed. }
    destruct (gcss_find_desc (enumerate header)) as [d|] eqn:Ef.
    + apply gcss_find_desc_some in Ef as (c & Hc & Hdesc).
      unfold reads_apart_from. cbn. split_and!; try done.
      intros [= ->]. by eapply desc_cell_not_on_hand.
    + unfold reads_apart_from. by rewrite Ed.
  - unfold epp_indices.
    destruct (ix_description (find_column_indices header)) eqn:Ed.
    { unfold reads_apart_from. by rewrite Ed. }
    destruct (epp_desc_fold (enumerate header) (find_column_indices header))
      as (H1 & H2 & H3 & _ & H5).
    unfold reads_apart_from. rewrite H1, H2, H3. split_and!; try done.
    destruct H5 as [-> | (d & c & -> & Hc & Hdesc)]; [by rewrite Ed|].
    intros [= ->]. by eapply desc_cell_not_on_hand.
Qed.

Lemma omap_ext_rows (f g : row → option Fields) (h : row → row) rows :
  (∀ r, f (h r) = g r) → omap f (map h rows) = omap g rows.
Proof.
  intros H. induction rows as [|r rows IH]; csimpl; [done|].
  by rewrite H, IH.
Qed.

Lemma on_hand_values_unread header (rows : table) j (value : row → cell) text :
  ix_oh_qty (find_column_indices header) = Some j →
  extract_items_gcss_standard
    [header :: map (λ r, <[j:=value r]> r) rows]
  = extract_items_gcss_standard [header :: rows]
  ∧ extract_items_epp_format
      [header :: map (λ r, <[j:=value r]> r) rows] text
    = extract_items_epp_format [header :: rows] text.
Proof.
  intros Hoh.
  destruct (on_hand_column_apart header j Hoh)
    as [(G1 & G2 & G3 & G4) (E1 & E2 & E3 & E4)].
  rewrite !extract_items_gcss_standard_eq, !extract_items_epp_format_eq.
  cbn [map concat gcss_table_fields epp_table_fields].
  rewrite (omap_ext_rows _ (gcss_row (gcss_indices header))).
  2: { intros r. by apply rows_insert_ne. }
  rewrite (omap_ext_rows _ (epp_row (epp_indices header))).
  2: { intros r. by apply rows_insert_ne. }
  done.
Qed.

Lemma row_quantity_read ix (r : row) a f :
  ix_auth_qty ix = Some a → a < length r →
  gcss_row ix r = Some f ∨ epp_row ix r = Some f →
  f.2 = extract_quantity (of_cell (cell_at r a)).
Proof.
  intros Ha Hlt H.
  assert (column_cell r (ix_auth_qty ix) = Some (cell_at r a)) as Hc.
  { rewrite Ha. unfold column_cell. by destruct (decide (a < length r)). }
  destruct H as [H | H].
  - unfold gcss_row, gcss_qty in H. rewrite Hc in H.
    assert ((if truthy (cell_at r a)
             then extract_quantity (of_cell (cell_at r a)) else 1%Z)
            = extract_quantity (of_cell (cell_at r a))) as Hq
      by (by destruct (cell_at r a) as [[|x s]|]).
    rewrite Hq in H. repeat case_match; simplify_eq; done.
  - unfold epp_row, epp_qty in H. rewrite Hc in H.
    repeat case_match; simplify_eq; done.
Qed.

Lemma row_quantity_auth header (r : row) ix f :
  ix_auth_qty ix = ix_auth_qty (find_column_indices header) →
  gcss_row ix r = Some f ∨ epp_row ix r = Some f →
  f.2 = auth_quantity header r.
Proof.
  intros Hix H. unfold auth_quantity. rewrite <- Hix.
  destruct (ix_auth_qty ix) as [a|] eqn:Ha.
  - destruct (decide (a < length r)) as [Hlt|Hge].
    + by apply (row_quantity_read ix r a f).
    + apply (rows_default_quantity ix r f); [|done].
      right. exists a. split; [done | lia].
  - apply (rows_default_quantity ix r f); [by left | done].
Qed.

Lemma number_from_qty n fs it :
  it ∈ number_from n fs → ∃ f : Fields, f ∈ fs ∧ qty it = f.2.
Proof.
  revert n. induction fs as [|[[d s] q] fs IH]; intros n H.
  - by apply elem_of_nil in H.
  - cbn [number_from] in H. apply elem_of_cons in H as [-> | H].
    + eexists. split; [apply list_elem_of_here | done].
    + destruct (IH _ H) as (f & Hf & ?). exists f.
      split; [by apply list_elem_of_further | done].
Qed.

Lemma fields_of_tables (fields : table → list Fields) tables (f : Fields) :
  f ∈ concat (map fields tables) → ∃ t, t ∈ tables ∧ f ∈ fields t.
Proof.
  rewrite list_elem_of_In, in_concat. intros (l & Hl & Hf).
  apply in_map_iff in Hl as (t & <- & Ht).
  exists t. split; by apply list_elem_of_In.
Qed.

Lemma items_quantity_read tables text it :
  it ∈ extract_items_gcss_standard tables
  ∨ it ∈ extract_items_epp_format tables text →
  ∃ header rows r,
    header :: rows ∈ tables ∧ r ∈ rows ∧ qty it = auth_quantity header r.
Proof.
  intros [H | H].
  - rewrite extract_items_gcss_standard_eq in H.
    apply number_from_qty in H as (f & Hf & ->).
    apply fields_of_tables in Hf as ([|header rows] & Ht & Hf);
      [by apply elem_of_nil in Hf|].
    apply list_elem_of_omap in Hf as (r & Hr & Hf).
    exists header, rows, r. split_and!; [done..|].
    apply (row_quantity_auth header r (gcss_indices header));
      [apply gcss_indices_auth | by left].
  - rewrite extract_items_epp_format_eq in H.
    apply number_from_qty in H as (f & Hf & ->).
    apply fields_of_tables in Hf as ([|header rows] & Ht & Hf);
      [by apply elem_of_nil in Hf|].
    apply list_elem_of_omap in Hf as (r & Hr & Hf).
    exists header, rows, r. split_and!; [done..|].
    apply (row_quantity_auth header r (epp_indices header));
      [apply epp_indices_auth | by right].
Qed.

(** C10. Both item extractors take the quantity from the
    authorized-quantity column only. Over plain cells (ASCII text within
    the conversion limit), the quantity of an emitted record is what
    quantity extraction reads in the cell of that column in its row, and
    every item returned has the quantity so read in a row of a table under
    the column its header resolves. When that column is unresolved or
    beyond the end of the row, an emitted record has quantity 1; what a row
    yields depends on the indices of the level, description, material and
    authorized-quantity columns alone, so not on the on-hand index the
    mapper computes; overwriting a cell outside those four columns, the
    on-hand cell for one, changes nothing; over whole tables whose headers
    resolve no authorized-quantity column every item has quantity 1;
    overwriting the cells of the on-hand column the mapper resolved leaves
    the items of both extractors as they were; and the mapper does resolve
    an on-hand column. *)
Theorem quantity_from_auth_qty_only :
  (∀ ix (r : row) a f,
     plain_row r = true →
     ix_auth_qty ix = Some a → a < length r →
     gcss_row ix r = Some f ∨ epp_row ix r = Some f →
     f.2 = extract_quantity (of_cell (cell_at r a)))
  ∧ (∀ (tables : list table) text it,
       forallb plain_table tables = true →
       it ∈ extract_items_gcss_standard tables
       ∨ it ∈ extract_items_epp_format tables text →
       ∃ header rows r,
         header :: rows ∈ tables ∧ r ∈ rows
         ∧ qty it = auth_quantity header r)
  ∧ (let t := [[Some (py "Description"); Some (py "OH QTY");
                Some (py "Auth Qty")];
               [Some (py "WRENCH, TORQUE"); Some (py "7"); Some (py "5")];
               [Some (py "HAMMER, HAND"); Some (py "9"); Some (py "12 EA")]]
     in
     map qty (extract_items_gcss_standard [t]) = [5; 12]%Z
     ∧ map qty (extract_items_epp_format [t] []) = [5; 12]%Z)
  ∧ (∀ ix (r : row) f,
     ix_auth_qty ix = None ∨ (∃ a, ix_auth_qty ix = Some a ∧ length r ≤ a) →
     gcss_row ix r = Some f ∨ epp_row ix r = Some f →
     f.2 = 1%Z)
  ∧ (∀ ix ix' (r : row),
       ix_lv ix = ix_lv ix' → ix_description ix = ix_description ix' →
       ix_material ix = ix_material ix' → ix_auth_qty ix = ix_auth_qty ix' →
       gcss_row ix r = gcss_row ix' r ∧ epp_row ix r = epp_row ix' r)
  ∧ (∀ ix (r : row) j v,
       ix_oh_qty ix = Some j →
       ix_lv ix ≠ Some j → ix_description ix ≠ Some j →
       ix_material ix ≠ Some j → ix_auth_qty ix ≠ Some j →
       gcss_row ix (<[j:=v]> r) = gcss_row ix r
       ∧ epp_row ix (<[j:=v]> r) = epp_row ix r)
  ∧ (∀ (tables : list table) text,
       (∀ header rows, header :: rows ∈ tables →
          ix_auth_qty (find_column_indices header) = None) →
       Forall (λ it, qty it = 1%Z) (extract_items_gcss_standard tables)
       ∧ Forall (λ it, qty it = 1%Z) (extract_items_epp_format tables text))
  ∧ (∀ header (rows : table) j (value : row → cell) text,
       ix_oh_qty (find_column_indices header) = Some j →
       extract_items_gcss_standard
         [header :: map (λ r, <[j:=value r]> r) rows]
       = extract_items_gcss_standard [header :: rows]
       ∧ extract_items_epp_format
           [header :: map (λ r, <[j:=value r]> r) rows] text
         = extract_items_epp_format [header :: rows] text)
  ∧ ix_oh_qty (find_column_indices
                 [Some (py "Description"); Some (py "OH QTY")]) = Some 1.
Proof.
  split_and!.
  - intros ix r a f _. apply row_quantity_read.
  - intros tables text it _. apply items_quantity_read.
  - cbv zeta. split; reflexivity.
  - intros ix r f. apply rows_default_quantity.
  - apply rows_same_columns.
  - intros ix r j v _. apply rows_insert_ne.
  - apply tables_default_quantity.
  - apply on_hand_values_unread.
  - reflexivity.
Qed.

Lemma quantity_from_auth_qty_only_witness :
  let header := [Some (py "Description"); Some (py "OH QTY")] in
  Forall (λ it, qty it = 1%Z)
    (extract_items_gcss_standard
       [[header; [Some (py "WRENCH, TORQUE"); Some (py "5")]]])
  ∧ gcss_row (find_column_indices header)
      (<[1:=Some (py "9")]> [Some (py "WRENCH, TORQUE"); Some (py "5")])
    = gcss_row (find_column_indices header)
        [Some (py "WRENCH, TORQUE"); Some (py "5")]
  ∧ (∃ f,
       epp_row
         (find_column_indices [Some (py "Description"); Some (py "Auth Qty")])
         [Some (py "WRENCH, TORQUE"); Some (py "qty 3")] = Some f
       ∧ f.2 = extract_quantity (PyStr (py "qty 3"))).
Proof.
  cbv zeta. split_and!.
  - apply (proj1 (proj2 (proj2 (proj2 (proj2 (proj2 (proj2
             quantity_from_auth_qty_only))))))
             _ []).
    intros header rows H. apply list_elem_of_singleton in H.
    injection H as -> _. reflexivity.
  - apply (proj1 (proj2 (proj2 (proj2 (proj2 (proj2
             quantity_from_auth_qty_only)))))
             (find_column_indices
                [Some (py "Description"); Some (py "OH QTY")])
             [Some (py "WRENCH, TORQUE"); Some (py "5")] 1
             (Some (py "9"))); [reflexivity | discriminate..].
  - eexists. split; [reflexivity|].
    apply (proj1 quantity_from_auth_qty_only
             (find_column_indices
                [Some (py "Description"); Some (py "Auth Qty")])
             [Some (py "WRENCH, TORQUE"); Some (py "qty 3")] 1);
      [reflexivity | reflexivity | simpl; lia | right; reflexivity].
Defined.

(** *** Orchestrator *)

Lemma add_pages_count n r : add_pages n (count_page r) = add_pages (S n) r.
Proof. unfold add_pages. by rewrite <- Nat.iter_succ_r. Qed.

Lemma add_pages_fields n r :
  items (add_pages n r) = items r
  ∧ metadata (add_pages n r) = metadata r
  ∧ warnings (add_pages n r) = warnings r
  ∧ errors (add_pages n r) = errors r
  ∧ pages_processed (add_pages n r) = n + pages_processed r
  ∧ format_detected (add_pages n r) = format_detected r.
Proof.
  induction n as [|n (H1 & H2 & H3 & H4 & H5 & H6)]; [done|].
  simpl. split_and!; [done..| |done]. rewrite H5. lia.
Qed.

Lemma page_yield_readable f p tables text :
  extract_tables p = Returns tables → extract_text p = Returns text →
  page_yield f p = page_items f tables (default [] text).
Proof. unfold page_yield. by intros -> ->. Qed.

Lemma extract_pages_spec pages acc r :
  match extract_pages pages acc r with
  | (Returns l, r') =>
      r' = add_pages (length pages) r
      ∧ l = acc ++ concat (map (page_yield (format_detected r)) pages)
      ∧ Forall readable pages
  | (Raises e, r') =>
      ∃ n, r' = add_pages n r ∧ 0 < n ≤ length pages
  end.
Proof.
  revert acc r. induction pages as [|p rest IH]; intros acc r.
  - simpl. unfold Try.ret. split_and!; [done | by rewrite app_nil_r | constructor].
  - cbn [extract_pages]. unfold Try.bind at 1. unfold Try.update at 1.
    unfold Try.bind at 1. unfold Try.call at 1.
    destruct (extract_tables p) as [tables|e] eqn:Et.
    2: { exists 1. split; [done | simpl; lia]. }
    unfold Try.bind at 1. unfold Try.call at 1.
    destruct (extract_text p) as [text|e] eqn:Ex.
    2: { exists 1. split; [done | simpl; lia]. }
    unfold Try.bind at 1. unfold Try.get at 1.
    specialize (IH (acc ++ page_items (format_detected (count_page r)) tables
                             (default [] text)) (count_page r)).
    destruct (extract_pages rest _ (count_page r)) as [[l|e] r'].
    + destruct IH as (-> & -> & Hr). split_and!.
      * apply add_pages_count.
      * simpl. rewrite (page_yield_readable _ _ _ _ Et Ex).
        by rewrite <- app_assoc.
      * constructor; [|done]. split; eauto.
    + destruct IH as (n & -> & Hn). exists (S n). split.
      * apply add_pages_count.
      * simpl. lia.
Qed.

Lemma renumber_lookup l i :
  renumber l !! i = set_line_no (Z.of_nat i + 1) <$> l !! i.
Proof.
  unfold renumber, enumerate. rewrite list_lookup_fmap, lookup_zip_with.
  destruct (decide (i < length l)) as [Hlt|Hge].
  - rewrite lookup_seq_lt by done. simpl.
    by destruct (l !! i).
  - rewrite lookup_seq_ge by lia. simpl.
    rewrite (lookup_ge_None_2 l i) by lia. done.
Qed.

Lemma renumber_length l : length (renumber l) = length l.
Proof.
  unfold renumber, enumerate.
  rewrite length_fmap, length_zip_with, length_seq. lia.
Qed.

Lemma renumber_line_no l :
  map line_no (renumber l) = map (λ i, Z.of_nat i + 1)%Z (seq 0 (length l)).
Proof.
  apply list_eq. intros i. rewrite !list_lookup_fmap, renumber_lookup.
  destruct (decide (i < length l)) as [Hlt|Hge].
  - rewrite lookup_seq_lt by done.
    destruct (lookup_lt_is_Some_2 l i Hlt) as [x ->]. done.
  - rewrite lookup_seq_ge by lia. rewrite (lookup_ge_None_2 l i) by lia. done.
Qed.

Section OrchestratorFacts.

Variable extract_metadata : str → BomMetadata.

Lemma run_cases (pdf : Document) (start_page : Z) :
  let r := extract_items_from_pdf extract_metadata pdf start_page in
  (∃ pages,
     pdf = Returns pages ∧ (Z.of_nat (length pages) <= start_page)%Z
     ∧ r = add_error (start_page_error start_page (length pages)) new_result)
  ∨ ((∀ pages, pdf = Returns pages →
        (start_page < Z.of_nat (length pages))%Z)
     ∧ items r = [] ∧ warnings r = []
     ∧ ∃ e, errors r = [py "Failed to process PDF: " ++ e])
  ∨ (∃ pages,
       pdf = Returns pages
       ∧ (start_page < Z.of_nat (length pages))%Z
       ∧ errors r = []
       ∧ Forall readable (py_slice_from pages start_page)
       ∧ pages_processed r = length (py_slice_from pages start_page)
       ∧ items r
         = renumber (concat (map (page_yield (format_detected r))
                               (py_slice_from pages start_page)))
       ∧ warnings r
         = match items r with [] => [no_items_warning] | _ :: _ => [] end).
Proof.
  intros r.
  assert (r = extract_items_from_pdf extract_metadata pdf start_page) as Hr
    by reflexivity.
  clearbody r. revert Hr.
  unfold extract_items_from_pdf, Try.bind at 1, Try.call at 1.
  destruct pdf as [pages|e];
    [|intros ->; right; left; split_and!; [done..|by eexists]].
  unfold extract_body.
  destruct (Z.of_nat (length pages) <=? start_page)%Z eqn:Hle.
  { intros ->. left. exists pages. apply Z.leb_le in Hle. done. }
  apply Z.leb_gt in Hle.
  assert (∀ pages0 : list Page, Returns pages = Returns pages0 →
            (start_page < Z.of_nat (length pages0))%Z) as Hlt
    by (by intros ? [= <-]).
  unfold Try.bind at 1, Try.call at 1.
  destruct (py_index pages start_page) as [first_page|e];
    [|intros ->; right; left; split_and!; [done..|by eexists]].
  unfold Try.bind at 1, Try.call at 1.
  destruct (extract_text first_page) as [text|e];
    [|intros ->; right; left; split_and!; [done..|by eexists]].
  unfold Try.bind at 1, Try.call at 1.
  destruct (extract_tables first_page) as [tables|e];
    [|intros ->; right; left; split_and!; [done..|by eexists]].
  unfold Try.bind at 1, Try.update at 1.
  unfold Try.bind at 1, Try.update at 1.
  unfold Try.bind at 1, Try.update at 1.
  unfold Try.bind at 1.
  match goal with
  | |- context [extract_pages ?ps [] ?r0] =>
      pose proof (extract_pages_spec ps [] r0) as Hspec;
      destruct (extract_pages ps [] r0) as [[l|e] r'];
      set (base := r0) in *
  end.
  - destruct Hspec as (Hr' & Hl & Hread). intros Hr. right. right.
    exists pages. rewrite app_nil_l in Hl.
    assert (r = match renumber l with
                | [] => add_warning no_items_warning
                          (set_items (renumber l) r')
                | _ :: _ => set_items (renumber l) r'
                end) as Hr2.
    { rewrite Hr. unfold Try.bind, Try.update, Try.get, Try.ret.
      cbn [items set_items]. by destruct (renumber l). }
    clear Hr.
    destruct (add_pages_fields (length (py_slice_from pages start_page)) base)
      as (_ & _ & Hw & He & Hp & Hf).
    rewrite <- Hr' in Hw, He, Hp, Hf.
    assert (format_detected r = format_detected base) as Hfr.
    { rewrite Hr2. by destruct (renumber l). }
    rewrite Hfr, <- Hl.
    destruct (renumber l) as [|it l'] eqn:El; rewrite Hr2;
      cbn [items errors warnings pages_processed format_detected
           set_items add_warning];
      rewrite ?He, ?Hw, ?Hp; split_and!; try done; simpl; lia.
  - destruct Hspec as (n & -> & Hn). intros ->. right. left.
    destruct (add_pages_fields n base) as (Hi & _ & Hw & He & _ & _).
    cbn [items errors warnings add_error]. rewrite Hi, Hw, He. simpl.
    split_and!; [done..|by eexists].
Qed.

(** C4. After the orchestrator has renumbered them, the line numbers of the
    items it returns are 1, 2, ..., N in the order of the list, so strictly
    increasing; and when the run reports no error the list is the items of
    the pages from the start page on, page after page and row after row,
    with nothing but the line number changed, however many pages there
    are. *)
Theorem line_numbers_contiguous :
  (∀ pdf start_page,
     let r := extract_items_from_pdf extract_metadata pdf start_page in
     map line_no (items r)
     = map (λ i, Z.of_nat i + 1)%Z (seq 0 (length (items r))))
  ∧ (∀ pdf start_page i j a b,
       let r := extract_items_from_pdf extract_metadata pdf start_page in
       i < j → items r !! i = Some a → items r !! j = Some b →
       (line_no a < line_no b)%Z)
  ∧ (∀ pages start_page,
       let r := extract_items_from_pdf extract_metadata (Returns pages)
                  start_page in
       let found := concat (map (page_yield (format_detected r))
                              (py_slice_from pages start_page)) in
       errors r = [] →
       length (items r) = length found
       ∧ ∀ i, items r !! i = set_line_no (Z.of_nat i + 1) <$> found !! i).
Proof.
  assert (∀ pdf start_page,
            ∃ l, items (extract_items_from_pdf extract_metadata pdf start_page)
                 = renumber l) as Hren.
  { intros pdf sp.
    destruct (run_cases pdf sp)
      as [(pages & _ & _ & ->) | [(_ & -> & _) | (pages & _ & _ & _ & _ & _ & -> & _)]];
      [by exists [] | by exists [] | by eexists]. }
  split_and!.
  - intros pdf sp r. destruct (Hren pdf sp) as [l Hl]. subst r.
    rewrite Hl, renumber_length. apply renumber_line_no.
  - intros pdf sp i j a b r Hij. destruct (Hren pdf sp) as [l Hl]. subst r.
    rewrite Hl, !renumber_lookup. intros Ha Hb.
    apply fmap_Some in Ha as (a' & _ & ->).
    apply fmap_Some in Hb as (b' & _ & ->). simpl. lia.
  - intros pages sp r found Herr.
    destruct (run_cases (Returns pages) sp)
      as [(ps & _ & _ & Hr) | [(_ & _ & _ & e & He) | (ps & [= <-] & _ & _ & _ & _ & Hi & _)]].
    + fold r in Hr. rewrite Hr in Herr. done.
    + fold r in He. rewrite He in Herr. done.
    + fold r in Hi. fold found in Hi. rewrite Hi. split.
      * apply renumber_length.
      * apply renumber_lookup.
Qed.


Lemma page_items_unknown tables text :
  page_items UNKNOWN tables text
  = keep_non_empty (extract_items_gcss_standard tables)
      (extract_items_epp_format tables text).
Proof.
  unfold page_items, keep_non_empty.
  destruct (extract_items_gcss_standard tables); [|done].
  by destruct (extract_items_epp_format tables text).
Qed.

(** C9. When the detected format is [UNKNOWN], the items of each page are
    those of the standard extractor if it finds any, else those of the
    equipment-record extractor if it finds any, else the empty list of the
    standard extractor; a run without error returns these, page after
    page, renumbered. *)
Theorem unknown_format_fallback :
  (∀ tables text,
     page_items UNKNOWN tables text
     = keep_non_empty (extract_items_gcss_standard tables)
         (extract_items_epp_format tables text))
  ∧ (∀ p tables text,
       extract_tables p = Returns tables → extract_text p = Returns text →
       page_yield UNKNOWN p
       = keep_non_empty (extract_items_gcss_standard tables)
           (extract_items_epp_format tables (default [] text)))
  ∧ (∀ pages start_page,
       let r := extract_items_from_pdf extract_metadata (Returns pages)
                  start_page in
       errors r = [] → format_detected r = UNKNOWN →
       Forall readable (py_slice_from pages start_page)
       ∧ items r
         = renumber (concat (map (page_yield UNKNOWN)
                               (py_slice_from pages start_page)))).
Proof.
  split_and!.
  - apply page_items_unknown.
  - intros p tables text Ht Hx.
    rewrite (page_yield_readable _ _ _ _ Ht Hx). apply page_items_unknown.
  - intros pages sp r Herr Hf.
    destruct (run_cases (Returns pages) sp)
      as [(ps & _ & _ & Hr) | [(_ & _ & _ & e & He) | (ps & [= <-] & _ & _ & Hread & _ & Hi & _)]].
    + fold r in Hr. by rewrite Hr in Herr.
    + fold r in He. by rewrite He in Herr.
    + fold r in Hi. rewrite Hf in Hi. done.
Qed.

End OrchestratorFacts.

Lemma line_numbers_contiguous_witness :
  let r := extract_items_from_pdf no_metadata
             (Returns [sample_listing_page; sample_listing_page]) 0%Z in
  map line_no (items r) = [1; 2; 3; 4]%Z
  ∧ ∀ i, items r !! i
         = set_line_no (Z.of_nat i + 1)
             <$> concat (map (page_yield (format_detected r))
                           (py_slice_from
                              [sample_listing_page; sample_listing_page] 0%Z))
                 !! i.
Proof.
  cbv zeta. split.
  - apply (proj1 (line_numbers_contiguous no_metadata)).
  - apply (proj2 (proj2 (line_numbers_contiguous no_metadata))
             [sample_listing_page; sample_listing_page] 0%Z).
    reflexivity.
Defined.


Lemma unknown_format_fallback_witness :
  let r := extract_items_from_pdf no_metadata (Returns [sample_plain_page]) 0%Z in
  format_detected r = UNKNOWN
  ∧ items r
    = renumber (concat (map (page_yield UNKNOWN)
                          (py_slice_from [sample_plain_page] 0%Z)))
  ∧ map description (items r) = [py "BOLT, HEX"].
Proof.
  cbv zeta. split_and!.
  - reflexivity.
  - apply (proj2 (proj2 (unknown_format_fallback no_metadata))
             [sample_plain_page] 0%Z); reflexivity.
  - reflexivity.
Defined.

(** *** Layout *)

Lemma add_fields_first defs first rest acro :
  fold_left add_field defs {| pages := first :: rest; acro_fields := Some acro |}
  = {| pages := with_fields (map make_field defs) first :: rest;
       acro_fields := Some (acro ++ map make_field defs) |}.
Proof.
  revert first acro. induction defs as [|fd defs IH]; intros first acro.
  - simpl. unfold with_fields. rewrite !app_nil_r. by destruct first.
  - cbn [fold_left]. unfold add_field at 2. cbn [pages acro_fields alter].
    change (list_alter (add_annot (make_field fd)) 0 (first :: rest))
      with (add_annot (make_field fd) first :: rest).
    cbn [default from_option id]. rewrite IH. unfold with_fields, add_annot.
    cbn [overlay annots map]. by rewrite <- !app_assoc.
Qed.

Lemma ceil_div_bounds n :
  0 < n →
  0 < ceil_div n ROWS_PER_PAGE
  ∧ ROWS_PER_PAGE * (ceil_div n ROWS_PER_PAGE - 1) < n
  ∧ n ≤ ROWS_PER_PAGE * ceil_div n ROWS_PER_PAGE.
Proof.
  unfold ceil_div, ROWS_PER_PAGE. intros Hn.
  pose proof (Nat.div_mod (n + 18 - 1) 18 ltac:(lia)) as Hd.
  pose proof (Nat.mod_upper_bound (n + 18 - 1) 18 ltac:(lia)) as Hm.
  lia.
Qed.


Lemma slice_lookup {A} (l : list A) a b k :
  a + k < b → slice l a b !! k = l !! (a + k).
Proof.
  intros H. unfold slice. rewrite lookup_take_lt by lia. by rewrite lookup_drop.
Qed.


Lemma generated_pages (all_items : list BomItem) header :
  all_items ≠ [] →
  ∃ first rest,
    (generate_dd1750_from_items all_items header).1
    = {| pages := with_fields (map make_field form_fields) first :: rest;
         acro_fields := Some (map make_field form_fields) |}
    ∧ (generate_dd1750_from_items all_items header).2 = length all_items
    ∧ first :: rest
      = map (make_page all_items
               (ceil_div (length all_items) ROWS_PER_PAGE) header)
          (seq 0 (ceil_div (length all_items) ROWS_PER_PAGE)).
Proof.
  intros Hne. unfold generate_dd1750_from_items.
  destruct all_items as [|it l] eqn:E; [done|]. rewrite <- E.
  assert (0 < length all_items) as Hlen by (rewrite E; simpl; lia).
  destruct (ceil_div_bounds _ Hlen) as (Hpos & _).
  destruct (ceil_div (length all_items) ROWS_PER_PAGE) as [|k] eqn:Ek; [lia|].
  cbn [seq map fst snd]. eexists _, _. split_and!; [|done|done].
  by rewrite (add_fields_first form_fields _ _ []).
Qed.

Lemma omap_fmap_id {A B} (f : A → option B) (l : list A) :
  omap f l = omap id (map f l).
Proof.
  induction l as [|x l IH]; csimpl; [done|]. rewrite IH. by destruct (f x).
Qed.

Lemma omap_all_some {A B} (f : A → option B) (g : A → B) (l : list A) :
  (∀ x, f x = Some (g x)) → omap f l = map g l.
Proof.
  intros H. induction l as [|x l IH]; csimpl; [done|].
  rewrite H, IH. done.
Qed.

Lemma generated_overlays (all_items : list BomItem) header :
  all_items ≠ [] →
  let total := ceil_div (length all_items) ROWS_PER_PAGE in
  map overlay (pages (generate_dd1750_from_items all_items header).1)
  = map (λ p, overlay (make_page all_items total header p)) (seq 0 total).
Proof.
  intros Hne total.
  destruct (generated_pages all_items header Hne) as (first & rest & -> & _ & H).
  fold total in H. rewrite <- (map_map (make_page all_items total header)).
  rewrite <- H. reflexivity.
Qed.






(** C1, counterexample. One item generated with a header whose six values
    are all filled: the seven fields of the first page are there, and each
    holds the empty string, not the value of the header. *)
Lemma header_values_not_written :
  let h := {| packed_by := py "SGT DOE"; num_boxes := py "2";
              requisition_no := py "W81XYZ"; order_no := py "0042";
              end_item := py "GENERATOR"; date := py "2024-05-01" |} in
  let doc := (generate_dd1750_from_items
                [new_item 1 (py "WRENCH, TORQUE") [] 1 (py "EA")] (Some h)).1 in
  map (λ f, (field_name f, field_value f)) (concat (map annots (pages doc)))
  = [ (py "packed_by", []); (py "no_boxes", []); (py "req_no", []);
      (py "order_no", []); (py "end_item", []); (py "date", []);
      (py "typed_name", []) ]
  ∧ map (λ f, field_value f) (concat (map annots (pages doc)))
    ≠ [packed_by h; num_boxes h; requisition_no h; order_no h; end_item h;
       date h; []].
Proof. cbv zeta. split; [vm_compute; reflexivity | vm_compute; discriminate]. Qed.

(** C1, amended. Whenever at least one item is given, the seven fields
    (packed-by, box count, requisition number, order number, end-item,
    date, signer name), each at its fixed rectangle, are attached to the
    first page and to no other, and are the fields of the form; each has an
    empty value and an empty default value whether a HeaderInfo is supplied
    or not, the document written being the same with and without it; each
    has the print flag set and the read-only flag clear. *)
Theorem header_fields_first_page_blank :
  ∀ (all_items : list BomItem) (header : option HeaderInfo),
    all_items ≠ [] →
    let doc := (generate_dd1750_from_items all_items header).1 in
    (∃ first rest,
       pages doc = first :: rest
       ∧ annots first = map make_field form_fields
       ∧ Forall (λ p, annots p = []) rest
       ∧ acro_fields doc = Some (annots first))
    ∧ map (λ fd, (fd.1.1, fd.1.2)) form_fields
      = [ (py "packed_by", (92, 732, 230, 746)%Z);
          (py "no_boxes", (282, 732, 332, 746)%Z);
          (py "req_no", (405, 732, 566, 746)%Z);
          (py "order_no", (405, 712, 566, 726)%Z);
          (py "end_item", (92, 689, 370, 703)%Z);
          (py "date", (447, 689, 566, 703)%Z);
          (py "typed_name", (92, 46, 290, 60)%Z) ]
    ∧ (∀ fd, field_name (make_field fd) = fd.1.1
             ∧ field_rect (make_field fd) = fd.1.2
             ∧ field_value (make_field fd) = []
             ∧ default_value (make_field fd) = []
             ∧ Z.testbit (annotation_flags (make_field fd)) 2 = true
             ∧ Z.testbit (field_flags (make_field fd)) 0 = false)
    ∧ generate_dd1750_from_items all_items header
      = generate_dd1750_from_items all_items None.
Proof.
  intros all_items header Hne doc. split_and!.
  - destruct (generated_pages all_items header Hne)
      as (first & rest & Hdoc & _ & Hpages).
    subst doc. rewrite Hdoc. eexists _, _. split; [done|].
    assert (annots first = [] ∧ Forall (λ p, annots p = []) rest) as [Hf Hr].
    { assert (Forall (λ p, annots p = []) (first :: rest)) as H.
      { rewrite Hpages. apply Forall_fmap, Forall_forall. done. }
      by apply Forall_cons in H. }
    cbn [annots with_fields pages acro_fields]. rewrite Hf. done.
  - reflexivity.
  - by intros [[name rect] tip].
  - unfold generate_dd1750_from_items. by destruct all_items.
Qed.

Lemma header_fields_first_page_blank_witness :
  let h := {| packed_by := py "SGT DOE"; num_boxes := py "2";
              requisition_no := []; order_no := []; end_item := [];
              date := [] |} in
  generate_dd1750_from_items
    [new_item 1 (py "WRENCH, TORQUE") [] 1 (py "EA")] (Some h)
  = generate_dd1750_from_items
      [new_item 1 (py "WRENCH, TORQUE") [] 1 (py "EA")] None.
Proof.
  cbv zeta.
  apply (header_fields_first_page_blank
           [new_item 1 (py "WRENCH, TORQUE") [] 1 (py "EA")]).
  discriminate.
Defined.

(** * Further properties of the code *)

(** ** Metadata extractor *)

Lemma literal_spec p s r :
  Metadata.literal p s = Some r ↔ ∃ h, s = h ++ r ∧ upper h = p.
Proof.
  revert s. induction p as [|x p IH]; intros s; simpl.
  - split.
    + intros [= ->]. by exists [].
    + intros (h & -> & Hh). by destruct h.
  - destruct s as [|y s].
    + split; [done|]. intros ([|? ?] & ? & ?); done.
    + destruct (Ascii.eqb_spec x (upper_char y)) as [->|Hne].
      * rewrite IH. split.
        -- intros (h & -> & <-). by exists (y :: h).
        -- intros ([|z h] & Hs & Hh); [done|]. simpl in Hs, Hh.
           injection Hs as -> ->. injection Hh as Hh. by exists h.
      * split; [done|]. intros ([|z h] & Hs & Hh); [done|]. simpl in Hs, Hh.
        injection Hs as -> ->. injection Hh as Hx _. congruence.
Qed.

Lemma literal_in_upper p s r :
  Metadata.literal p s = Some r → starts_with p (upper s) = true.
Proof.
  intros (h & -> & <-)%literal_spec. apply starts_with_spec.
  exists (upper r). apply upper_app.
Qed.

Lemma search_found m s g :
  Metadata.search m s = Some g →
  ∃ pre post, s = pre ++ post ∧ m post = Some g.
Proof.
  induction s as [|c s IH]; simpl.
  - destruct (m []) eqn:E; [|done]. intros [= <-]. by exists [], [].
  - destruct (m (c :: s)) eqn:E.
    + intros [= <-]. by exists [], (c :: s).
    + intros H. destruct (IH H) as (pre & post & -> & Hm).
      by exists (c :: pre), post.
Qed.

Lemma search_anchor_absent anchor (k : str → option str) s :
  str_in anchor (upper s) = false →
  Metadata.search (λ t, Metadata.literal anchor t ≫= k) s = None.
Proof.
  intros H.
  destruct (Metadata.search _ s) as [g|] eqn:E; [|done].
  apply search_found in E as (pre & post & -> & Hm).
  apply bind_Some in Hm as (r & Hr & _).
  apply literal_in_upper, starts_with_spec in Hr as [b Hb].
  assert (str_in anchor (upper (pre ++ post)) = true) as Hin; [|congruence].
  apply str_in_spec. exists (upper pre), b. by rewrite upper_app, Hb.
Qed.

Lemma take_while_Forall p s : Forall (λ c, p c = true) (take_while p s).
Proof.
  induction s as [|c s IH]; simpl; [constructor|].
  destruct (p c) eqn:E; by constructor.
Qed.

Lemma run_of_Forall cls s g :
  Metadata.run_of cls s = Some g → g ≠ [] ∧ Forall (λ c, cls c = true) g.
Proof.
  unfold Metadata.run_of. pose proof (take_while_Forall cls s) as H.
  destruct (take_while cls s) as [|c t]; [done|]. by intros [= <-].
Qed.

Lemma match_field_Forall anchor cls s g :
  Metadata.match_field anchor cls s = Some g →
  g ≠ [] ∧ Forall (λ c, cls c = true) g.
Proof.
  unfold Metadata.match_field. intros (r & _ & H)%bind_Some.
  by eapply run_of_Forall.
Qed.

Lemma drop_while_Forall (P : ascii → Prop) p s :
  Forall P s → Forall P (drop_while p s).
Proof.
  intros H. destruct (drop_while_split p s) as (a & Ha & _).
  rewrite Ha in H. by apply Forall_app in H as [_ ?].
Qed.

Lemma strip_Forall (P : ascii → Prop) s : Forall P s → Forall P (strip s).
Proof.
  intros H. unfold strip, rstrip, lstrip.
  apply Forall_rev, drop_while_Forall, Forall_rev. by apply drop_while_Forall.
Qed.

Lemma drop_while_head_false p s c t :
  drop_while p s = c :: t → p c = false.
Proof.
  induction s as [|x s IH]; simpl; [done|].
  destruct (p x) eqn:E; [done|]. by intros [= <- _].
Qed.

Lemma strip_head s c t : strip s = c :: t → is_space c = false.
Proof.
  unfold strip. intros H.
  destruct (rstrip_split (lstrip s)) as (ws & Hs & Hws).
  rewrite H in Hs. simpl in Hs.
  by apply (drop_while_head_false is_space s c (t ++ ws)).
Qed.

Lemma strip_last s u c : strip s = u ++ [c] → is_space c = false.
Proof.
  unfold strip, rstrip. intros H.
  apply (f_equal (@rev ascii)) in H.
  rewrite rev_involutive, rev_app_distr in H. simpl in H.
  by apply drop_while_head_false in H.
Qed.

(** X1. For every page text of ASCII characters, the metadata block has: an
    end-item stock number that is empty or exactly nine digits; a line-item number, a
    serial number and a unit code made of letters and digits only; an FE
    value made of digits only; a description of at most 50 characters,
    all letters, digits, white space, slashes or hyphens, that does not
    start with white space; and publication number and date left empty. *)
Theorem metadata_fields_shape (page_text : str) :
  ascii_text page_text = true →
  let m := Metadata.extract_metadata page_text in
  (end_item_niin m = [] ∨ digits 9 (end_item_niin m))
  ∧ Forall (λ c, Metadata.is_alnum c = true) (lin m)
  ∧ Forall (λ c, Metadata.is_alnum c = true) (serial_equip_no m)
  ∧ Forall (λ c, Metadata.is_alnum c = true) (uic m)
  ∧ Forall (λ c, is_digit c = true) (fe m)
  ∧ length (end_item_description m) ≤ 50
  ∧ Forall (λ c, Metadata.is_desc_char c = true) (end_item_description m)
  ∧ match end_item_description m with
    | c :: _ => is_space c = false
    | [] => True
    end
  ∧ pub_num m = [] ∧ pub_date m = [] ∧ bom_format m = UNKNOWN.
Proof.
  assert (∀ anchor cls,
            Forall (λ c, cls c = true)
              (default [] (Metadata.search (Metadata.match_field anchor cls)
                             page_text))) as Hfield.
  { intros anchor cls.
    destruct (Metadata.search _ page_text) as [g|] eqn:E; [|constructor].
    apply search_found in E as (pre & post & _ & Hm).
    by apply match_field_Forall in Hm as [_ ?]. }
  intros _. cbv zeta. cbn [end_item_niin lin serial_equip_no uic fe pub_num pub_date
                 bom_format end_item_description Metadata.extract_metadata].
  split_and!; try done.
  - destruct (Metadata.search Metadata.match_end_item_niin page_text)
      as [g|] eqn:E; [right|by left].
    apply search_found in E as (pre & post & _ & Hm).
    unfold Metadata.match_end_item_niin in Hm.
    apply bind_Some in Hm as (r1 & _ & Hm).
    apply bind_Some in Hm as (r2 & _ & Hm).
    apply bind_Some in Hm as (r3 & _ & Hm).
    apply bind_Some in Hm as ([d r4] & Hd & [= <-]).
    by apply take_digits_spec in Hd as [_ ?].
  - destruct (Metadata.search Metadata.match_serial page_text)
      as [g|] eqn:E; [|constructor].
    apply search_found in E as (pre & post & _ & Hm).
    unfold Metadata.match_serial in Hm.
    apply bind_Some in Hm as (r1 & _ & Hm).
    by apply match_field_Forall in Hm as [_ ?].
  - destruct (Metadata.search Metadata.match_desc page_text); simpl; [|lia].
    rewrite length_take. lia.
  - destruct (Metadata.search Metadata.match_desc page_text) as [g|] eqn:E;
      [|constructor].
    apply Forall_take, strip_Forall.
    apply search_found in E as (pre & post & _ & Hm).
    unfold Metadata.match_desc in Hm.
    apply bind_Some in Hm as (r & _ & Hm).
    destruct (Metadata.run_of Metadata.is_desc_char _) as [g'|] eqn:Er.
    + injection Hm as <-. by apply run_of_Forall in Er as [_ ?].
    + destruct (last (filter _ _)) as [w|] eqn:El; [|done].
      injection Hm as <-. apply last_Some_elem_of in El as Hw.
      apply list_elem_of_filter in Hw as [Hw _].
      constructor; [|constructor]. unfold Metadata.is_desc_char.
      rewrite Hw. by rewrite orb_true_r.
  - destruct (Metadata.search Metadata.match_desc page_text) as [g|];
      [|done].
    destruct (strip g) as [|x s] eqn:Es; [done|].
    simpl. by eapply strip_head.
Qed.

Lemma metadata_fields_shape_witness :
  let m := Metadata.extract_metadata
             (py "LIN: T61494  DESC: TRUCK, CARGO  UIC: WAB1C0") in
  Forall (λ c, Metadata.is_alnum c = true) (lin m)
  ∧ length (end_item_description m) ≤ 50
  ∧ pub_num m = [].
Proof.
  cbv zeta.
  destruct (metadata_fields_shape
              (py "LIN: T61494  DESC: TRUCK, CARGO  UIC: WAB1C0") eq_refl)
    as (_ & Hlin & _ & _ & _ & Hlen & _ & _ & Hpub & _).
  split_and!; [exact Hlin | exact Hlen | exact Hpub].
Defined.

(** X2. A field whose anchor word occurs nowhere in the page text, in any
    case, stays empty; a page without any of the anchors gives the default
    metadata. *)
Theorem metadata_anchor_absent (page_text : str) :
  let m := Metadata.extract_metadata page_text in
  (str_in (py "END") (upper page_text) = false → end_item_niin m = [])
  ∧ (str_in (py "LIN") (upper page_text) = false → lin m = [])
  ∧ (str_in (py "DESC") (upper page_text) = false →
     end_item_description m = [])
  ∧ (str_in (py "SER/EQUIP") (upper page_text) = false →
     serial_equip_no m = [])
  ∧ (str_in (py "UIC") (upper page_text) = false → uic m = [])
  ∧ (str_in (py "FE") (upper page_text) = false → fe m = [])
  ∧ (Forall (λ a, str_in a (upper page_text) = false)
       [py "END"; py "LIN"; py "DESC"; py "SER/EQUIP"; py "UIC"; py "FE"] →
     m = default_metadata).
Proof.
  cbv zeta.
  assert (str_in (py "END") (upper page_text) = false →
          Metadata.search Metadata.match_end_item_niin page_text = None) as H1
    by apply search_anchor_absent.
  assert (str_in (py "DESC") (upper page_text) = false →
          Metadata.search Metadata.match_desc page_text = None) as H3
    by apply search_anchor_absent.
  assert (str_in (py "SER/EQUIP") (upper page_text) = false →
          Metadata.search Metadata.match_serial page_text = None) as H4
    by apply search_anchor_absent.
  assert (∀ anchor cls, str_in anchor (upper page_text) = false →
          Metadata.search (Metadata.match_field anchor cls) page_text = None)
    as H2 by (intros; by apply search_anchor_absent).
  unfold Metadata.extract_metadata.
  cbn [end_item_niin lin serial_equip_no uic fe end_item_description].
  split_and!.
  - intros H. by rewrite H1.
  - intros H. by rewrite H2.
  - intros H. by rewrite H3.
  - intros H. by rewrite H4.
  - intros H. by rewrite H2.
  - intros H. by rewrite H2.
  - intros H. repeat (apply Forall_cons in H as [? H]).
    rewrite H1, H3, H4, !H2 by done. reflexivity.
Qed.

Lemma metadata_anchor_absent_witness :
  Metadata.extract_metadata (py "Parts on hand: 12")
  = default_metadata.
Proof.
  apply (proj2 (proj2 (proj2 (proj2 (proj2 (proj2
           (metadata_anchor_absent (py "Parts on hand: 12")))))))).
  repeat constructor.
Defined.

Lemma search_skip m pre s :
  (∀ a b, pre = a ++ b → b ≠ [] → m (b ++ s) = None) →
  Metadata.search m (pre ++ s) = Metadata.search m s.
Proof.
  induction pre as [|c pre IH]; intros H; [done|].
  pose proof (H [] (c :: pre) eq_refl ltac:(done)) as H0.
  simpl in H0 |- *. rewrite H0.
  apply IH. intros a b -> Hb. by apply (H (c :: a) b).
Qed.

Lemma literal_first_char x p c t :
  upper_char c ≠ x → Metadata.literal (x :: p) (c :: t) = None.
Proof.
  intros H. simpl. destruct (Ascii.eqb_spec x (upper_char c)); congruence.
Qed.

Lemma drop_while_app_all p a b :
  Forall (λ c, p c = true) a → drop_while p (a ++ b) = drop_while p b.
Proof. induction 1 as [|c a Hc _ IH]; simpl; [done|]. by rewrite Hc. Qed.

Lemma take_while_run p v post :
  Forall (λ c, p c = true) v →
  (∀ c t, post = c :: t → p c = false) →
  take_while p (v ++ post) = v.
Proof.
  intros Hv Hpost. induction Hv as [|c v Hc _ IH]; simpl.
  - destruct post as [|c t]; [done|]. simpl. by rewrite (Hpost c t).
  - by rewrite Hc, IH.
Qed.

Lemma search_field_found x anchor cls pre a sep v post :
  (∀ c, cls c = true → Metadata.is_colon_space c = false) →
  Forall (λ c, upper_char c ≠ x) pre →
  upper a = x :: anchor →
  Forall (λ c, Metadata.is_colon_space c = true) sep →
  v ≠ [] → Forall (λ c, cls c = true) v →
  (∀ c t, post = c :: t → cls c = false) →
  Metadata.search (Metadata.match_field (x :: anchor) cls)
    (pre ++ a ++ sep ++ v ++ post) = Some v.
Proof.
  intros Hcls Hpre Ha Hsep Hne Hv Hpost.
  rewrite search_skip.
  - assert (Metadata.match_field (x :: anchor) cls (a ++ sep ++ v ++ post)
            = Some v) as Hm.
    { unfold Metadata.match_field. apply bind_Some.
      exists (sep ++ v ++ post). split.
      - apply literal_spec. by exists a.
      - rewrite drop_while_app_all by done.
        destruct v as [|c v]; [done|].
        apply Forall_cons in Hv as Hv'. destruct Hv' as [Hc _].
        change ((c :: v) ++ post) with (c :: v ++ post).
        rewrite drop_while_head by by apply Hcls.
        unfold Metadata.run_of.
        change (c :: v ++ post) with ((c :: v) ++ post).
        by rewrite take_while_run. }
    destruct a as [|y a]; [done|]. simpl. simpl in Hm. by rewrite Hm.
  - intros u b -> Hb. destruct b as [|c b]; [done|].
    apply Forall_app in Hpre as [_ Hpre].
    apply Forall_cons in Hpre as [Hc _].
    unfold Metadata.match_field.
    change ((c :: b) ++ a ++ sep ++ v ++ post)
      with (c :: b ++ a ++ sep ++ v ++ post).
    by rewrite literal_first_char.
Qed.

(** X3. An anchor [LIN], [UIC] or [FE], in any case, followed by colons
    and white space and then by a value (letters and digits, digits for
    [FE]) that ends at the next other character, gives that value, provided
    the first letter of the anchor does not occur earlier in the text. *)
Theorem metadata_value_found (pre a sep v post : str) :
  Forall (λ c, Metadata.is_colon_space c = true) sep →
  v ≠ [] →
  (upper a = py "LIN" → Forall (λ c, upper_char c ≠ "L"%char) pre →
   Forall (λ c, Metadata.is_alnum c = true) v →
   (∀ c t, post = c :: t → Metadata.is_alnum c = false) →
   lin (Metadata.extract_metadata (pre ++ a ++ sep ++ v ++ post)) = v)
  ∧ (upper a = py "UIC" → Forall (λ c, upper_char c ≠ "U"%char) pre →
     Forall (λ c, Metadata.is_alnum c = true) v →
     (∀ c t, post = c :: t → Metadata.is_alnum c = false) →
     uic (Metadata.extract_metadata (pre ++ a ++ sep ++ v ++ post)) = v)
  ∧ (upper a = py "FE" → Forall (λ c, upper_char c ≠ "F"%char) pre →
     Forall (λ c, is_digit c = true) v →
     (∀ c t, post = c :: t → is_digit c = false) →
     fe (Metadata.extract_metadata (pre ++ a ++ sep ++ v ++ post)) = v).
Proof.
  intros Hsep Hne.
  assert (∀ c, Metadata.is_alnum c = true →
               Metadata.is_colon_space c = false) as Hal.
  { intros c. destruct c as [[] [] [] [] [] [] [] []]; vm_compute; congruence. }
  assert (∀ c, is_digit c = true → Metadata.is_colon_space c = false) as Hdg.
  { intros c. destruct c as [[] [] [] [] [] [] [] []]; vm_compute; congruence. }
  unfold Metadata.extract_metadata. cbn [lin uic fe].
  split_and!; intros Ha Hpre Hv Hpost.
  - by rewrite (search_field_found "L" (py "IN") Metadata.is_alnum).
  - by rewrite (search_field_found "U" (py "IC") Metadata.is_alnum).
  - by rewrite (search_field_found "F" (py "E") is_digit).
Qed.

Lemma metadata_value_found_witness :
  uic (Metadata.extract_metadata
         (py "Hand receipt 7" ++ nl :: py "uic: W81XYZ / 2024"))
  = py "W81XYZ".
Proof.
  apply (proj1 (proj2 (metadata_value_found
                         (py "Hand receipt 7" ++ [nl]) (py "uic") (py ": ")
                         (py "W81XYZ") (py " / 2024")
                         ltac:(repeat constructor) ltac:(discriminate)))).
  - reflexivity.
  - repeat constructor; discriminate.
  - repeat constructor.
  - intros c t [= <- _]. reflexivity.
Defined.

(** ** Column mapper *)

Lemma column_step_index r ix i c :
  get_index r (column_step ix (i, c))
  = if has_role r c then Some i else get_index r ix.
Proof.
  unfold column_step, has_role. destruct (truthy c); simpl; [|done].
  destruct (role_of (default [] c)) as [r'|] eqn:E.
  - rewrite get_set_index. destruct (decide (r = r')) as [->|Hne].
    + by rewrite bool_decide_eq_true_2.
    + rewrite bool_decide_eq_false_2; [done|]. congruence.
  - by rewrite bool_decide_eq_false_2.
Qed.

Lemma columns_fold r l n ix :
  get_index r (fold_left column_step (zip (seq n (length l)) l) ix)
  = match last_role r n l with
    | Some i => Some i
    | None => get_index r ix
    end.
Proof.
  revert n ix. induction l as [|c l IH]; intros n ix; [done|].
  cbn [length seq zip zip_with fold_left last_role].
  change (zip_with pair (seq (S n) (length l)) l)
    with (zip (seq (S n) (length l)) l).
  rewrite IH. destruct (last_role r (S n) l); [done|].
  rewrite column_step_index. by destruct (has_role r c).
Qed.

Lemma last_role_spec r n l i :
  last_role r n l = Some i ↔
  n ≤ i
  ∧ (∃ c, l !! (i - n) = Some c ∧ has_role r c = true)
  ∧ (∀ k c, i - n < k → l !! k = Some c → has_role r c = false).
Proof.
  revert n i. induction l as [|c l IH]; intros n i; simpl.
  - split; [done|]. by intros (_ & (c & ? & _) & _).
  - destruct (last_role r (S n) l) as [j|] eqn:E.
    + apply IH in E as (Hle & (d & Hd & Hr) & Hlast). split.
      * intros [= <-]. split_and!; [lia| |].
        -- exists d. split; [|done].
           replace (j - n) with (S (j - S n)) by lia. done.
        -- intros k x Hk Hx. destruct k as [|k]; [lia|]. simpl in Hx.
           apply (Hlast k); [lia | done].
      * intros (Hn & (x & Hx & Hrx) & Hl).
        destruct (decide (i = j)) as [->|Hne]; [done|].
        exfalso. destruct (decide (i < j)).
        -- specialize (Hl (j - n) d ltac:(lia)).
           replace (j - n) with (S (j - S n)) in Hl by lia.
           rewrite (Hl Hd) in Hr. done.
        -- destruct (i - n) as [|k] eqn:Ek; [lia|]. simpl in Hx.
           specialize (Hlast k x ltac:(lia) Hx). congruence.
    + assert (∀ k x, l !! k = Some x → has_role r x = false) as Hnone.
      { intros k x Hx. destruct (has_role r x) eqn:Hr; [|done].
        assert (∃ j, last_role r (S n) l = Some j) as [j Hj];
          [|congruence].
        clear E IH. revert n k Hx.
        induction l as [|y l IHl]; intros n k Hx; [done|]. simpl.
        destruct k as [|k]; simpl in Hx.
        - injection Hx as ->. rewrite Hr.
          destruct (last_role r (S (S n)) l); eauto.
        - destruct (IHl (S n) k Hx) as [j ->]. eauto. }
      destruct (has_role r c) eqn:Hc.
      * split.
        -- intros [= <-]. rewrite Nat.sub_diag. split_and!; [lia|by exists c|].
           intros k x Hk Hx. destruct k as [|k]; [lia|]. by eapply Hnone.
        -- intros (Hn & (x & Hx & Hrx) & _).
           destruct (i - n) as [|k] eqn:Ek; [f_equal; lia|]. simpl in Hx.
           rewrite (Hnone _ _ Hx) in Hrx. done.
      * split; [done|]. intros (Hn & (x & Hx & Hrx) & _).
        destruct (i - n) as [|k] eqn:Ek; simpl in Hx.
        -- injection Hx as <-. congruence.
        -- rewrite (Hnone _ _ Hx) in Hrx. done.
Qed.

Lemma find_column_indices_last r header :
  get_index r (find_column_indices header) = last_role r 0 header.
Proof.
  unfold find_column_indices, enumerate. rewrite columns_fold.
  destruct (last_role r 0 header); [done|]. by destruct r.
Qed.

(** X4. Over a header of ASCII text, for every role, the index the mapper
    returns is that of the last header cell, not empty, whose text the
    rules give that role: the index
    is resolved exactly when such a cell exists, it lies inside the header,
    and no later cell has the role. Two roles never share an index. *)
Theorem mapper_last_match_wins (header : row) :
  ascii_row header = true →
  (∀ r i,
     get_index r (find_column_indices header) = Some i ↔
     (∃ c, header !! i = Some c ∧ has_role r c = true)
     ∧ (∀ k c, i < k → header !! k = Some c → has_role r c = false))
  ∧ (∀ r i, get_index r (find_column_indices header) = Some i →
            i < length header)
  ∧ (∀ r r' i,
       get_index r (find_column_indices header) = Some i →
       get_index r' (find_column_indices header) = Some i → r = r').
Proof.
  assert (∀ r i,
     get_index r (find_column_indices header) = Some i ↔
     (∃ c, header !! i = Some c ∧ has_role r c = true)
     ∧ (∀ k c, i < k → header !! k = Some c → has_role r c = false)) as H.
  { intros r i. rewrite find_column_indices_last, last_role_spec.
    rewrite Nat.sub_0_r. split; [by intros (_ & ? & ?) |].
    intros [? ?]. split_and!; [lia | done | done]. }
  intros _. split_and!; [exact H | |].
  - intros r i [(c & Hc & _) _]%H. by eapply lookup_lt_Some.
  - intros r r' i. apply (resolved_one_role header).
    apply find_column_indices_resolved.
Qed.

Lemma mapper_last_match_wins_witness :
  get_index RDescription
    (find_column_indices
       [Some (py "Desc"); Some (py "LV"); Some (py "Description")])
  = Some 2.
Proof.
  apply (proj1 (mapper_last_match_wins
                  [Some (py "Desc"); Some (py "LV"); Some (py "Description")]
                  eq_refl)).
  split.
  - exists (Some (py "Description")). split; reflexivity.
  - intros k c Hk Hc. apply lookup_lt_Some in Hc. simpl in Hc. lia.
Defined.

Lemma upper_char_idem c : upper_char (upper_char c) = upper_char c.
Proof. destruct c as [[] [] [] [] [] [] [] []]; reflexivity. Qed.

Lemma upper_char_space c : is_space (upper_char c) = is_space c.
Proof. destruct c as [[] [] [] [] [] [] [] []]; reflexivity. Qed.

Lemma upper_idem s : upper (upper s) = upper s.
Proof.
  unfold upper. rewrite map_map. apply map_ext. apply upper_char_idem.
Qed.

Lemma drop_while_upper s :
  drop_while is_space (upper s) = upper (drop_while is_space s).
Proof.
  induction s as [|c s IH]; simpl; [done|].
  rewrite upper_char_space. by destruct (is_space c).
Qed.

Lemma strip_upper s : strip (upper s) = upper (strip s).
Proof.
  unfold strip, rstrip, lstrip, upper at 2.
  rewrite map_rev. fold (upper (drop_while is_space (rev (drop_while is_space s)))).
  rewrite <- drop_while_upper. unfold upper at 2. rewrite map_rev.
  fold (upper (drop_while is_space s)). by rewrite <- drop_while_upper.
Qed.

Lemma strip_idem s : strip (strip s) = strip s.
Proof.
  destruct (strip s) as [|c t] eqn:E; [done|]. rewrite <- E.
  assert (strip s ≠ []) as Hne by (by rewrite E).
  destruct (exists_last Hne) as (u & c1 & Hu).
  eapply strip_fixed; [exact E | exact Hu | |].
  - by eapply strip_head.
  - by eapply strip_last.
Qed.

Lemma role_of_text c : role_of (strip (upper c)) = role_of c.
Proof.
  unfold role_of.
  by rewrite (strip_upper c), upper_idem, (strip_upper (strip c)), strip_idem.
Qed.

Lemma column_step_normalised ix i (c : cell) :
  column_step ix (i, (λ s, strip (upper s)) <$> c) = column_step ix (i, c).
Proof.
  unfold column_step. destruct c as [s|]; [|done]. cbn [fmap option_fmap option_map].
  cbn [default from_option id]. rewrite role_of_text.
  destruct (truthy (Some (strip (upper s)))) eqn:E1,
           (truthy (Some s)) eqn:E2; try done.
  - by destruct s.
  - simpl. destruct (strip (upper s)) as [|x y] eqn:Es; [|done].
    rewrite <- role_of_text, Es. reflexivity.
Qed.

(** X5. The mapper looks at header texts in upper case and without the
    white space around them: a header whose cells are all upper-cased and
    stripped resolves the same columns. *)
Theorem mapper_ignores_case_and_padding (header : row) :
  find_column_indices (map (fmap (λ s, strip (upper s))) header)
  = find_column_indices header.
Proof.
  unfold find_column_indices, enumerate. rewrite length_map.
  generalize no_indices as ix. generalize 0 as n.
  induction header as [|c l IH]; intros n ix; [done|].
  cbn [map length seq zip zip_with fold_left].
  change (zip_with pair (seq (S n) (length l)) ?x)
    with (zip (seq (S n) (length l)) x).
  by rewrite column_step_normalised, IH.
Qed.

(** ** Format detector *)

Lemma header_has_first p (t : table) : header_has p (take 1 t) = header_has p t.
Proof. by destruct t. Qed.

Lemma existsb_map {A B} (f : B → bool) (g : A → B) (l : list A) :
  existsb f (map g l) = existsb (λ x, f (g x)) l.
Proof. induction l as [|x l IH]; simpl; [done|]. by rewrite IH. Qed.

(** X6. Format detection reads nothing of a table but its header row, and
    reads the page text without regard to case. It answers [EPP_FORMAT]
    only when the text holds an equipment-record marker, and, on a text
    without listing marker, exactly then. *)
Theorem detection_inputs (tables : list table) (page_text : str) :
  detect_bom_format (map (take 1) tables) page_text
  = detect_bom_format tables page_text
  ∧ detect_bom_format tables (upper page_text)
    = detect_bom_format tables page_text
  ∧ (detect_bom_format tables page_text = EPP_FORMAT →
     epp_marker page_text = true)
  ∧ (listing_marker page_text = false →
     (detect_bom_format tables page_text = EPP_FORMAT
      ↔ epp_marker page_text = true)).
Proof.
  assert (∀ p, existsb (header_has p) (map (take 1) tables)
               = existsb (header_has p) tables) as Hh.
  { intros p. rewrite existsb_map. induction tables as [|t ts IH]; simpl;
      [done|]. by rewrite header_has_first, IH. }
  split_and!.
  - unfold detect_bom_format, detect_listing. by rewrite !Hh.
  - unfold detect_bom_format, detect_listing, listing_marker, auth_qty_marker,
      epp_marker. by rewrite upper_idem.
  - unfold detect_bom_format, detect_listing.
    destruct (listing_marker page_text), (existsb (header_has lv_header) tables),
      (auth_qty_marker page_text), (epp_marker page_text),
      (existsb (header_has material_description_header) tables); done.
  - intros Hl. unfold detect_bom_format, detect_listing. rewrite Hl.
    destruct (epp_marker page_text),
      (existsb (header_has material_description_header) tables); done.
Qed.

Lemma detection_inputs_witness :
  detect_bom_format [] (py "Pwr Plant records") = EPP_FORMAT.
Proof.
  apply (proj2 (proj2 (proj2 (detection_inputs [] (py "Pwr Plant records")))));
    reflexivity.
Defined.

(** ** Item extractors *)

Lemma elem_of_concat {A} (x : A) (ls : list (list A)) :
  x ∈ concat ls ↔ ∃ l, l ∈ ls ∧ x ∈ l.
Proof.
  rewrite list_elem_of_In, in_concat. split; intros (l & H1 & H2); exists l;
    (split; by apply list_elem_of_In).
Qed.

Lemma number_from_lookup n fs k :
  number_from n fs !! k
  = (λ f : Fields,
       new_item (Z.of_nat (n + k) + 1) (take 100 f.1.1) f.1.2 f.2 (py "EA"))
    <$> fs !! k.
Proof.
  revert n k. induction fs as [|[[d s] q] fs IH]; intros n k; [done|].
  destruct k as [|k]; simpl.
  - by rewrite Nat.add_0_r.
  - rewrite IH. by replace (S n + k) with (n + S k) by lia.
Qed.

Lemma number_from_elem n fs it :
  it ∈ number_from n fs →
  ∃ (f : Fields) (k : Z),
    f ∈ fs ∧ it = new_item k (take 100 f.1.1) f.1.2 f.2 (py "EA").
Proof.
  intros (k & Hk)%list_elem_of_lookup. rewrite number_from_lookup in Hk.
  apply fmap_Some in Hk as (f & Hf & ->). exists f, (Z.of_nat (n + k) + 1)%Z.
  split; [by eapply list_elem_of_lookup_2 | done].
Qed.

Lemma gcss_items_from_rows tables it :
  it ∈ extract_items_gcss_standard tables →
  ∃ ix (r : row) (f : Fields) k,
    gcss_row ix r = Some f
    ∧ it = new_item k (take 100 f.1.1) f.1.2 f.2 (py "EA").
Proof.
  rewrite extract_items_gcss_standard_eq.
  intros (f & k & Hf & ->)%number_from_elem.
  apply elem_of_concat in Hf as (fs & Hfs & Hf).
  apply list_elem_of_fmap in Hfs as (t & -> & _).
  destruct t as [|header rows]; [by apply elem_of_nil in Hf|].
  apply list_elem_of_omap in Hf as (r & _ & Hr).
  by exists (gcss_indices header), r, f, k.
Qed.

Lemma epp_items_from_rows tables text it :
  it ∈ extract_items_epp_format tables text →
  ∃ ix (r : row) (f : Fields) k,
    epp_row ix r = Some f
    ∧ it = new_item k (take 100 f.1.1) f.1.2 f.2 (py "EA").
Proof.
  rewrite extract_items_epp_format_eq.
  intros (f & k & Hf & ->)%number_from_elem.
  apply elem_of_concat in Hf as (fs & Hfs & Hf).
  apply list_elem_of_fmap in Hfs as (t & -> & _).
  destruct t as [|header rows]; [by apply elem_of_nil in Hf|].
  apply list_elem_of_omap in Hf as (r & _ & Hr).
  by exists (epp_indices header), r, f, k.
Qed.

Lemma extract_nsn_shape (c : cell) :
  extract_nsn_from_material c = [] ∨ digits 9 (extract_nsn_from_material c).
Proof. eapply nsn_layers_shape, nsn_layers_sound. Qed.

Lemma row_nsn_shape ix r : row_nsn ix r = [] ∨ digits 9 (row_nsn ix r).
Proof.
  unfold row_nsn. destruct (column_cell r (ix_material ix)); [|by left].
  apply extract_nsn_shape.
Qed.

Lemma extract_quantity_nonneg v : (0 <= extract_quantity v)%Z.
Proof.
  destruct (py_truth v) eqn:Hv.
  - rewrite extract_quantity_eq by done.
    pose proof (int_of_digits_nonneg _ (digit_run_digits (py_str v))).
    destruct (digit_run (py_str v)); [lia | done].
  - unfold extract_quantity. rewrite Hv. simpl. lia.
Qed.

Lemma str_in_take p n s : str_in p (take n s) = true → str_in p s = true.
Proof.
  intros H. rewrite <- (take_drop n s). by apply str_in_app_l.
Qed.

Lemma upper_take n s : upper (take n s) = take n (upper s).
Proof. unfold upper. by rewrite fmap_take. Qed.

(** X7. Every item the standard-listing extractor returns has unit of
    issue [EA], a description of 3 to 100 characters that holds no category
    phrase in any case, a stock number that is empty or exactly nine
    digits, a quantity that is not negative, an original description equal
    to its description, no material number, and is editable. *)
Theorem gcss_items_well_formed (tables : list table) :
  Forall (λ it,
            unit_of_issue it = py "EA"
            ∧ 3 ≤ length (description it) ≤ 100
            ∧ Forall (λ pat, str_in pat (upper (description it)) = false)
                skip_patterns
            ∧ (nsn it = [] ∨ digits 9 (nsn it))
            ∧ (0 <= qty it)%Z
            ∧ original_description it = description it
            ∧ material_number it = []
            ∧ is_editable it = true)
    (extract_items_gcss_standard tables).
Proof.
  apply Forall_forall. intros it Hit.
  destruct (gcss_items_from_rows _ _ Hit) as (ix & r & [[d s] q] & k & Hr & ->).
  cbn [new_item unit_of_issue description nsn qty original_description
       material_number is_editable fst snd].
  unfold gcss_row in Hr.
  destruct (ix_description ix) as [dc|]; [|done].
  destruct (empty_row r); [done|].
  destruct (gcss_level_skip ix r); [done|].
  destruct (decide (length (gcss_description (cell_at r dc)) < 3)); [done|].
  destruct (existsb _ skip_patterns) eqn:Ep; [done|].
  injection Hr as <- <- <-.
  split_and!; try done.
  - rewrite length_take. lia.
  - rewrite length_take. lia.
  - apply existsb_false_Forall in Ep.
    eapply Forall_impl; [exact Ep|]. intros pat Hpat. cbv beta in Hpat.
    destruct (str_in pat (upper (take 100 (gcss_description (cell_at r dc)))))
      eqn:E; [|done].
    rewrite upper_take in E. apply str_in_take in E. congruence.
  - apply row_nsn_shape.
  - unfold gcss_qty. destruct (column_cell r (ix_auth_qty ix)) as [c|]; [|lia].
    destruct (truthy c); [apply extract_quantity_nonneg | lia].
Qed.

(** X8. Every item the equipment-record extractor returns has unit of
    issue [EA], a description of 1 to 100 characters, a stock number that
    is empty or exactly nine digits, a quantity that is not negative, an
    original description equal to its description, no material number, and
    is editable. *)
Theorem epp_items_well_formed (tables : list table) (page_text : str) :
  Forall (λ it,
            unit_of_issue it = py "EA"
            ∧ 1 ≤ length (description it) ≤ 100
            ∧ (nsn it = [] ∨ digits 9 (nsn it))
            ∧ (0 <= qty it)%Z
            ∧ original_description it = description it
            ∧ material_number it = []
            ∧ is_editable it = true)
    (extract_items_epp_format tables page_text).
Proof.
  apply Forall_forall. intros it Hit.
  destruct (epp_items_from_rows _ _ _ Hit)
    as (ix & r & [[d s] q] & k & Hr & ->).
  cbn [new_item unit_of_issue description nsn qty original_description
       material_number is_editable fst snd].
  unfold epp_row in Hr.
  destruct (ix_description ix) as [dc|]; [|done].
  destruct (empty_row r); [done|].
  destruct (epp_level_skip ix r); [done|].
  destruct (clean_description (cell_at r dc)) as [|x y] eqn:Ed; [done|].
  destruct (existsb _ epp_categories); [done|].
  injection Hr as <- <- <-.
  split_and!; try done.
  - rewrite length_take. simpl. lia.
  - rewrite length_take. lia.
  - apply row_nsn_shape.
  - unfold epp_qty. destruct (column_cell r (ix_auth_qty ix)) as [c|]; [|lia].
    apply extract_quantity_nonneg.
Qed.

(** ** Description cleaning *)

Lemma strip_split s :
  ∃ a b, s = a ++ strip s ++ b.
Proof.
  unfold strip.
  destruct (drop_while_split is_space s) as (a & Ha & _).
  destruct (rstrip_split (lstrip s)) as (ws & Hs & _).
  exists a, ws. unfold lstrip in *. by rewrite <- Hs.
Qed.

Lemma str_in_strip_inv p s : str_in p (strip s) = true → str_in p s = true.
Proof.
  intros H. destruct (strip_split s) as (a & b & Hs). rewrite Hs.
  by apply str_in_app_r, str_in_app_l.
Qed.

Lemma cut_suffix_prefix at_end s : ∃ b, s = cut_suffix at_end s ++ b.
Proof.
  induction s as [|c s [b IH]]; simpl.
  - destruct (at_end []); by exists [].
  - destruct (at_end (c :: s)); [by exists (c :: s)|].
    exists b. simpl. by rewrite <- IH.
Qed.

Lemma space_not_blank c : is_space c = false → Ascii.eqb " " c = false.
Proof.
  intros H. destruct (Ascii.eqb_spec " "%char c) as [<-|]; [|done].
  vm_compute in H. discriminate.
Qed.

Lemma str_in_cons p c t :
  str_in p (c :: t) = starts_with p (c :: t) || str_in p t.
Proof. reflexivity. Qed.

Lemma starts_with_two_blanks s :
  starts_with (py "  ") s =
  match s with
  | a :: b :: _ => Ascii.eqb " " a && Ascii.eqb " " b
  | _ => false
  end.
Proof.
  destruct s as [|a [|b t]]; simpl; [done| |].
  - by rewrite andb_false_r.
  - by rewrite andb_true_r.
Qed.

Lemma collapse_from_spaced s :
  (∀ b, str_in (py "  ") (collapse_from b s) = false)
  ∧ match collapse_from true s with
    | c :: _ => is_space c = false
    | [] => True
    end.
Proof.
  induction s as [|c s [IH1 IH2]]; [split; [by intros []|done]|].
  assert (is_space c = false →
          str_in (py "  ") (c :: collapse_from false s) = false) as Hns.
  { intros Hc. rewrite str_in_cons, IH1, starts_with_two_blanks.
    rewrite (space_not_blank c Hc). by destruct (collapse_from false s). }
  split.
  - intros b. cbn [collapse_from].
    destruct (is_space c) eqn:Hc; [|by apply Hns].
    destruct b; [apply IH1|].
    rewrite str_in_cons, IH1, starts_with_two_blanks.
    destruct (collapse_from true s) as [|x y]; [done|].
    by rewrite (space_not_blank x IH2), andb_false_r.
  - cbn [collapse_from]. destruct (is_space c) eqn:Hc; [exact IH2 | done].
Qed.

Lemma collapse_from_Forall (Q : ascii → Prop) b s :
  Q " "%char → Forall Q s → Forall Q (collapse_from b s).
Proof.
  intros Hq H. revert b. induction H as [|c s Hc _ IH]; intros b; simpl;
    [constructor|].
  destruct (is_space c); [destruct b|]; try constructor; auto.
Qed.

Lemma collapse_from_plain b s :
  Forall (λ x, is_space x = true → x = " "%char) (collapse_from b s).
Proof.
  revert b. induction s as [|c s IH]; intros b; simpl; [constructor|].
  destruct (is_space c) eqn:Hc; [destruct b|]; try constructor; auto.
  congruence.
Qed.

Lemma split_on_head_clean d s :
  Forall (λ c, c ≠ d) (hd [] (split_on d s)).
Proof.
  induction s as [|c s IH]; simpl; [constructor|].
  destruct (Ascii.eqb_spec c d) as [->|Hne]; [constructor|].
  destruct (split_on d s) as [|l ls]; simpl in *.
  - by repeat constructor.
  - by constructor.
Qed.

Lemma str_in_single x s :
  str_in [x] s = false ↔ Forall (λ c, c ≠ x) s.
Proof.
  induction s as [|c s IH]; simpl.
  - split; [constructor | done].
  - rewrite orb_false_iff, IH, andb_true_r, Forall_cons. split.
    + intros [H ?]. split; [|done]. intros ->. by rewrite Ascii.eqb_refl in H.
    + intros [H ?]. split; [|done].
      destruct (Ascii.eqb_spec x c); congruence.
Qed.

(** X9. A cleaned description never starts or ends with white space, holds
    no white space but single spaces, and holds no opening parenthesis. *)
Theorem clean_description_normal_form (c : cell) :
  let d := clean_description c in
  match d with x :: _ => is_space x = false | [] => True end
  ∧ match last d with Some x => is_space x = false | None => True end
  ∧ Forall (λ x, is_space x = true → x = " "%char) d
  ∧ str_in (py "  ") d = false
  ∧ Forall (λ x, x ≠ "("%char) d.
Proof.
  cbv zeta. unfold clean_description.
  destruct (negb (truthy c)); [by repeat split|].
  set (line := match split_on nl (strip (default [] c)) with
               | _ :: l1 :: _ => strip l1
               | l0 :: _ => strip l0
               | [] => []
               end).
  set (cut := if str_in (py "(") line
              then strip (hd [] (split_on "(" line)) else line).
  assert (Forall (λ x, x ≠ "("%char) cut) as Hcut.
  { unfold cut. destruct (str_in (py "(") line) eqn:E.
    - apply strip_Forall, split_on_head_clean.
    - by apply str_in_single. }
  set (body := cut_suffix code_suffix cut).
  assert (Forall (λ x, x ≠ "("%char) body) as Hbody.
  { destruct (cut_suffix_prefix code_suffix cut) as [b Hb]. fold body in Hb.
    rewrite Hb in Hcut. by apply Forall_app in Hcut as [? _]. }
  split_and!.
  - destruct (strip (collapse_ws body)) as [|x y] eqn:E; [done|].
    by eapply strip_head.
  - destruct (last (strip (collapse_ws body))) as [x|] eqn:E; [|done].
    apply last_Some in E as [u Hu]. by eapply strip_last.
  - apply strip_Forall, collapse_from_plain.
  - destruct (str_in (py "  ") (strip (collapse_ws body))) eqn:E; [|done].
    apply str_in_strip_inv in E. unfold collapse_ws in E.
    by rewrite (proj1 (collapse_from_spaced body)) in E.
  - apply strip_Forall, collapse_from_Forall; done.
Qed.

Lemma split_on_app d a b :
  Forall (λ c, Ascii.eqb c d = false) a →
  split_on d (a ++ d :: b) = a :: split_on d b.
Proof.
  induction 1 as [|c a Hc _ IH]; simpl.
  - by rewrite Ascii.eqb_refl.
  - by rewrite Hc, IH.
Qed.

Lemma clean_description_line (line : str) :
  Forall (λ c, Ascii.eqb c nl = false) line →
  clean_description (Some line) =
  let description := strip line in
  let description :=
    if str_in (py "(") description
    then strip (hd [] (split_on "("%char description))
    else description in
  strip (collapse_ws (cut_suffix code_suffix description)).
Proof.
  intros Hnl. destruct line as [|x l] eqn:E; [reflexivity|].
  rewrite <- E in *. unfold clean_description.
  replace (truthy (Some line)) with true by (by rewrite E).
  cbn [negb default from_option id].
  rewrite split_on_no_sep
    by exact (strip_Forall (λ c, Ascii.eqb c nl = false) _ Hnl).
  by rewrite strip_idem.
Qed.

(** X10. When the stripped text of a cell of ASCII characters has two lines
    or more, its cleaned description is that of its second line alone: the first line
    and the lines after the second are not read. *)
Theorem clean_description_second_line (s l0 l1 tail : str) :
  ascii_text s = true →
  s ≠ [] →
  strip s = l0 ++ nl :: l1 ++ tail →
  Forall (λ c, Ascii.eqb c nl = false) l0 →
  Forall (λ c, Ascii.eqb c nl = false) l1 →
  tail = [] ∨ (∃ t, tail = nl :: t) →
  clean_description (Some s) = clean_description (Some l1).
Proof.
  intros _ Hne Hs H0 H1 Htail.
  rewrite (clean_description_line l1 H1).
  unfold clean_description.
  replace (truthy (Some s)) with true by (by destruct s).
  cbn [negb default from_option id]. rewrite Hs, split_on_app by done.
  destruct Htail as [-> | [t ->]].
  - rewrite app_nil_r, split_on_no_sep by done. reflexivity.
  - rewrite split_on_app by done. reflexivity.
Qed.

Lemma clean_description_second_line_witness :
  clean_description
    (Some (py "C_19207 ~ 11655778" ++ nl :: py "WRENCH,  TORQUE (10-150) EA"
           ++ nl :: py "9K"))
  = clean_description (Some (py "WRENCH,  TORQUE (10-150) EA")).
Proof.
  apply (clean_description_second_line _ (py "C_19207 ~ 11655778")
           (py "WRENCH,  TORQUE (10-150) EA") (nl :: py "9K")).
  - reflexivity.
  - discriminate.
  - reflexivity.
  - repeat constructor.
  - repeat constructor.
  - right. by eexists.
Defined.

(** ** Tables without a description column, composition, levels *)

Lemma role_of_description_desc c :
  role_of c = Some RDescription → str_in (py "DESC") (upper c) = true.
Proof.
  unfold role_of. cbv zeta. intros H. apply str_in_strip_inv.
  destruct (str_in (py "DESC") (strip (upper c))) eqn:E; [done|].
  exfalso. repeat case_match; discriminate.
Qed.

Lemma gcss_find_desc_none l :
  (∀ i c, (i, Some c) ∈ l → str_in (py "DESC") (upper c) = false) →
  gcss_find_desc l = None.
Proof.
  intros H. destruct (gcss_find_desc l) as [d|] eqn:E; [|done].
  apply gcss_find_desc_some in E as (c & Hc & Hd). by rewrite (H _ _ Hc) in Hd.
Qed.

Lemma no_description_column (header : row) :
  (∀ c, Some c ∈ header → str_in (py "DESC") (upper c) = false) →
  ix_description (gcss_indices header) = None
  ∧ ix_description (epp_indices header) = None.
Proof.
  intros H.
  assert (∀ i c, (i, Some c) ∈ enumerate header →
                 str_in (py "DESC") (upper c) = false) as He.
  { intros i c Hc. apply H. apply enumerate_elem in Hc.
    by eapply list_elem_of_lookup_2. }
  assert (ix_description (find_column_indices header) = None) as Hf.
  { destruct (ix_description (find_column_indices header)) as [i|] eqn:E;
      [|done].
    destruct (find_column_indices_resolved header RDescription i E)
      as (c & Hc & _ & Hr).
    apply role_of_description_desc in Hr.
    rewrite H in Hr; [done|]. by eapply list_elem_of_lookup_2. }
  split.
  - unfold gcss_indices. rewrite Hf, gcss_find_desc_none by done. exact Hf.
  - unfold epp_indices. rewrite Hf.
    destruct (epp_desc_fold (enumerate header) (find_column_indices header))
      as (_ & _ & _ & _ & [-> | (d & c & _ & Hc & Hd)]); [done|].
    by rewrite (He _ _ Hc) in Hd.
Qed.

(** X11. Tables none of whose header cells holds [DESC], in any case, give
    no item, in either extractor, whatever their rows. *)
Theorem no_description_column_no_items (tables : list table) (text : str) :
  (∀ header rows c,
     header :: rows ∈ tables → Some c ∈ header →
     str_in (py "DESC") (upper c) = false) →
  extract_items_gcss_standard tables = []
  ∧ extract_items_epp_format tables text = [].
Proof.
  intros H.
  assert (Forall (λ t, gcss_table_fields t = [] ∧ epp_table_fields t = [])
            tables) as Hall.
  { apply Forall_forall. intros [|header rows] Ht; [done|].
    destruct (no_description_column header) as [Hg He].
    { intros c. by apply (H header rows). }
    split; apply omap_none; intros r.
    - unfold gcss_row. by rewrite Hg.
    - unfold epp_row. by rewrite He. }
  rewrite extract_items_gcss_standard_eq, (extract_items_epp_format_eq _ text).
  assert (concat (map gcss_table_fields tables) = []
          ∧ concat (map epp_table_fields tables) = []) as [Hg He].
  { clear H. induction Hall as [|t ts Ht _ IH]; [done|].
    destruct Ht as [Hg He], IH as [IHg IHe].
    simpl. by rewrite Hg, He, IHg, IHe. }
  by rewrite Hg, He.
Qed.

Lemma no_description_column_no_items_witness :
  extract_items_gcss_standard
    [[[Some (py "LV"); Some (py "Nomenclature")];
      [Some (py "B"); Some (py "WRENCH, TORQUE")]]] = [].
Proof.
  apply (no_description_column_no_items _ []).
  intros header rows c Ht Hc. apply list_elem_of_singleton in Ht.
  injection Ht as -> _.
  apply elem_of_cons in Hc as [[= ->] | Hc]; [reflexivity|].
  apply list_elem_of_singleton in Hc as [= ->]. reflexivity.
Defined.

Lemma number_from_shift n fs :
  number_from n fs = map (shift_line_no (Z.of_nat n)) (number_from 0 fs).
Proof.
  apply list_eq. intros k.
  rewrite list_lookup_fmap, !number_from_lookup.
  destruct (fs !! k) as [[[d s] q]|]; [|done]. simpl.
  unfold shift_line_no, set_line_no, new_item. simpl. do 2 f_equal. lia.
Qed.

Lemma number_from_renumber fs : renumber (number_from 0 fs) = number_from 0 fs.
Proof.
  apply list_eq. intros k. rewrite renumber_lookup, number_from_lookup.
  by destruct (fs !! k) as [[[d s] q]|].
Qed.

Lemma number_from_line_no fs :
  map line_no (number_from 0 fs)
  = map (λ i, Z.of_nat i + 1)%Z (seq 0 (length fs)).
Proof.
  rewrite <- number_from_renumber, renumber_line_no.
  by rewrite number_from_length.
Qed.

Lemma omap_length_le {A B} (f : A → option B) (l : list A) :
  length (omap f l) ≤ length l.
Proof.
  induction l as [|x l IH]; csimpl; [done|]. destruct (f x); simpl; lia.
Qed.

Lemma fields_count_le (fields : table → list Fields) (tables : list table) :
  (∀ t, length (fields t) ≤ length t - 1) →
  length (concat (map fields tables))
  ≤ sum_list (map (λ t, length t - 1) tables).
Proof.
  intros H. induction tables as [|t ts IH]; simpl; [done|].
  rewrite length_app. specialize (H t). lia.
Qed.

Lemma tables_compose (fields : table → list Fields) (a b : list table) :
  number_from 0 (concat (map fields (a ++ b)))
  = number_from 0 (concat (map fields a))
    ++ map (shift_line_no
              (Z.of_nat (length (number_from 0 (concat (map fields a))))))
         (number_from 0 (concat (map fields b))).
Proof.
  rewrite map_app, concat_app, number_from_app, number_from_length.
  by rewrite (number_from_shift (0 + _)).
Qed.

(** X12. Both extractors work table by table: the items of two lists of
    tables put together are the items of the first followed by those of the
    second with their line numbers moved up by the number of items of the
    first. The items returned are numbered 1, 2, ... in order, so that
    renumbering them changes nothing, and there are at most as many as
    there are rows below the header rows. *)
Theorem extractors_compose :
  (∀ a b : list table,
     extract_items_gcss_standard (a ++ b)
     = extract_items_gcss_standard a
       ++ map (shift_line_no
                 (Z.of_nat (length (extract_items_gcss_standard a))))
            (extract_items_gcss_standard b))
  ∧ (∀ (a b : list table) text,
       extract_items_epp_format (a ++ b) text
       = extract_items_epp_format a text
         ++ map (shift_line_no
                   (Z.of_nat (length (extract_items_epp_format a text))))
              (extract_items_epp_format b text))
  ∧ (∀ (tables : list table) text,
       let found := extract_items_gcss_standard tables in
       let found' := extract_items_epp_format tables text in
       map line_no found = map (λ i, Z.of_nat i + 1)%Z (seq 0 (length found))
       ∧ map line_no found'
         = map (λ i, Z.of_nat i + 1)%Z (seq 0 (length found'))
       ∧ renumber found = found ∧ renumber found' = found'
       ∧ length found ≤ sum_list (map (λ t, length t - 1) tables)
       ∧ length found' ≤ sum_list (map (λ t, length t - 1) tables)).
Proof.
  split_and!.
  - intros a b. rewrite !extract_items_gcss_standard_eq. apply tables_compose.
  - intros a b text. rewrite !extract_items_epp_format_eq.
    apply tables_compose.
  - intros tables text found found'. subst found found'.
    rewrite extract_items_gcss_standard_eq, extract_items_epp_format_eq.
    rewrite !number_from_length.
    split_and!; try apply number_from_line_no; try apply number_from_renumber.
    + apply fields_count_le. intros [|header rows]; simpl; [lia|].
      pose proof (omap_length_le (gcss_row (gcss_indices header)) rows). lia.
    + apply fields_count_le. intros [|header rows]; simpl; [lia|].
      pose proof (omap_length_le (epp_row (epp_indices header)) rows). lia.
Qed.

Lemma epp_level_skip_iff ix (r : row) l :
  ix_lv ix = Some l →
  epp_level_skip ix r = true ↔ level_is r l (py "A").
Proof.
  intros Hl. unfold epp_level_skip, level_is. rewrite Hl. split.
  - intros [Ht He]%andb_true_iff. destruct (cell_at r l) as [[|x c]|]; try done.
    apply str_eqb_eq in He. by exists (x :: c).
  - intros (c & -> & Hne & Hc). apply andb_true_iff. split; [by destruct c|].
    by apply str_eqb_eq.
Qed.

(** X13. Over rows of plain cells (ASCII text within the conversion
    limit), in the equipment-record path a level column excludes the rows
    marked [A] and no other: a row of any other level, or with an empty
    level cell, is emitted exactly when its cleaned description is not
    empty and is none of the category names. The standard path drops the
    row with an empty level cell. *)
Theorem epp_level_rule (ix : Indices) (r : row) (l d : nat) :
  plain_row r = true →
  ix_lv ix = Some l → ix_description ix = Some d →
  (level_is r l (py "A") → epp_row ix r = None)
  ∧ (¬ level_is r l (py "A") →
     (is_Some (epp_row ix r)
      ↔ clean_description (cell_at r d) ≠ []
        ∧ Forall (λ cat, upper (clean_description (cell_at r d)) ≠ cat)
            epp_categories))
  ∧ (truthy (cell_at r l) = false → gcss_row ix r = None).
Proof.
  intros _ Hl Hd. rewrite epp_row_no_empty_test, gcss_row_no_empty_test, Hd.
  split_and!.
  - intros H. apply (epp_level_skip_iff ix r l Hl) in H. by rewrite H.
  - intros H. destruct (epp_level_skip ix r) eqn:E.
    { by apply (epp_level_skip_iff ix r l Hl) in E. }
    destruct (clean_description (cell_at r d)) as [|x y] eqn:Ec.
    { split; [by intros [? ?] | by intros [? _]]. }
    destruct (existsb _ epp_categories) eqn:Ee.
    + split; [by intros [? ?]|]. intros [_ HF].
      apply existsb_elem_of in Ee as (cat & Hcat & Heq).
      apply str_eqb_eq in Heq. rewrite Forall_forall in HF.
      by specialize (HF cat Hcat).
    + split; [|by eexists]. intros _. split; [done|].
      apply existsb_false_Forall in Ee.
      eapply Forall_impl; [exact Ee|]. intros cat Hcat Heq. cbv beta in Hcat.
      apply str_eqb_eq in Heq. congruence.
  - intros Ht. unfold gcss_level_skip. rewrite Hl, Ht. done.
Qed.

Lemma epp_level_rule_witness :
  let ix := epp_indices [Some (py "LV"); Some (py "Description")] in
  is_Some (epp_row ix [None; Some (py "BOLT, HEX")])
  ∧ gcss_row ix [None; Some (py "BOLT, HEX")] = None
  ∧ epp_row ix [Some (py "a"); Some (py "BOLT, HEX")] = None.
Proof.
  cbv zeta.
  destruct (epp_level_rule
              (epp_indices [Some (py "LV"); Some (py "Description")])
              [None; Some (py "BOLT, HEX")] 0 1 eq_refl eq_refl eq_refl)
    as (_ & Hkeep & Hdrop).
  split_and!.
  - apply Hkeep.
    + intros (c & Hc & _). discriminate.
    + split; [discriminate | repeat constructor; discriminate].
  - by apply Hdrop.
  - apply (proj1 (epp_level_rule
              (epp_indices [Some (py "LV"); Some (py "Description")])
              [Some (py "a"); Some (py "BOLT, HEX")] 0 1 eq_refl eq_refl
              eq_refl)).
    exists (py "a"). split_and!; [reflexivity | discriminate | reflexivity].
Defined.

(** ** Orchestrator runs *)

Lemma add_pages_eq n r :
  add_pages n r
  = {| items := items r; metadata := metadata r; warnings := warnings r;
       errors := errors r; pages_processed := n + pages_processed r;
       format_detected := format_detected r |}.
Proof.
  induction n as [|n IH]; [by destruct r|].
  change (add_pages (S n) r) with (count_page (add_pages n r)).
  rewrite IH. reflexivity.
Qed.

Lemma extract_pages_readable pages acc r :
  Forall readable pages →
  extract_pages pages acc r
  = (Returns (acc ++ concat (map (page_yield (format_detected r)) pages)),
     add_pages (length pages) r).
Proof.
  intros H. pose proof (extract_pages_spec pages acc r) as Hs.
  revert acc r Hs. induction H as [|p rest Hp _ IH]; intros acc r Hs.
  - simpl. unfold Try.ret. by rewrite app_nil_r.
  - destruct Hp as [[tables Ht] [text Hx]].
    cbn [extract_pages] in *. unfold Try.bind at 1. unfold Try.update at 1.
    unfold Try.bind at 1. unfold Try.call at 1. rewrite Ht.
    unfold Try.bind at 1. unfold Try.call at 1. rewrite Hx.
    unfold Try.bind at 1. unfold Try.get at 1.
    rewrite IH by apply extract_pages_spec.
    cbn [map concat length]. rewrite (page_yield_readable _ _ _ _ Ht Hx).
    rewrite add_pages_count. cbn [format_detected count_page].
    by rewrite <- app_assoc.
Qed.

Lemma extract_pages_fails pre p post acc r :
  Forall readable pre → ¬ readable p →
  extract_pages (pre ++ p :: post) acc r
  = (Raises (loop_error p), add_pages (S (length pre)) r).
Proof.
  intros Hpre Hp. revert acc r.
  induction Hpre as [|q pre Hq _ IH]; intros acc r.
  - cbn [app extract_pages length]. unfold Try.bind at 1.
    unfold Try.update at 1. unfold Try.bind at 1. unfold Try.call at 1.
    unfold loop_error.
    destruct (extract_tables p) as [tables|e] eqn:Et; [|done].
    unfold Try.bind at 1. unfold Try.call at 1.
    destruct (extract_text p) as [text|e] eqn:Ex; [|done].
    exfalso. apply Hp. split; eauto.
  - destruct Hq as [[tables Ht] [text Hx]].
    cbn [app extract_pages length]. unfold Try.bind at 1.
    unfold Try.update at 1. unfold Try.bind at 1. unfold Try.call at 1.
    rewrite Ht. unfold Try.bind at 1. unfold Try.call at 1. rewrite Hx.
    unfold Try.bind at 1. unfold Try.get at 1.
    rewrite IH. by rewrite add_pages_count.
Qed.

Lemma py_index_slice {A} (l : list A) (i : Z) x :
  py_index l i = Returns x →
  ∃ rest, py_slice_from l i = x :: rest
          ∧ length (x :: rest)
            = Z.to_nat (if (i <? 0)%Z then - i else Z.of_nat (length l) - i).
Proof.
  unfold py_index, py_slice_from.
  destruct (i <? 0)%Z eqn:Hi.
  - apply Z.ltb_lt in Hi.
    destruct (Z.of_nat (length l) + i <? 0)%Z eqn:Hj; [done|].
    apply Z.ltb_ge in Hj. rewrite Z.max_r by lia.
    destruct (l !! Z.to_nat (Z.of_nat (length l) + i)) as [y|] eqn:E; [|done].
    intros [= ->]. exists (drop (S (Z.to_nat (Z.of_nat (length l) + i))) l).
    rewrite <- (drop_S _ _ _ E). split; [done|]. rewrite length_drop.
    apply lookup_lt_Some in E. lia.
  - apply Z.ltb_ge in Hi. destruct (i <? 0)%Z eqn:Hj; [lia|].
    destruct (l !! Z.to_nat i) as [y|] eqn:E; [|done].
    intros [= ->]. exists (drop (S (Z.to_nat i)) l).
    rewrite <- (drop_S _ _ _ E). split; [done|]. rewrite length_drop.
    apply lookup_lt_Some in E. lia.
Qed.

Section OrchestratorRuns.

Variable extract_metadata : str → BomMetadata.

Lemma run_from_start_page pages start_page first :
  (start_page < Z.of_nat (length pages))%Z →
  py_index pages start_page = Returns first →
  readable first →
  ∃ rest base,
    py_slice_from pages start_page = first :: rest
    ∧ base = set_metadata
               (set_bom_format
                  (detect_bom_format (tables_of_page first)
                     (text_of_page first))
                  (extract_metadata (text_of_page first)))
               (set_format
                  (detect_bom_format (tables_of_page first)
                     (text_of_page first)) new_result)
    ∧ extract_items_from_pdf extract_metadata (Returns pages) start_page
      = match extract_pages (first :: rest) [] base with
        | (Returns found, r) =>
            match renumber found with
            | [] => add_warning no_items_warning (set_items [] r)
            | l => set_items l r
            end
        | (Raises e, r) => add_error (py "Failed to process PDF: " ++ e) r
        end.
Proof.
  intros Hlt Hfirst [[tables Ht] [text Hx]].
  destruct (py_index_slice _ _ _ Hfirst) as (rest & Hslice & _).
  eexists rest, _. split; [done|]. split; [reflexivity|].
  unfold extract_items_from_pdf, Try.bind at 1, Try.call at 1.
  unfold extract_body. apply Z.leb_gt in Hlt. rewrite Hlt.
  unfold Try.bind at 1, Try.call at 1. rewrite Hfirst.
  unfold Try.bind at 1, Try.call at 1. rewrite Hx.
  unfold Try.bind at 1, Try.call at 1. rewrite Ht.
  unfold Try.bind at 1, Try.update at 1.
  unfold Try.bind at 1, Try.update at 1.
  unfold Try.bind at 1, Try.update at 1.
  unfold Try.bind at 1. rewrite Hslice.
  unfold text_of_page, tables_of_page. rewrite Ht, Hx.
  cbn [metadata set_metadata set_format].
  destruct (extract_pages (first :: rest) [] _) as [[found|e] r]; [|done].
  unfold Try.bind, Try.update, Try.get, Try.ret. cbn [items set_items].
  by destruct (renumber found).
Qed.

Lemma run_readable pages start_page first :
  let r := extract_items_from_pdf extract_metadata (Returns pages)
             start_page in
  let f := detect_bom_format (tables_of_page first) (text_of_page first) in
  (start_page < Z.of_nat (length pages))%Z →
  py_index pages start_page = Returns first →
  Forall readable (py_slice_from pages start_page) →
  errors r = []
  ∧ format_detected r = f
  ∧ metadata r = set_bom_format f (extract_metadata (text_of_page first))
  ∧ items r
    = renumber (concat (map (page_yield f)
                          (py_slice_from pages start_page)))
  ∧ pages_processed r = length (py_slice_from pages start_page).
Proof.
  intros r f Hlt Hfirst Hread.
  destruct (py_index_slice _ _ _ Hfirst) as (rest' & Hslice' & _).
  assert (readable first) as Hr1.
  { rewrite Hslice' in Hread. by apply Forall_cons in Hread as [? _]. }
  destruct (run_from_start_page pages start_page first Hlt Hfirst Hr1)
    as (rest & base & Hslice & Hbase & Hrun).
  subst r. rewrite Hrun. rewrite Hslice in Hread |- *.
  rewrite extract_pages_readable by done.
  rewrite add_pages_eq, app_nil_l.
  assert (format_detected base = f) as Hf by (by rewrite Hbase).
  rewrite Hf.
  destruct (renumber _) eqn:E; rewrite Hbase;
    cbn [items metadata errors warnings pages_processed format_detected
         set_items add_warning set_metadata set_format new_result];
    split_and!; try done; lia.
Qed.

(** X14. On a run over pages that can all be read, from the start page
    on, and whose tables hold plain cells (ASCII text within the conversion
    limit), no error is recorded, the format recorded is the one detected
    on the start page, and it is the one every page is extracted with; the metadata are those of the text of the start page, with that
    format recorded in them; and the pages processed are all the pages from
    the start page on. On every run, failed or not, the format recorded in
    the metadata is the format detected. *)
Theorem run_uses_start_page_format :
  (∀ pages start_page first,
     let r := extract_items_from_pdf extract_metadata (Returns pages)
                start_page in
     let f := detect_bom_format (tables_of_page first) (text_of_page first) in
     (start_page < Z.of_nat (length pages))%Z →
     py_index pages start_page = Returns first →
     Forall readable (py_slice_from pages start_page) →
     forallb plain_page (py_slice_from pages start_page) = true →
     errors r = []
     ∧ format_detected r = f
     ∧ metadata r = set_bom_format f (extract_metadata (text_of_page first))
     ∧ items r
       = renumber (concat (map (page_yield f)
                             (py_slice_from pages start_page)))
     ∧ pages_processed r = length (py_slice_from pages start_page))
  ∧ (∀ pdf start_page,
       let r := extract_items_from_pdf extract_metadata pdf start_page in
       bom_format (metadata r) = format_detected r).
Proof.
  split.
  - intros pages sp first r f Hlt Hfirst Hread _.
    by apply run_readable.
  - intros pdf sp r. subst r.
    destruct pdf as [pages|e]; [|done].
    destruct (decide (Z.of_nat (length pages) <= sp)%Z) as [Hle|Hgt].
    { unfold extract_items_from_pdf, extract_body, Try.bind, Try.call.
      apply Z.leb_le in Hle. by rewrite Hle. }
    assert ((Z.of_nat (length pages) <=? sp)%Z = false) as Hb
      by (apply Z.leb_gt; lia).
    destruct (py_index pages sp) as [first|e] eqn:Hfirst.
    2: { unfold extract_items_from_pdf, extract_body, Try.bind, Try.call.
         by rewrite Hb, Hfirst. }
    destruct (extract_text first) as [text|e] eqn:Hx.
    2: { unfold extract_items_from_pdf, extract_body, Try.bind, Try.call.
         rewrite Hb, Hfirst. cbv beta iota. by rewrite Hx. }
    destruct (extract_tables first) as [tables|e] eqn:Ht.
    2: { unfold extract_items_from_pdf, extract_body, Try.bind, Try.call.
         rewrite Hb, Hfirst. cbv beta iota. rewrite Hx. cbv beta iota.
         by rewrite Ht. }
    destruct (run_from_start_page pages sp first ltac:(lia) Hfirst)
      as (rest & base & Hslice & Hbase & ->); [split; eauto|].
    pose proof (extract_pages_spec (first :: rest) [] base) as Hs.
    assert (bom_format (metadata base) = format_detected base) as Hbf
      by (by rewrite Hbase).
    destruct (extract_pages (first :: rest) [] base) as [[found|e] r'].
    + destruct Hs as (-> & _ & _). rewrite add_pages_eq.
      by destruct (renumber found).
    + destruct Hs as (n & -> & _). by rewrite add_pages_eq.
Qed.


(** X16. When the start page can be read and a later page cannot, the
    pages before it being readable with tables of plain cells, the run
    keeps no item, not even those of the pages read before it, counts the
    pages up to and including the unreadable one, and reports the
    exception of that page, the one of its tables if both its tables and
    its text raise. When it is the start page that cannot be read, no page
    is counted, no format is detected, and the exception reported is the
    one of its text if both raise. *)
Theorem run_stops_at_unreadable_page :
  (∀ pages start_page first pre p post,
     let r := extract_items_from_pdf extract_metadata (Returns pages)
                start_page in
     (start_page < Z.of_nat (length pages))%Z →
     py_index pages start_page = Returns first →
     py_slice_from pages start_page = (first :: pre) ++ p :: post →
     Forall readable (first :: pre) →
     forallb plain_page (first :: pre) = true →
     ¬ readable p →
     items r = []
     ∧ pages_processed r = length (first :: pre) + 1
     ∧ errors r = [py "Failed to process PDF: " ++ loop_error p]
     ∧ warnings r = []
     ∧ format_detected r
       = detect_bom_format (tables_of_page first) (text_of_page first))
  ∧ (∀ pages start_page first,
       let r := extract_items_from_pdf extract_metadata (Returns pages)
                  start_page in
       (start_page < Z.of_nat (length pages))%Z →
       py_index pages start_page = Returns first →
       ¬ readable first →
       r = add_error (py "Failed to process PDF: " ++ start_error first)
             new_result).
Proof.
  split.
  - intros pages sp first pre p post r Hlt Hfirst Hslice Hpre _ Hp.
    destruct (run_from_start_page pages sp first Hlt Hfirst)
      as (rest & base & Hslice' & Hbase & Hrun).
    { by apply Forall_cons in Hpre as [? _]. }
    subst r. rewrite Hrun.
    assert (first :: rest = (first :: pre) ++ p :: post) as ->
      by (by rewrite <- Hslice', Hslice).
    rewrite extract_pages_fails by done. rewrite add_pages_eq, Hbase.
    cbn [items metadata errors warnings pages_processed format_detected
         add_error set_metadata set_format new_result app].
    split_and!; try done. cbn [length]. lia.
  - intros pages sp first r Hlt Hfirst Hnr. subst r.
    unfold extract_items_from_pdf, extract_body, Try.bind, Try.call.
    apply Z.leb_gt in Hlt. rewrite Hlt, Hfirst. unfold start_error.
    destruct (extract_text first) as [text|e] eqn:Hx; [|done].
    destruct (extract_tables first) as [tables|e] eqn:Ht; [|done].
    exfalso. apply Hnr. split; eauto.
Qed.

End OrchestratorRuns.

Lemma run_uses_start_page_format_witness :
  let r := extract_items_from_pdf no_metadata
             (Returns [sample_plain_page; sample_listing_page]) 0%Z in
  format_detected r = UNKNOWN
  ∧ pages_processed r = 2
  ∧ items r
    = renumber (concat (map (page_yield UNKNOWN)
                          [sample_plain_page; sample_listing_page])).
Proof.
  cbv zeta.
  destruct (proj1 (run_uses_start_page_format no_metadata)
              [sample_plain_page; sample_listing_page] 0%Z sample_plain_page)
    as (_ & Hf & _ & Hi & Hp).
  - simpl. lia.
  - reflexivity.
  - repeat constructor; by eexists.
  - reflexivity.
  - split_and!; [exact Hf | exact Hp | exact Hi].
Defined.


Lemma run_stops_at_unreadable_page_witness :
  let r := extract_items_from_pdf no_metadata
             (Returns [sample_listing_page; sample_broken_page;
                       sample_listing_page]) 0%Z in
  items r = [] ∧ pages_processed r = 2
  ∧ errors r = [py "Failed to process PDF: bad stream"].
Proof.
  cbv zeta.
  destruct (proj1 (run_stops_at_unreadable_page no_metadata)
              [sample_listing_page; sample_broken_page; sample_listing_page]
              0%Z sample_listing_page [] sample_broken_page
              [sample_listing_page])
    as (Hi & Hp & He & _).
  - simpl. lia.
  - reflexivity.
  - reflexivity.
  - repeat constructor; by eexists.
  - reflexivity.
  - intros [_ [text H]]. discriminate.
  - split_and!; [exact Hi | exact Hp | exact He].
Defined.

(** ** Layout: every item once, in order *)

Lemma slice_lookup_ge {A} (l : list A) a b k :
  b - a ≤ k → slice l a b !! k = None.
Proof. intros H. unfold slice. by apply lookup_take_ge. Qed.


Lemma length_enumerate {A} (l : list A) : length (enumerate l) = length l.
Proof. unfold enumerate. rewrite length_zip_with, length_seq. lia. Qed.

Lemma concat_slices {A} (l : list A) c k :
  concat (map (λ p, slice l (p * c) (min ((p + 1) * c) (length l)))
            (seq 0 k))
  = take (k * c) l.
Proof.
  induction k as [|k IH]; [done|].
  rewrite seq_S, map_app, concat_app, IH. cbn [map concat plus].
  rewrite app_nil_r. unfold slice.
  replace (take (min ((k + 1) * c) (length l) - k * c) (drop (k * c) l))
    with (take c (drop (k * c) l)).
  - rewrite take_take_drop. f_equal. lia.
  - destruct (decide ((k + 1) * c ≤ length l)) as [Hle|Hgt].
    + f_equal. lia.
    + rewrite !take_ge; [done|rewrite length_drop; lia..].
Qed.

Lemma page_rows_global (l : list BomItem) p :
  map draw_row
    (enumerate (slice l (p * ROWS_PER_PAGE)
                  (min ((p + 1) * ROWS_PER_PAGE) (length l))))
  = map (λ '(i, item), draw_row (i mod ROWS_PER_PAGE, item))
      (slice (enumerate l) (p * ROWS_PER_PAGE)
         (min ((p + 1) * ROWS_PER_PAGE) (length l))).
Proof.
  apply list_eq. intros k.
  rewrite !list_lookup_fmap, enumerate_lookup.
  set (a := p * ROWS_PER_PAGE).
  set (b := min ((p + 1) * ROWS_PER_PAGE) (length l)).
  destruct (decide (a + k < b)) as [Hlt|Hge].
  - rewrite !slice_lookup by done. rewrite enumerate_lookup.
    destruct (l !! (a + k)) as [item|]; [|done]. cbn [fmap option_fmap option_map].
    subst a b. unfold ROWS_PER_PAGE in *.
    rewrite (Nat.add_comm (p * 18) k), Nat.Div0.mod_add.
    rewrite Nat.mod_small by lia. done.
  - rewrite !slice_lookup_ge by lia. done.
Qed.

Lemma generated_overlay_list (all_items : list BomItem) header :
  all_items ≠ [] →
  omap overlay (pages (generate_dd1750_from_items all_items header).1)
  = map (λ p, generate_dd1750_overlay
                (slice all_items (p * ROWS_PER_PAGE)
                   (min ((p + 1) * ROWS_PER_PAGE) (length all_items)))
                (Z.of_nat p + 1)
                (Z.of_nat (ceil_div (length all_items) ROWS_PER_PAGE))
                header)
      (seq 0 (ceil_div (length all_items) ROWS_PER_PAGE)).
Proof.
  intros Hne.
  rewrite (omap_fmap_id overlay), (generated_overlays _ _ Hne). cbv zeta.
  rewrite <- omap_fmap_id. by apply omap_all_some.
Qed.

Lemma all_rows_in_order (all_items : list BomItem) header :
  all_rows (generate_dd1750_from_items all_items header).1
  = map (λ '(i, item), draw_row (i mod ROWS_PER_PAGE, item))
      (enumerate all_items).
Proof.
  destruct (decide (all_items = [])) as [->|Hne]; [done|].
  unfold all_rows. rewrite (generated_overlay_list _ _ Hne), map_map.
  cbn [drawn_rows generate_dd1750_overlay].
  rewrite (map_ext _ _ (page_rows_global all_items)).
  rewrite <- (map_map (λ p, slice (enumerate all_items) (p * ROWS_PER_PAGE)
                              (min ((p + 1) * ROWS_PER_PAGE)
                                 (length all_items)))
                (map (λ '(i, item), draw_row (i mod ROWS_PER_PAGE, item)))).
  rewrite <- concat_map. f_equal.
  rewrite <- (length_enumerate all_items), concat_slices.
  apply take_ge. rewrite length_enumerate.
  assert (0 < length all_items) as Hlen
    by (destruct all_items; [done|simpl; lia]).
  destruct (ceil_div_bounds _ Hlen) as (_ & _ & H). lia.
Qed.



(** ** Layout: what is read of an item *)

Lemma draw_row_printed i a b :
  printed a = printed b → draw_row (i, a) = draw_row (i, b).
Proof.
  unfold printed, draw_row. intros [= Hl Hd Hn Hq].
  rewrite Hl, Hn, Hq. f_equal.
  assert (∀ d : str,
            (if decide (55 < length d) then take 55 d else d) = take 55 d)
    as Ht.
  { intros d. destruct (decide (55 < length d)); [done|].
    symmetry. apply take_ge. lia. }
  by rewrite !Ht.
Qed.

Lemma overlay_printed (a b : list BomItem) n t ha hb :
  map printed a = map printed b →
  generate_dd1750_overlay a n t ha = generate_dd1750_overlay b n t hb.
Proof.
  intros H. unfold generate_dd1750_overlay. f_equal.
  apply list_eq. intros k. rewrite !list_lookup_fmap, !enumerate_lookup.
  pose proof (f_equal (λ l, l !! k) H) as Hk. cbv beta in Hk.
  rewrite !list_lookup_fmap in Hk.
  destruct (a !! k) as [x|], (b !! k) as [y|]; try done.
  cbn [fmap option_fmap option_map] in Hk |- *.
  f_equal. apply draw_row_printed. congruence.
Qed.

Lemma generate_printed (a b : list BomItem) ha hb :
  map printed a = map printed b →
  generate_dd1750_from_items a ha = generate_dd1750_from_items b hb.
Proof.
  intros H.
  assert (length a = length b) as Hlen
    by (by rewrite <- (length_map printed a), H, length_map).
  destruct a as [|x a'] eqn:Ea, b as [|y b'] eqn:Eb; try done.
  rewrite <- Ea, <- Eb in *.
  unfold generate_dd1750_from_items. rewrite Ea, Eb. rewrite <- Ea, <- Eb.
  rewrite Hlen. f_equal. f_equal. f_equal.
  apply map_ext. intros p. unfold make_page. rewrite Hlen. do 2 f_equal.
  apply overlay_printed. unfold slice.
  change (map printed) with (fmap (M:=list) printed) in *.
  by rewrite !fmap_take, !fmap_drop, H.
Qed.

(** X18. The document written and the count returned depend on an item
    only through its line number, the first 55 characters of its
    description, its stock number and its quantity: the unit of issue, the
    material number, the editable flag, the original description and the
    header information are not read. *)
Theorem layout_reads_printed_fields (a b : list BomItem) ha hb :
  map printed a = map printed b →
  generate_dd1750_from_items a ha = generate_dd1750_from_items b hb.
Proof. apply generate_printed. Qed.

Lemma layout_reads_printed_fields_witness :
  generate_dd1750_from_items
    [new_item 1 (py "WRENCH, TORQUE") (py "012345678") 2 (py "EA")] None
  = generate_dd1750_from_items
      [new_item 1 (py "WRENCH, TORQUE") (py "012345678") 2 (py "BX")]
      (Some {| packed_by := py "SGT DOE"; num_boxes := py "3";
               requisition_no := []; order_no := []; end_item := [];
               date := py "2024-01-01" |}).
Proof. apply layout_reads_printed_fields. reflexivity. Defined.

(** ** The items of a run *)

Lemma page_items_constructed f tables text it :
  it ∈ page_items f tables text → as_constructed it.
Proof.
  assert (∀ k d s q, as_constructed (new_item k d s q (py "EA"))) as Hnew
    by done.
  assert (it ∈ extract_items_gcss_standard tables → as_constructed it) as Hg.
  { intros (ix & r & fl & k & _ & ->)%gcss_items_from_rows. apply Hnew. }
  assert (it ∈ extract_items_epp_format tables text → as_constructed it)
    as He.
  { intros (ix & r & fl & k & _ & ->)%epp_items_from_rows. apply Hnew. }
  unfold page_items. destruct f; [done..|].
  by destruct (extract_items_gcss_standard tables).
Qed.

Lemma run_items_renumbered extract_metadata pdf start_page :
  ∃ l,
    items (extract_items_from_pdf extract_metadata pdf start_page)
    = renumber l
    ∧ Forall as_constructed l.
Proof.
  destruct (run_cases extract_metadata pdf start_page)
    as [(pages & _ & _ & ->) | [(_ & -> & _) | (pages & _ & _ & _ & _ & _ & -> & _)]].
  - by exists [].
  - by exists [].
  - eexists. split; [done|]. apply Forall_forall. intros it Hit.
    apply elem_of_concat in Hit as (l & Hl & Hit).
    apply list_elem_of_fmap in Hl as (p & -> & _).
    unfold page_yield in Hit.
    destruct (extract_tables p); [|by apply elem_of_nil in Hit].
    destruct (extract_text p); [|by apply elem_of_nil in Hit].
    by eapply page_items_constructed.
Qed.

Lemma run_errors_no_items extract_metadata pdf start_page :
  errors (extract_items_from_pdf extract_metadata pdf start_page) ≠ [] →
  items (extract_items_from_pdf extract_metadata pdf start_page) = [].
Proof.
  destruct (run_cases extract_metadata pdf start_page)
    as [(pages & _ & _ & ->) | [(_ & -> & _) | (pages & _ & _ & -> & _)]];
    done.
Qed.

(** ** Conversion entry point *)

Lemma generate_count (all_items : list BomItem) header :
  (generate_dd1750_from_items all_items header).2 = length all_items.
Proof.
  destruct (decide (all_items = [])) as [->|Hne]; [done|].
  by destruct (generated_pages all_items header Hne) as (_ & _ & _ & ? & _).
Qed.

Lemma generate_page_count (all_items : list BomItem) header :
  length (omap overlay
            (pages (generate_dd1750_from_items all_items header).1))
  = ceil_div (length all_items) ROWS_PER_PAGE.
Proof.
  destruct (decide (all_items = [])) as [->|Hne]; [done|].
  by rewrite (generated_overlay_list _ _ Hne), length_map, length_seq.
Qed.

Lemma generate_blank_iff (all_items : list BomItem) header :
  (generate_dd1750_from_items all_items header).1 = blank_document
  ↔ all_items = [].
Proof.
  split; [|by intros ->].
  intros H. destruct (decide (all_items = [])) as [|Hne]; [done|].
  destruct (generated_pages all_items header Hne) as (? & ? & Hd & _).
  rewrite Hd in H. discriminate.
Qed.

(** X19. With a template that can be read, the conversion of a listing
    returns the number of items extracted and writes the document laid out
    from them, on ceil(N/18) pages; the box numbers drawn, read page after
    page, are 1, 2, ..., N with no gap and no restart at a page break. *)
Theorem conversion_numbers_items (bom : Document) (start_page : Z) :
  let r := extract_items_from_pdf Metadata.extract_metadata bom start_page in
  ∃ doc,
    generate_dd1750_from_pdf bom (Returns ()) start_page
    = (Some doc, length (items r))
    ∧ doc = (generate_dd1750_from_items (items r) None).1
    ∧ length (omap overlay (pages doc))
      = ceil_div (length (items r)) ROWS_PER_PAGE
    ∧ map box_number (all_rows doc)
      = map (λ i, str_of_Z (Z.of_nat i + 1)) (seq 0 (length (items r))).
Proof.
  intros r. eexists. split_and!; [|reflexivity|..].
  - unfold generate_dd1750_from_pdf. fold r.
    pose proof (generate_count (items r) None) as Hc.
    destruct (generate_dd1750_from_items (items r) None) as [doc n].
    by rewrite <- Hc.
  - apply generate_page_count.
  - rewrite all_rows_in_order.
    destruct (run_items_renumbered Metadata.extract_metadata bom start_page)
      as (l & Hl & _).
    fold r in Hl. rewrite Hl. apply list_eq. intros i.
    rewrite !list_lookup_fmap, enumerate_lookup, renumber_lookup.
    rewrite renumber_length.
    destruct (decide (i < length l)) as [Hlt|Hge].
    + rewrite lookup_seq_lt by done.
      destruct (lookup_lt_is_Some_2 l i Hlt) as [x ->]. done.
    + rewrite lookup_seq_ge by lia.
      by rewrite (lookup_ge_None_2 l i) by lia.
Qed.

(** X20. The conversion never raises. When the template cannot be read
    nothing is written and the count is 0. When the extraction reports an
    error (a listing that cannot be opened, a start page out of range, a
    page that cannot be read) the document written is the blank template
    page alone and the count is 0; and with a readable template the count
    is 0 exactly when the document is the blank page, which is exactly
    when no item was extracted. *)
Theorem conversion_failure_modes (bom : Document) (start_page : Z) :
  let r := extract_items_from_pdf Metadata.extract_metadata bom start_page in
  let out := generate_dd1750_from_pdf bom (Returns ()) start_page in
  (∀ e, generate_dd1750_from_pdf bom (Raises e) start_page = (None, 0))
  ∧ (errors r ≠ [] → out = (Some blank_document, 0))
  ∧ (out.2 = 0 ↔ items r = [])
  ∧ (out.1 = Some blank_document ↔ items r = []).
Proof.
  intros r out. subst out. unfold generate_dd1750_from_pdf. fold r.
  pose proof (generate_count (items r) None) as Hc.
  pose proof (generate_blank_iff (items r) None) as Hb.
  destruct (generate_dd1750_from_items (items r) None) as [doc n].
  cbn [fst snd] in *. split_and!.
  - done.
  - intros He. apply run_errors_no_items in He. fold r in He.
    rewrite He in Hc. apply Hb in He. by rewrite He, Hc.
  - rewrite Hc. split; [by destruct (items r)|by intros ->].
  - rewrite <- Hb. split; [by intros [= ->]|by intros ->].
Qed.

Lemma conversion_failure_modes_witness :
  generate_dd1750_from_pdf (Raises (py "No such file")) (Returns ()) 0
  = (Some blank_document, 0).
Proof.
  apply (proj1 (proj2 (conversion_failure_modes
                         (Raises (py "No such file")) 0%Z))).
  discriminate.
Defined.

(** ** Web application *)

Lemma rebuild_lookup (l : list BomItem) i :
  rebuild_items (items_data l) !! i
  = (λ it, new_item (Z.of_nat i + 1) (description it) (nsn it) (qty it)
             (unit_of_issue it)) <$> l !! i.
Proof.
  unfold rebuild_items, items_data.
  rewrite list_lookup_fmap, enumerate_lookup, list_lookup_fmap.
  by destruct (l !! i).
Qed.

Lemma rebuild_renumbered (l : list BomItem) :
  Forall as_constructed l →
  rebuild_items (items_data (renumber l)) = renumber l.
Proof.
  intros Hl. apply list_eq. intros i.
  rewrite rebuild_lookup, renumber_lookup.
  destruct (l !! i) as [x|] eqn:E; [|done].
  cbn [fmap option_fmap option_map]. f_equal.
  destruct (proj1 (Forall_lookup _ _) Hl i x E) as (Ho & Hm & He).
  destruct x. cbn in *. unfold new_item, set_line_no. cbn.
  by rewrite Ho, Hm, He.
Qed.

(** X21. Review without edits changes nothing: when the client sends back
    the item dictionaries of the upload answer as they are, the generate
    route rebuilds exactly the items extracted, whatever the listing. When
    no item was extracted the route answers 400 with
    [No items to generate] and writes no document; otherwise the document
    it sends, with whatever header information, is the one written from
    the extracted items themselves. *)
Theorem review_round_trip extract_metadata (pdf : Document) (start_page : Z)
    (header : HeaderInfo) :
  let r := extract_items_from_pdf extract_metadata pdf start_page in
  rebuild_items (items_data (items r)) = items r
  ∧ (items r = [] →
     generate_route (items_data (items r)) header
     = BadRequest (py "No items to generate"))
  ∧ (items r ≠ [] →
     generate_route (items_data (items r)) header
     = SendFile (generate_dd1750_from_items (items r) None).1).
Proof.
  intros r.
  assert (rebuild_items (items_data (items r)) = items r) as H.
  { destruct (run_items_renumbered extract_metadata pdf start_page)
      as (l & Hl & Hc).
    fold r in Hl. rewrite Hl. by apply rebuild_renumbered. }
  split_and!; [done | by intros -> |].
  intros Hne. unfold generate_route.
  destruct (items_data (items r)) as [|d ds] eqn:E.
  - destruct (items r); [done | discriminate].
  - rewrite H.
    by rewrite (generate_printed (items r) (items r) (Some header) None).
Qed.

Lemma review_round_trip_witness :
  generate_route
    (items_data
       (items (extract_items_from_pdf no_metadata
                 (Returns [sample_listing_page]) 0)))
    {| packed_by := py "SGT DOE"; num_boxes := py "1";
       requisition_no := []; order_no := []; end_item := []; date := [] |}
  = SendFile
      (generate_dd1750_from_items
         (items (extract_items_from_pdf no_metadata
                   (Returns [sample_listing_page]) 0)) None).1
  ∧ generate_route
      (items_data
         (items (extract_items_from_pdf no_metadata (Raises (py "no file"))
                   0)))
      {| packed_by := []; num_boxes := []; requisition_no := [];
         order_no := []; end_item := []; date := [] |}
    = BadRequest (py "No items to generate").
Proof.
  split.
  - apply (proj2 (proj2 (review_round_trip no_metadata
                           (Returns [sample_listing_page]) 0%Z _))).
    discriminate.
  - apply (proj1 (proj2 (review_round_trip no_metadata
                           (Raises (py "no file")) 0%Z _))).
    reflexivity.
Defined.

Lemma after_last_dot_none s :
  after_last_dot s = None ↔ "."%char ∉ s.
Proof.
  induction s as [|c t IH]; cbn [after_last_dot].
  - split; [intros _ H; by apply elem_of_nil in H|done].
  - destruct (after_last_dot t) as [e|].
    + split; [done|]. intros H. exfalso.
      assert ("."%char ∉ t) as Ht
        by (intros Hin; apply H; by apply list_elem_of_further).
      apply IH in Ht. done.
    + destruct (Ascii.eqb c ".") eqn:E.
      * apply Ascii.eqb_eq in E as ->. split; [done|].
        intros H. exfalso. apply H. apply list_elem_of_here.
      * split; [|done]. intros _ Hin.
        apply elem_of_cons in Hin as [<-|Hin].
        -- by rewrite Ascii.eqb_refl in E.
        -- by apply (proj1 IH).
Qed.

Lemma after_last_dot_spec s ext :
  after_last_dot s = Some ext
  ↔ ∃ base, s = base ++ "."%char :: ext ∧ "."%char ∉ ext.
Proof.
  split.
  - revert ext. induction s as [|c t IH]; intros ext; [done|].
    cbn [after_last_dot].
    destruct (after_last_dot t) as [e|] eqn:Et.
    + intros [= <-]. destruct (IH e eq_refl) as (base & -> & Hn).
      by exists (c :: base).
    + destruct (Ascii.eqb c ".") eqn:E; [|done].
      apply Ascii.eqb_eq in E as ->. intros [= <-].
      exists []. split; [done|]. by apply after_last_dot_none.
  - intros (base & -> & Hn). induction base as [|c b IH].
    + cbn [app after_last_dot].
      by rewrite (proj2 (after_last_dot_none ext) Hn).
    + cbn [app after_last_dot]. by rewrite IH.
Qed.

Lemma lower_pdf_no_dot ext :
  lower ext = py "pdf" → "."%char ∉ ext.
Proof.
  intros H Hin. apply (list_elem_of_fmap_2 lower_char) in Hin.
  change (lower_char <$> ext) with (lower ext) in Hin. rewrite H in Hin.
  vm_compute in Hin. repeat (apply elem_of_cons in Hin as [Hin|Hin]; [done|]).
  by apply elem_of_nil in Hin.
Qed.

(** X23. A file name is accepted exactly when it ends with a dot followed
    by [pdf] in any mix of letter cases: what precedes the extension does
    not matter, and a name with no dot, or with anything after the
    extension, is refused. *)
Theorem allowed_file_spec (filename : str) :
  allowed_file filename = true
  ↔ ∃ base ext, filename = base ++ "."%char :: ext ∧ lower ext = py "pdf".
Proof.
  unfold allowed_file, ALLOWED_EXTENSIONS. cbn [existsb]. split.
  - destruct (after_last_dot filename) as [ext|] eqn:E; [|done].
    apply after_last_dot_spec in E as (base & -> & _).
    rewrite orb_false_r. intros H%str_eqb_eq. by exists base, ext.
  - intros (base & ext & -> & H).
    rewrite (proj2 (after_last_dot_spec _ ext)).
    + rewrite orb_false_r. by apply str_eqb_eq.
    + exists base. split; [done|]. by apply lower_pdf_no_dot.
Qed.

Lemma allowed_file_spec_witness :
  allowed_file (py "Listing.v2.PdF") = true
  ∧ ¬ (∃ base ext, py "listing.pdf.exe" = base ++ "."%char :: ext
                   ∧ lower ext = py "pdf").
Proof.
  split.
  - apply allowed_file_spec. by exists (py "Listing.v2"), (py "PdF").
  - intros H. apply allowed_file_spec in H. discriminate.
Defined.
